(** * BME280 driver core: shallow embedding and verified properties

    The C driver (bme280.c) is embedded function by function.  Machine
    integers are [Z] with the wrap-around of every cast written out, the
    platform behind the three driver callbacks is an abstract state [W]
    threaded through every call, and each call through a callback is logged
    so that bus traffic can be counted. *)

From Stdlib Require Import ZArith List Bool Lia.
From stdpp Require Import gmap.
Import ListNotations.

Local Open Scope Z_scope.

(** ** Fixed-width integers *)

Definition u8 (x : Z) : Z := x mod 256.
Definition u16 (x : Z) : Z := x mod 65536.
Definition u32 (x : Z) : Z := x mod 4294967296.

Definition s8 (x : Z) : Z := (x + 128) mod 256 - 128.
Definition s16 (x : Z) : Z := (x + 32768) mod 65536 - 32768.
Definition s32 (x : Z) : Z := (x + 2147483648) mod 4294967296 - 2147483648.
Definition s64 (x : Z) : Z :=
  (x + 9223372036854775808) mod 18446744073709551616 - 9223372036854775808.

(** Bounded exhaustive check, used to settle facts about single bytes. *)
Fixpoint all_below (n : nat) (p : Z -> bool) : bool :=
  match n with
  | O => true
  | S k => p (Z.of_nat k) && all_below k p
  end.

(** ** Private macros of bme280.c *)

(** [CAT_I16T(msb, lsb)]: concatenate two bytes into a signed half-word. *)
Definition CAT_I16T (msb lsb : Z) : Z :=
  s16 (Z.lor (Z.shiftl (s16 msb) 8) (s16 lsb)).

(** [CAT_UI16T(msb, lsb)]: concatenate two bytes into an unsigned half-word. *)
Definition CAT_UI16T (msb lsb : Z) : Z :=
  u16 (Z.lor (Z.shiftl (u16 msb) 8) (u16 lsb)).

(** ** Constants of bme280_definitions.h *)

(** Modelled from the spec: bme280_definitions.h is not part of the sources.
    Return codes are the seven mutually exclusive result kinds of the spec's
    error model; only their being pairwise distinct is ever used. *)
Definition BME280_OK : Z := 0.
Definition BME280_PARAM_ERR : Z := -1.
Definition BME280_INTERFACE_ERR : Z := -2.
Definition BME280_ID_ERR : Z := -3.
Definition BME280_NO_INIT_ERR : Z := -4.
Definition BME280_CONDITION_ERR : Z := -5.
Definition BME280_BUSY_ERR : Z := -6.

(** Modelled from the spec: register address map of the sensor, with the
    values defined by the manufacturer. *)
Definition BME280_CALIB_DATA1_ADDR : Z := 0x88.
Definition BME280_ID_ADDR : Z := 0xD0.
Definition BME280_RESET_ADDR : Z := 0xE0.
Definition BME280_CALIB_DATA2_ADDR : Z := 0xE1.
Definition BME280_CTRL_HUM_ADDR : Z := 0xF2.
Definition BME280_STATUS_ADDR : Z := 0xF3.
Definition BME280_CTRL_MEAS_ADDR : Z := 0xF4.
Definition BME280_CONFIG_ADDR : Z := 0xF5.
Definition BME280_RESET_VALUE : Z := 0xB6.
Definition BME280_ID : Z := 0x60.

(** Modelled from the spec: the calibration read fetches 25 bytes and then
    7 bytes into one 32-byte buffer. *)
Definition BME280_CALIB_DATA1_LEN : Z := 25.
Definition BME280_CALIB_DATA2_LEN : Z := 7.

(** Modelled from the spec: operating modes (the same values as the private
    enum [sleep_mode], [forced_mode], [normal_mode] of bme280.c). *)
Definition BME280_SLEEPMODE : Z := 0.
Definition BME280_FORCEDMODE : Z := 1.
Definition BME280_NORMALMODE : Z := 3.

(** Modelled from the spec: oversampling register codes; code 3 stands for
    x4, code 4 for x8 and code 5 for x16. *)
Definition BME280_OVERSAMPLING_SKIPPED : Z := 0.
Definition BME280_OVERSAMPLING_X1 : Z := 1.
Definition BME280_OVERSAMPLING_X2 : Z := 2.
Definition BME280_OVERSAMPLING_X4 : Z := 3.
Definition BME280_OVERSAMPLING_X8 : Z := 4.
Definition BME280_OVERSAMPLING_X16 : Z := 5.

(** Modelled from the spec: largest stand-by code and largest filter code of
    the three-bit config-register fields. *)
Definition BME280_STBY_20MS : Z := 7.
Definition BME280_FILTER_16 : Z := 4.

(** Private enums of bme280.c. *)
Definition sleep_mode : Z := 0.
Definition forced_mode : Z := 1.
Definition normal_mode : Z := 3.
Definition not_initialized : Z := 0.
Definition initialized_flag : Z := 1.

(** ** Calibration store *)

(** Modelled from the spec: [struct BME280_calibration_data] is declared in
    the missing header; the fields are the trims the parser assigns, typed
    as the data model lists them. *)
Record BME280_calibration_data : Type := {
  dig_T1 : Z; dig_T2 : Z; dig_T3 : Z;
  dig_P1 : Z; dig_P2 : Z; dig_P3 : Z; dig_P4 : Z; dig_P5 : Z;
  dig_P6 : Z; dig_P7 : Z; dig_P8 : Z; dig_P9 : Z;
  dig_H1 : Z; dig_H2 : Z; dig_H3 : Z; dig_H4 : Z; dig_H5 : Z; dig_H6 : Z
}.

(** Element [i] of a [uint8_t] buffer filled from [buf]; where the driver
    delivered no byte the element reads as 0, the value the one-byte locals
    are initialised with. *)
Definition byte_at (buf : list Z) (i : nat) : Z := u8 (nth i buf 0).

(** The parsing half of [bme280_read_compensation_parameters]: the
    assignments made from [tmp_buff] once both reads have succeeded. *)
Definition parse_compensation_parameters (tmp_buff : list Z)
  : BME280_calibration_data :=
  let b := byte_at tmp_buff in
  {| dig_T1 := CAT_UI16T (b 1%nat) (b 0%nat);
     dig_T2 := CAT_I16T (b 3%nat) (b 2%nat);
     dig_T3 := CAT_I16T (b 5%nat) (b 4%nat);
     dig_P1 := CAT_UI16T (b 7%nat) (b 6%nat);
     dig_P2 := CAT_I16T (b 9%nat) (b 8%nat);
     dig_P3 := CAT_I16T (b 11%nat) (b 10%nat);
     dig_P4 := CAT_I16T (b 13%nat) (b 12%nat);
     dig_P5 := CAT_I16T (b 15%nat) (b 14%nat);
     dig_P6 := CAT_I16T (b 17%nat) (b 16%nat);
     dig_P7 := CAT_I16T (b 19%nat) (b 18%nat);
     dig_P8 := CAT_I16T (b 21%nat) (b 20%nat);
     dig_P9 := CAT_I16T (b 23%nat) (b 22%nat);
     dig_H1 := u8 (b 24%nat);
     dig_H2 := CAT_I16T (b 26%nat) (b 25%nat);
     dig_H3 := u8 (b 27%nat);
     dig_H4 := s16 (Z.lor (Z.shiftl (s16 (b 28%nat)) 4)
                          (Z.land (s16 (b 29%nat)) 0x0F));
     dig_H5 := s16 (Z.lor (Z.shiftl (s16 (b 30%nat)) 4)
                          (Z.shiftr (s16 (b 29%nat)) 4));
     dig_H6 := s8 (b 31%nat) |}.

(** ** Configuration value object *)

(** Modelled from the spec: [BME280_Config_t] is declared in the missing
    header; its fields are the ones [BME280_ConfigureAll] reads. *)
Module Config.
Record t : Type := {
  oversampling_t : Z;
  oversampling_p : Z;
  oversampling_h : Z;
  t_stby : Z;
  filter : Z;
  spi3w_enable : Z;
  mode : Z
}.
End Config.

(** ** Bus capability and device state *)

(** What crossed the driver interface, in program order. *)
Inductive bus_event : Type :=
| EvRead (reg_addr rxlen : Z)
| EvWrite (reg_addr value : Z)
| EvDelay (ms : Z).

Definition is_read (e : bus_event) : bool :=
  match e with EvRead _ _ => true | _ => false end.
Definition is_write (e : bus_event) : bool :=
  match e with EvWrite _ _ => true | _ => false end.

Section Driver.

(** State of the platform behind the callbacks (bus and sensor). *)
Variable W : Type.

Definition bme280_readregisters : Type := Z -> Z -> W -> Z * list Z * W.
Definition bme280_writeregister : Type := Z -> Z -> W -> Z * W.
Definition bme280_delayms : Type := Z -> W -> W.

(** Modelled from the spec: [BME280_Driver_t] holds the three capability
    functions; a null function pointer is [None]. *)
Record BME280_Driver_t : Type := {
  read : option bme280_readregisters;
  write : option bme280_writeregister;
  delay : option bme280_delayms
}.

(** Modelled from the spec: [BME280_t], the device state.  [Dev->driver]
    is a pointer to the driver structure; it is null ([None]) until
    [BME280_Init] attaches one. *)
Record BME280_t : Type := {
  driver_ptr : option BME280_Driver_t;
  mode : Z;
  initialized : Z;
  trimm : BME280_calibration_data;
  t_fine : Z
}.

(** [*Dev->driver], the structure a call through the pointer reaches.
    Behind a null pointer there is no callback to call: a call through it
    has no defined behaviour, like a call through a null callback. *)
Definition driver (Dev : BME280_t) : BME280_Driver_t :=
  match driver_ptr Dev with
  | Some d => d
  | None => {| read := None; write := None; delay := None |}
  end.

(** The platform together with the log of calls made through the driver. *)
Record Bus : Type := {
  world : W;
  trace : list bus_event
}.

Definition bus_reads (b : Bus) : nat := length (List.filter is_read (trace b)).
Definition bus_writes (b : Bus) : nat := length (List.filter is_write (trace b)).

Definition log (e : bus_event) (w : W) (b : Bus) : Bus :=
  {| world := w; trace := trace b ++ [e] |}.

Definition set_driver (Dev : BME280_t) (d : BME280_Driver_t) : BME280_t :=
  {| driver_ptr := Some d; mode := mode Dev; initialized := initialized Dev;
     trimm := trimm Dev; t_fine := t_fine Dev |}.
Definition set_mode (Dev : BME280_t) (m : Z) : BME280_t :=
  {| driver_ptr := driver_ptr Dev; mode := m; initialized := initialized Dev;
     trimm := trimm Dev; t_fine := t_fine Dev |}.
Definition set_initialized (Dev : BME280_t) (i : Z) : BME280_t :=
  {| driver_ptr := driver_ptr Dev; mode := mode Dev; initialized := i;
     trimm := trimm Dev; t_fine := t_fine Dev |}.
Definition set_trimm (Dev : BME280_t) (c : BME280_calibration_data) : BME280_t :=
  {| driver_ptr := driver_ptr Dev; mode := mode Dev; initialized := initialized Dev;
     trimm := c; t_fine := t_fine Dev |}.

(** Calls through the function pointers of [Dev->driver].  A call through
    a null pointer has no defined behaviour: the result is [None]. *)
Definition drv_read (Dev : BME280_t) (reg_addr rxlen : Z) (b : Bus)
  : option (Z * list Z * Bus) :=
  f ← read (driver Dev);
  let '(res, rxbuff, w) := f reg_addr rxlen (world b) in
  Some (res, rxbuff, log (EvRead reg_addr rxlen) w b).

Definition drv_write (Dev : BME280_t) (reg_addr value : Z) (b : Bus)
  : option (Z * Bus) :=
  f ← write (driver Dev);
  let '(res, w) := f reg_addr value (world b) in
  Some (res, log (EvWrite reg_addr value) w b).

Definition drv_delay (Dev : BME280_t) (ms : Z) (b : Bus) : option Bus :=
  f ← delay (driver Dev);
  Some (log (EvDelay ms) (f ms (world b)) b).

Definition IS_NULL {A : Type} (x : option A) : bool :=
  match x with None => true | Some _ => false end.

(** What a public function leaves behind: return code, device, bus. *)
Definition outcome : Type := option (Z * BME280_t * Bus).

(** *** Mode checks *)

Definition bme280_is_sleep_mode (Dev : BME280_t) : Z :=
  if not_initialized =? initialized Dev then BME280_NO_INIT_ERR
  else if negb (sleep_mode =? mode Dev) then BME280_CONDITION_ERR
  else BME280_OK.

(** *** Reset and initialisation *)

(** The guard reads [Dev->driver->write] without testing [Dev->driver]:
    on a device no driver was attached to, the null pointer is dereferenced
    and there is no defined result. *)
Definition BME280_Reset (Dev : BME280_t) (b : Bus) : outcome :=
  d ← driver_ptr Dev;
  if IS_NULL (write d) then Some (BME280_PARAM_ERR, Dev, b)
  else
    '(res, b1) ← drv_write Dev BME280_RESET_ADDR BME280_RESET_VALUE b;
    Some (res, set_mode Dev sleep_mode, b1).

(** The 32-byte [tmp_buff] after the two calibration reads: the first
    fills it from index 0, the second from index 25. *)
Definition calib_buffer (rx1 rx2 : list Z) : list Z :=
  map (fun i => if (i <? 25)%nat then nth i rx1 0 else nth (i - 25) rx2 0)
      (seq 0 32).

Definition bme280_read_compensation_parameters (Dev : BME280_t) (b : Bus)
  : outcome :=
  '(res, rx1, b1) ← drv_read Dev BME280_CALIB_DATA1_ADDR BME280_CALIB_DATA1_LEN b;
  if negb (BME280_OK =? res) then Some (BME280_INTERFACE_ERR, Dev, b1)
  else
    '(res, rx2, b2) ← drv_read Dev BME280_CALIB_DATA2_ADDR BME280_CALIB_DATA2_LEN b1;
    if negb (BME280_OK =? res) then Some (BME280_INTERFACE_ERR, Dev, b2)
    else
      Some (BME280_OK,
            set_trimm Dev (parse_compensation_parameters (calib_buffer rx1 rx2)),
            b2).

Definition BME280_Init (Dev : BME280_t) (Driver : BME280_Driver_t) (b : Bus)
  : outcome :=
  if IS_NULL (write Driver) || IS_NULL (read Driver) || IS_NULL (delay Driver)
  then Some (BME280_PARAM_ERR, Dev, b)
  else
    let Dev := set_driver Dev Driver in
    '(res, Dev, b) ← BME280_Reset Dev b;
    if negb (BME280_OK =? res) then Some (res, Dev, b)
    else
      b ← drv_delay Dev 4 b;
      '(res, id, b) ← drv_read Dev BME280_ID_ADDR 1 b;
      if negb (BME280_OK =? res) then Some (BME280_INTERFACE_ERR, Dev, b)
      else
        (* if(BME280_ID != id) return BME280_ID_ERR;  -- commented out *)
        '(res, Dev, b) ← bme280_read_compensation_parameters Dev b;
        if BME280_OK =? res
        then Some (res, set_initialized Dev initialized_flag, b)
        else Some (res, Dev, b).


(** *** Bulk configuration *)

Definition BME280_ConfigureAll (Dev : BME280_t) (Cfg : Config.t) (b : Bus)
  : outcome :=
  let res := bme280_is_sleep_mode Dev in
  if negb (BME280_OK =? res) then Some (res, Dev, b)
  else
    let ctrl_hum := u8 (Z.land (Config.oversampling_h Cfg) 0x07) in
    let ctrl_meas := 0 in
    let ctrl_meas :=
      u8 (Z.lor ctrl_meas (Z.land (Z.shiftl (Config.oversampling_t Cfg) 5) 0xE0)) in
    let ctrl_meas :=
      u8 (Z.lor ctrl_meas (Z.land (Z.shiftl (Config.oversampling_p Cfg) 2) 0x1C)) in
    let ctrl_meas := u8 (Z.lor ctrl_meas (Z.land (Config.mode Cfg) 0x03)) in
    let config := 0 in
    let config := u8 (Z.lor config (Z.land (Z.shiftl (Config.t_stby Cfg) 5) 0xE0)) in
    let config := u8 (Z.lor config (Z.land (Z.shiftl (Config.filter Cfg) 2) 0x1C)) in
    let config := u8 (Z.lor config (Z.land (Config.spi3w_enable Cfg) 0x01)) in
    '(res, b) ← drv_write Dev BME280_CTRL_HUM_ADDR ctrl_hum b;
    if negb (BME280_OK =? res) then Some (BME280_INTERFACE_ERR, Dev, b)
    else
      '(res, b) ← drv_write Dev BME280_CTRL_MEAS_ADDR ctrl_meas b;
      if negb (BME280_OK =? res) then Some (BME280_INTERFACE_ERR, Dev, b)
      else
        '(res, b) ← drv_write Dev BME280_CONFIG_ADDR config b;
        if negb (BME280_OK =? res) then Some (BME280_INTERFACE_ERR, Dev, b)
        else
          let Dev :=
            if BME280_SLEEPMODE =? Config.mode Cfg then set_mode Dev sleep_mode
            else if BME280_FORCEDMODE =? Config.mode Cfg then set_mode Dev forced_mode
            else if BME280_NORMALMODE =? Config.mode Cfg then set_mode Dev normal_mode
            else Dev in
          Some (res, Dev, b).

(** *** Setters *)

Definition BME280_SetMode (Dev : BME280_t) (Mode : Z) (b : Bus) : outcome :=
  if BME280_NORMALMODE <? Mode then Some (BME280_PARAM_ERR, Dev, b)
  else
    let res := bme280_is_sleep_mode Dev in
    if BME280_NO_INIT_ERR =? res then Some (res, Dev, b)
    else
      '(res, rx, b) ← drv_read Dev BME280_CTRL_MEAS_ADDR 1 b;
      if negb (BME280_OK =? res) then Some (BME280_INTERFACE_ERR, Dev, b)
      else
        let ctrl_meas := byte_at rx 0 in
        let tmp := Z.land ctrl_meas 0x03 in
        let tmp := if 0x02 =? tmp then BME280_FORCEDMODE else tmp in
        if Mode =? tmp then Some (BME280_OK, Dev, b)
        else
          let ctrl_meas := u8 (Z.land ctrl_meas 0xFC) in
          let ctrl_meas := u8 (Z.lor ctrl_meas Mode) in
          '(res, b) ← drv_write Dev BME280_CTRL_MEAS_ADDR ctrl_meas b;
          if negb (BME280_OK =? res) then Some (BME280_INTERFACE_ERR, Dev, b)
          else Some (res, set_mode Dev Mode, b).

Definition BME280_SetPOvs (Dev : BME280_t) (POvs : Z) (b : Bus) : outcome :=
  if BME280_OVERSAMPLING_X16 <? POvs then Some (BME280_PARAM_ERR, Dev, b)
  else
    let res := bme280_is_sleep_mode Dev in
    if negb (BME280_OK =? res) then Some (res, Dev, b)
    else
      '(res, rx, b) ← drv_read Dev BME280_CTRL_MEAS_ADDR 1 b;
      if negb (BME280_OK =? res) then Some (BME280_INTERFACE_ERR, Dev, b)
      else
        let ctrl_meas := byte_at rx 0 in
        let tmp := Z.land (Z.shiftr ctrl_meas 2) 0x07 in
        if POvs =? tmp then Some (BME280_OK, Dev, b)
        else
          let ctrl_meas := u8 (Z.land ctrl_meas 0xE3) in
          let ctrl_meas := u8 (Z.lor ctrl_meas (Z.shiftl POvs 2)) in
          '(res, b) ← drv_write Dev BME280_CTRL_MEAS_ADDR ctrl_meas b;
          Some (res, Dev, b).

Definition BME280_SetTOvs (Dev : BME280_t) (TOvs : Z) (b : Bus) : outcome :=
  if BME280_OVERSAMPLING_X16 <? TOvs then Some (BME280_PARAM_ERR, Dev, b)
  else
    let res := bme280_is_sleep_mode Dev in
    if negb (BME280_OK =? res) then Some (res, Dev, b)
    else
      '(res, rx, b) ← drv_read Dev BME280_CTRL_MEAS_ADDR 1 b;
      if negb (BME280_OK =? res) then Some (BME280_INTERFACE_ERR, Dev, b)
      else
        let ctrl_meas := byte_at rx 0 in
        let tmp := Z.land (Z.shiftr ctrl_meas 5) 0x07 in
        if TOvs =? tmp then Some (BME280_OK, Dev, b)
        else
          let ctrl_meas := u8 (Z.land ctrl_meas 0x1F) in
          let ctrl_meas := u8 (Z.lor ctrl_meas (Z.shiftl TOvs 5)) in
          '(res, b) ← drv_write Dev BME280_CTRL_MEAS_ADDR ctrl_meas b;
          Some (res, Dev, b).

Definition BME280_SetHOvs (Dev : BME280_t) (HOvs : Z) (b : Bus) : outcome :=
  if BME280_OVERSAMPLING_X16 <? HOvs then Some (BME280_PARAM_ERR, Dev, b)
  else
    let res := bme280_is_sleep_mode Dev in
    if negb (BME280_OK =? res) then Some (res, Dev, b)
    else
      '(res, b) ← drv_write Dev BME280_CTRL_HUM_ADDR HOvs b;
      if negb (BME280_OK =? res) then Some (BME280_INTERFACE_ERR, Dev, b)
      else
        (* to make the change effective ctrl_meas is read and written back *)
        '(res, rx, b) ← drv_read Dev BME280_CTRL_MEAS_ADDR 1 b;
        if negb (BME280_OK =? res) then Some (BME280_INTERFACE_ERR, Dev, b)
        else
          let tmp := byte_at rx 0 in
          '(res, b) ← drv_write Dev BME280_CTRL_MEAS_ADDR tmp b;
          Some (res, Dev, b).

Definition BME280_SetTStby (Dev : BME280_t) (TStby : Z) (b : Bus) : outcome :=
  if BME280_STBY_20MS <? TStby then Some (BME280_PARAM_ERR, Dev, b)
  else
    let res := bme280_is_sleep_mode Dev in
    if negb (BME280_OK =? res) then Some (res, Dev, b)
    else
      '(res, rx, b) ← drv_read Dev BME280_CONFIG_ADDR 1 b;
      if negb (BME280_OK =? res) then Some (BME280_INTERFACE_ERR, Dev, b)
      else
        let config := byte_at rx 0 in
        let tmp := Z.land (Z.shiftr config 5) 0x07 in
        if TStby =? tmp then Some (BME280_OK, Dev, b)
        else
          let config := u8 (Z.land config 0x1F) in
          let config := u8 (Z.lor config (Z.shiftl TStby 5)) in
          '(res, b) ← drv_write Dev BME280_CONFIG_ADDR config b;
          Some (res, Dev, b).

Definition BME280_SetFilter (Dev : BME280_t) (Filter : Z) (b : Bus) : outcome :=
  if BME280_FILTER_16 <? Filter then Some (BME280_PARAM_ERR, Dev, b)
  else
    let res := bme280_is_sleep_mode Dev in
    if negb (BME280_OK =? res) then Some (res, Dev, b)
    else
      '(res, rx, b) ← drv_read Dev BME280_CONFIG_ADDR 1 b;
      if negb (BME280_OK =? res) then Some (BME280_INTERFACE_ERR, Dev, b)
      else
        let config := byte_at rx 0 in
        let tmp := Z.land (Z.shiftr config 2) 0x07 in
        if Filter =? tmp then Some (BME280_OK, Dev, b)
        else
          let config := u8 (Z.land config 0xE3) in
          let config := u8 (Z.lor config (Z.shiftl Filter 2)) in
          '(res, b) ← drv_write Dev BME280_CONFIG_ADDR config b;
          Some (res, Dev, b).

Definition BME280_Enable3WireSPI (Dev : BME280_t) (b : Bus) : outcome :=
  let res := bme280_is_sleep_mode Dev in
  if negb (BME280_OK =? res) then Some (res, Dev, b)
  else
    '(res, rx, b) ← drv_read Dev BME280_CONFIG_ADDR 1 b;
    if negb (BME280_OK =? res) then Some (BME280_INTERFACE_ERR, Dev, b)
    else
      let config := byte_at rx 0 in
      let tmp := Z.land config 0x01 in
      if 0x01 =? tmp then Some (BME280_OK, Dev, b)
      else
        let config := u8 (Z.land config 0xFE) in
        let config := u8 (Z.lor config 0x01) in
        '(res, b) ← drv_write Dev BME280_CONFIG_ADDR config b;
        Some (res, Dev, b).

Definition BME280_Disable3WireSPI (Dev : BME280_t) (b : Bus) : outcome :=
  let res := bme280_is_sleep_mode Dev in
  if negb (BME280_OK =? res) then Some (res, Dev, b)
  else
    '(res, rx, b) ← drv_read Dev BME280_CONFIG_ADDR 1 b;
    if negb (BME280_OK =? res) then Some (BME280_INTERFACE_ERR, Dev, b)
    else
      let config := byte_at rx 0 in
      let tmp := Z.land config 0x01 in
      if 0x00 =? tmp then Some (BME280_OK, Dev, b)
      else
        let config := u8 (Z.land config 0xFE) in
        '(res, b) ← drv_write Dev BME280_CONFIG_ADDR config b;
        Some (res, Dev, b).

(** The common shape of the six read-compare-write setters after their
    parameter check, used to reason about them at once: the sleep-mode check,
    one register read, the comparison of the current field [field reg] with
    the requested value, and the write of [upd reg] when they differ. *)
Definition set_field (Dev : BME280_t) (reg_addr value : Z)
  (field upd : Z -> Z) (b : Bus) : outcome :=
  let res := bme280_is_sleep_mode Dev in
  if negb (BME280_OK =? res) then Some (res, Dev, b)
  else
    '(res, rx, b) ← drv_read Dev reg_addr 1 b;
    if negb (BME280_OK =? res) then Some (BME280_INTERFACE_ERR, Dev, b)
    else
      if value =? field (byte_at rx 0) then Some (BME280_OK, Dev, b)
      else
        '(res, b) ← drv_write Dev reg_addr (upd (byte_at rx 0)) b;
        Some (res, Dev, b).

(** *** Forced-measurement orchestrator *)

Definition bme280_osrs_to_oversampling (osrs : Z) : Z :=
  if osrs <=? BME280_OVERSAMPLING_X2 then osrs
  else if BME280_OVERSAMPLING_X4 =? osrs then 4
  else if BME280_OVERSAMPLING_X8 =? osrs then 8
  else 16.

(** The worst-case conversion time in milliseconds that
    [bme280_set_forced_mode] stores through [delay], computed in unsigned
    arithmetic from the three multipliers and narrowed to [uint8_t]. *)
Definition forced_delay (osrs_t osrs_p osrs_h : Z) : Z :=
  u8 (u32 (u32 (125 + 230 * osrs_t + (230 * osrs_p + 58) + (230 * osrs_h + 58))
           / 100 + 1)).

(** [delay0] is the content of [*delay] before the call; the second
    component of the result is its content after the call. *)
Definition bme280_set_forced_mode (Dev : BME280_t) (delay0 : Z) (b : Bus)
  : option (Z * Z * Bus) :=
  '(res, buff, b) ← drv_read Dev BME280_CTRL_HUM_ADDR 3 b;
  if negb (BME280_OK =? res) then Some (BME280_INTERFACE_ERR, delay0, b)
  else
    let buff1 := u8 (Z.land (byte_at buff 1) 0x09) in
    if negb (0 =? buff1) then Some (BME280_BUSY_ERR, delay0, b)
    else
      let mode' := Z.land (byte_at buff 2) 0x03 in
      if negb (BME280_SLEEPMODE =? mode') then Some (BME280_CONDITION_ERR, delay0, b)
      else
        let osrs_p := Z.land (Z.shiftr (byte_at buff 2) 2) 0x07 in
        let osrs_t := Z.land (Z.shiftr (byte_at buff 2) 5) 0x07 in
        let osrs_h := Z.land (byte_at buff 0) 0x07 in
        let osrs_p := bme280_osrs_to_oversampling osrs_p in
        let osrs_t := bme280_osrs_to_oversampling osrs_t in
        let osrs_h := bme280_osrs_to_oversampling osrs_h in
        let delay' := forced_delay osrs_t osrs_p osrs_h in
        let buff2 := u8 (Z.land (byte_at buff 2) 0xFC) in
        let buff2 := u8 (Z.lor buff2 BME280_FORCEDMODE) in
        '(res, b) ← drv_write Dev BME280_CTRL_MEAS_ADDR buff2 b;
        if negb (BME280_OK =? res) then Some (BME280_INTERFACE_ERR, delay', b)
        else Some (res, delay', b).

(** *** Compensation engine *)

(** 32-bit and 64-bit signed arithmetic with wrap-around; [>>] on a signed
    operand is the arithmetic shift. *)
Definition add32 (a b : Z) : Z := s32 (a + b).
Definition sub32 (a b : Z) : Z := s32 (a - b).
Definition mul32 (a b : Z) : Z := s32 (a * b).
Definition shl32 (a n : Z) : Z := s32 (Z.shiftl a n).
Definition sar32 (a n : Z) : Z := Z.shiftr a n.
Definition add64 (a b : Z) : Z := s64 (a + b).
Definition sub64 (a b : Z) : Z := s64 (a - b).
Definition mul64 (a b : Z) : Z := s64 (a * b).

(** Division as the machine performs it: truncating, and a fault ([None])
    when the divisor is zero. *)
Definition div64 (a b : Z) : option Z :=
  if b =? 0 then None else Some (s64 (Z.quot a b)).
Definition udiv32 (a b : Z) : option Z :=
  if b =? 0 then None else Some (u32 (a / b)).

(** 64-bit path: the value of [var1] that reaches the test [var1 != 0]. *)
Definition p64_var1 (Dev : BME280_t) : option Z :=
  let c := trimm Dev in
  let var1 := sub64 (t_fine Dev) 128000 in
  q ← div64 (mul64 (mul64 var1 var1) (dig_P3 c)) 256;
  let var1 := add64 q (mul64 (mul64 var1 (dig_P2 c)) 4096) in
  let var3 := mul64 1 140737488355328 in
  div64 (mul64 (add64 var3 var1) (dig_P1 c)) 8589934592.

(** [bme280_compensate_p_u32t] with [USE_64BIT] defined. *)
Definition bme280_compensate_p_u32t_64 (Dev : BME280_t) (adc_P : Z) : option Z :=
  let c := trimm Dev in
  let var1 := sub64 (t_fine Dev) 128000 in
  let var2 := mul64 (mul64 var1 var1) (dig_P6 c) in
  let var2 := add64 var2 (mul64 (mul64 var1 (dig_P5 c)) 131072) in
  let var2 := add64 var2 (mul64 (dig_P4 c) 34359738368) in
  var1 ← p64_var1 Dev;
  if negb (var1 =? 0) then
    let var4 := sub32 1048576 adc_P in
    var4 ← div64 (mul64 (sub64 (mul64 var4 2147483648) var2) 3125) var1;
    q ← div64 var4 8192;
    var1 ← div64 (mul64 (mul64 (dig_P9 c) q) q) 33554432;
    var2 ← div64 (mul64 (dig_P8 c) var4) 524288;
    q ← div64 (add64 (add64 var4 var1) var2) 256;
    let var4 := add64 q (mul64 (dig_P7 c) 16) in
    h ← div64 var4 2;
    p ← div64 (mul64 h 100) 128;
    Some (u32 p)
  else Some 0.

(** 32-bit path: the value of [var1] that reaches the test [var1 == 0]. *)
Definition p32_var1 (Dev : BME280_t) : Z :=
  let c := trimm Dev in
  let var1 := sub32 (sar32 (t_fine Dev) 1) 64000 in
  let var1 :=
    sar32 (add32 (sar32 (mul32 (dig_P3 c)
                               (sar32 (mul32 (sar32 var1 2) (sar32 var1 2)) 13)) 3)
                 (sar32 (mul32 (dig_P2 c) var1) 1)) 18 in
  sar32 (mul32 (add32 32768 var1) (dig_P1 c)) 15.

(** [bme280_compensate_p_u32t] with [USE_64BIT] not defined. *)
Definition bme280_compensate_p_u32t_32 (Dev : BME280_t) (adc_P : Z) : option Z :=
  let c := trimm Dev in
  let var1 := sub32 (sar32 (t_fine Dev) 1) 64000 in
  let var2 := mul32 (sar32 (mul32 (sar32 var1 2) (sar32 var1 2)) 11) (dig_P6 c) in
  let var2 := add32 var2 (shl32 (mul32 var1 (dig_P5 c)) 1) in
  let var2 := add32 (sar32 var2 2) (shl32 (dig_P4 c) 16) in
  let var1 := p32_var1 Dev in
  if var1 =? 0 then Some 0
  else
    let pressure := u32 (u32 (u32 (sub32 1048576 adc_P) - u32 (sar32 var2 12)) * 3125) in
    pressure ←
      (if pressure <? 0x80000000
       then udiv32 (u32 (Z.shiftl pressure 1)) (u32 var1)
       else q ← udiv32 pressure (u32 var1); Some (u32 (q * 2)));
    let var1 :=
      sar32 (mul32 (dig_P9 c)
                   (s32 (Z.shiftr (u32 (Z.shiftr pressure 3 * Z.shiftr pressure 3)) 13)))
            12 in
    let var2 := sar32 (mul32 (s32 (Z.shiftr pressure 2)) (dig_P8 c)) 13 in
    Some (u32 (add32 (s32 pressure)
                     (sar32 (add32 (add32 var1 var2) (dig_P7 c)) 4))).

(** The build-time choice between the two paths. *)
Definition bme280_compensate_p_u32t (USE_64BIT : bool) (Dev : BME280_t)
  (adc_P : Z) : option Z :=
  if USE_64BIT then bme280_compensate_p_u32t_64 Dev adc_P
  else bme280_compensate_p_u32t_32 Dev adc_P.

(** Humidity: the value of [var5] after the two saturating assignments. *)
Definition h_var5_clamped (Dev : BME280_t) (adc_H : Z) : Z :=
  let c := trimm Dev in
  let var1 := sub32 (t_fine Dev) 76800 in
  let var2 := mul32 adc_H 16384 in
  let var3 := mul32 (dig_H4 c) 1048576 in
  let var4 := mul32 (dig_H5 c) var1 in
  let var5 := s32 (Z.quot (add32 (sub32 (sub32 var2 var3) var4) 16384) 32768) in
  let var2 := s32 (Z.quot (mul32 var1 (dig_H6 c)) 1024) in
  let var3 := s32 (Z.quot (mul32 var1 (dig_H3 c)) 2048) in
  let var4 := add32 (s32 (Z.quot (mul32 var2 (add32 var3 32768)) 1024)) 2097152 in
  let var2 := s32 (Z.quot (add32 (mul32 var4 (dig_H2 c)) 8192) 16384) in
  let var3 := mul32 var5 var2 in
  let var4 :=
    s32 (Z.quot (mul32 (s32 (Z.quot var3 32768)) (s32 (Z.quot var3 32768))) 128) in
  let var5 := sub32 var3 (s32 (Z.quot (mul32 var4 (dig_H1 c)) 16)) in
  let var5 := if var5 <? 0 then 0 else var5 in
  let var5 := if var5 >? 419430400 then 419430400 else var5 in
  var5.

Definition bme280_compensate_h_u32t (Dev : BME280_t) (adc_H : Z) : Z :=
  u32 (s32 (Z.quot (h_var5_clamped Dev adc_H) 4096)).

End Driver.

Arguments read {W}.
Arguments write {W}.
Arguments delay {W}.
Arguments driver_ptr {W}.
Arguments driver {W}.
Arguments mode {W}.
Arguments initialized {W}.
Arguments trimm {W}.
Arguments t_fine {W}.
Arguments world {W}.
Arguments trace {W}.
Arguments bus_reads {W}.
Arguments bus_writes {W}.
Arguments log {W}.
Arguments set_driver {W}.
Arguments set_mode {W}.
Arguments set_initialized {W}.
Arguments set_trimm {W}.
Arguments drv_read {W}.
Arguments drv_write {W}.
Arguments drv_delay {W}.
Arguments bme280_is_sleep_mode {W}.
Arguments BME280_Reset {W}.
Arguments bme280_read_compensation_parameters {W}.
Arguments BME280_Init {W}.
Arguments BME280_ConfigureAll {W}.
Arguments BME280_SetMode {W}.
Arguments BME280_SetPOvs {W}.
Arguments BME280_SetTOvs {W}.
Arguments BME280_SetHOvs {W}.
Arguments BME280_SetTStby {W}.
Arguments BME280_SetFilter {W}.
Arguments BME280_Enable3WireSPI {W}.
Arguments BME280_Disable3WireSPI {W}.
Arguments set_field {W}.
Arguments bme280_set_forced_mode {W}.
Arguments p64_var1 {W}.
Arguments p32_var1 {W}.
Arguments bme280_compensate_p_u32t_64 {W}.
Arguments bme280_compensate_p_u32t_32 {W}.
Arguments bme280_compensate_p_u32t {W}.
Arguments h_var5_clamped {W}.
Arguments bme280_compensate_h_u32t {W}.

(** ** The setter calls as data *)

(** A call of one of the seven per-field setters or of the bulk configure
    operation, with its argument. *)
Inductive setter_call : Type :=
| CallSetPOvs (POvs : Z)
| CallSetTOvs (TOvs : Z)
| CallSetHOvs (HOvs : Z)
| CallSetTStby (TStby : Z)
| CallSetFilter (Filter : Z)
| CallEnable3WireSPI
| CallDisable3WireSPI
| CallConfigureAll (Cfg : Config.t).

Definition run_call {W : Type} (c : setter_call) (Dev : BME280_t W) (b : Bus W)
  : outcome W :=
  match c with
  | CallSetPOvs v => BME280_SetPOvs Dev v b
  | CallSetTOvs v => BME280_SetTOvs Dev v b
  | CallSetHOvs v => BME280_SetHOvs Dev v b
  | CallSetTStby v => BME280_SetTStby Dev v b
  | CallSetFilter v => BME280_SetFilter Dev v b
  | CallEnable3WireSPI => BME280_Enable3WireSPI Dev b
  | CallDisable3WireSPI => BME280_Disable3WireSPI Dev b
  | CallConfigureAll Cfg => BME280_ConfigureAll Dev Cfg b
  end.

(** The parameter check each function makes before anything else. *)
Definition param_ok (c : setter_call) : bool :=
  match c with
  | CallSetPOvs v | CallSetTOvs v | CallSetHOvs v => negb (BME280_OVERSAMPLING_X16 <? v)
  | CallSetTStby v => negb (BME280_STBY_20MS <? v)
  | CallSetFilter v => negb (BME280_FILTER_16 <? v)
  | CallEnable3WireSPI | CallDisable3WireSPI | CallConfigureAll _ => true
  end.

Definition is_per_field (c : setter_call) : bool :=
  match c with CallConfigureAll _ => false | _ => true end.

(** The six setters that read a register, compare a field and write only on
    a difference: register address, requested value, field extraction and
    register update. *)
Definition is_rmw (c : setter_call) : bool :=
  match c with
  | CallSetHOvs _ | CallConfigureAll _ => false
  | _ => true
  end.

Definition rmw_addr (c : setter_call) : Z :=
  match c with
  | CallSetPOvs _ | CallSetTOvs _ => BME280_CTRL_MEAS_ADDR
  | _ => BME280_CONFIG_ADDR
  end.

Definition requested_value (c : setter_call) : Z :=
  match c with
  | CallSetPOvs v | CallSetTOvs v | CallSetHOvs v | CallSetTStby v
  | CallSetFilter v => v
  | CallEnable3WireSPI => 0x01
  | _ => 0x00
  end.

Definition rmw_field (c : setter_call) (reg : Z) : Z :=
  match c with
  | CallSetPOvs _ | CallSetFilter _ => Z.land (Z.shiftr reg 2) 0x07
  | CallSetTOvs _ | CallSetTStby _ => Z.land (Z.shiftr reg 5) 0x07
  | _ => Z.land reg 0x01
  end.

Definition rmw_upd (c : setter_call) (reg : Z) : Z :=
  match c with
  | CallSetPOvs v | CallSetFilter v => u8 (Z.lor (u8 (Z.land reg 0xE3)) (Z.shiftl v 2))
  | CallSetTOvs v | CallSetTStby v => u8 (Z.lor (u8 (Z.land reg 0x1F)) (Z.shiftl v 5))
  | CallEnable3WireSPI => u8 (Z.lor (u8 (Z.land reg 0xFE)) 0x01)
  | _ => u8 (Z.land reg 0xFE)
  end.

(** ** A register-file sensor *)

(** An ideal sensor behind the bus: a map from register address to content;
    every read returns the stored bytes, every write stores its byte, both
    succeed. *)
Definition reg_value (regs : gmap Z Z) (a : Z) : Z := default 0 (regs !! a).

Definition sensor_read : bme280_readregisters (gmap Z Z) :=
  fun reg_addr rxlen regs =>
    (BME280_OK,
     map (fun i => reg_value regs (reg_addr + Z.of_nat i)) (seq 0 (Z.to_nat rxlen)),
     regs).

Definition sensor_write : bme280_writeregister (gmap Z Z) :=
  fun reg_addr value regs => (BME280_OK, <[reg_addr := value]> regs).

Definition sensor_delay : bme280_delayms (gmap Z Z) := fun _ regs => regs.

Definition sensor_driver : BME280_Driver_t (gmap Z Z) :=
  {| read := Some sensor_read; write := Some sensor_write;
     delay := Some sensor_delay |}.

(** A sensor whose identity register holds 0x58, not the expected 0x60. *)
Definition foreign_chip : gmap Z Z := {[ BME280_ID_ADDR := 0x58 ]}.

(** A sensor with every oversampling set to x1, idle and asleep. *)
Definition x1_chip : gmap Z Z :=
  {[ BME280_CTRL_HUM_ADDR := 0x01; BME280_CTRL_MEAS_ADDR := 0x24 ]}.

(** A sensor holding a few calibration bytes: the two bytes of T1 and the
    three bytes H4 and H5 are packed from. *)
Definition calib_chip : gmap Z Z :=
  {[ 0x88 := 0x70; 0x89 := 0x6B; 0xE4 := 0x14; 0xE5 := 0x2D; 0xE6 := 0x03 ]}.

(** A bus on which every transfer fails with code [-7]. *)
Definition broken_driver : BME280_Driver_t (gmap Z Z) :=
  {| read := Some (fun _ _ regs => (-7, [], regs));
     write := Some (fun _ _ regs => (-7, regs));
     delay := Some sensor_delay |}.

(** A driver structure with no callback set. *)
Definition null_driver : BME280_Driver_t (gmap Z Z) :=
  {| read := None; write := None; delay := None |}.

Definition no_trimm : BME280_calibration_data :=
  {| dig_T1 := 0; dig_T2 := 0; dig_T3 := 0;
     dig_P1 := 0; dig_P2 := 0; dig_P3 := 0; dig_P4 := 0; dig_P5 := 0;
     dig_P6 := 0; dig_P7 := 0; dig_P8 := 0; dig_P9 := 0;
     dig_H1 := 0; dig_H2 := 0; dig_H3 := 0; dig_H4 := 0; dig_H5 := 0;
     dig_H6 := 0 |}.

(** A device not yet initialised, with the driver structure [d] attached. *)
Definition fresh_dev (d : BME280_Driver_t (gmap Z Z)) : BME280_t (gmap Z Z) :=
  {| driver_ptr := Some d; mode := sleep_mode; initialized := not_initialized;
     trimm := no_trimm; t_fine := 0 |}.

(** An initialised device in the given mode. *)
Definition ready_dev (m : Z) : BME280_t (gmap Z Z) :=
  {| driver_ptr := Some sensor_driver; mode := m; initialized := initialized_flag;
     trimm := no_trimm; t_fine := 0 |}.

Definition quiet_bus (regs : gmap Z Z) : Bus (gmap Z Z) :=
  {| world := regs; trace := [] |}.

(** ** The delay formula as the specification words it *)

(** Register code to multiplier: codes 0..2 unchanged, 3 gives 4, 4 gives 8,
    anything higher gives 16. *)
Definition spec_multiplier (code : Z) : Z :=
  if code <=? 2 then code
  else if code =? 3 then 4
  else if code =? 4 then 8
  else 16.

Definition delay_model (t_ovs p_ovs h_ovs : Z) : Z :=
  125 + 230 * t_ovs + 230 * p_ovs + 58 + 230 * h_ovs + 58.

(** Smallest integer not below [a / b], for positive [b]. *)
Definition ceil_div (a b : Z) : Z := (a + b - 1) / b.

(** The wait time as stated: [ceil(model / 100) + 1]. *)
Definition spec_forced_delay (t_code p_code h_code : Z) : Z :=
  ceil_div (delay_model (spec_multiplier t_code) (spec_multiplier p_code)
                        (spec_multiplier h_code)) 100 + 1.

(** The wait time the code computes: [model / 100] rounded down, plus one. *)
Definition floor_forced_delay (t_code p_code h_code : Z) : Z :=
  delay_model (spec_multiplier t_code) (spec_multiplier p_code)
              (spec_multiplier h_code) / 100 + 1.

(** ** The half-word rule as the specification words it *)

(** The unsigned and the signed reading of the half-word [(msb << 8) | lsb]. *)
Definition half_word (msb lsb : Z) : Z := Z.lor (Z.shiftl msb 8) lsb.
Definition signed_half_word (msb lsb : Z) : Z :=
  if half_word msb lsb <? 32768 then half_word msb lsb
  else half_word msb lsb - 65536.


(** * Further functions of bme280.c *)

(** Modelled from the spec: ADC register ranges of the missing header
    (pressure and temperature 20-bit in three bytes, humidity 16-bit in two,
    at consecutive addresses). *)
Definition BME280_PRESS_ADC_ADDR : Z := 0xF7.
Definition BME280_TEMP_ADC_ADDR : Z := 0xFA.
Definition BME280_HUM_ADC_ADDR : Z := 0xFD.
Definition BME280_PRESS_ADC_LEN : Z := 3.
Definition BME280_TEMP_ADC_LEN : Z := 3.
Definition BME280_HUM_ADC_LEN : Z := 2.

(** Private enum of bme280.c: type of read. *)
Definition read_all : Z := 0.
Definition read_temp : Z := 1.
Definition read_press : Z := 2.
Definition read_hum : Z := 3.

(** Modelled from the spec: [BME280_Data_t] is declared in the missing
    header; each field has the width of the out-parameter that the
    single-channel readers of bme280.h copy it to ([int8_t], [uint8_t],
    [uint16_t], [uint16_t], [uint8_t], [uint16_t]). *)
Record BME280_Data_t : Type := {
  temp_int : Z;
  temp_fract : Z;
  pressure_int : Z;
  pressure_fract : Z;
  humidity_int : Z;
  humidity_fract : Z
}.

(** [struct adc_regs] after a read of [len] bytes stored from byte [offset]
    of the structure: [press_raw] is bytes 0..2, [temp_raw] bytes 3..5 and
    [hum_raw] bytes 6..7; bytes the read did not reach are never used. *)
Definition adc_regs_fill (offset : nat) (len : Z) (rx : list Z) : list Z :=
  map (fun i => if ((offset <=? i) && (i <? offset + Z.to_nat len))%nat
                then nth (i - offset) rx 0 else 0)
      (seq 0 8).

Definition press_raw (adc_raw : list Z) : list Z := adc_raw.
Definition temp_raw (adc_raw : list Z) : list Z := skipn 3 adc_raw.
Definition hum_raw (adc_raw : list Z) : list Z := skipn 6 adc_raw.

Definition bme280_parse_press_temp_s32t (raw : list Z) : Z :=
  let res :=
    Z.lor (Z.lor (shl32 (byte_at raw 0) 12) (shl32 (byte_at raw 1) 4))
          (sar32 (byte_at raw 2) 4) in
  Z.land res 0xFFFFF.

Definition bme280_parse_hum_s32t (raw : list Z) : Z :=
  let res := Z.lor (shl32 (byte_at raw 0) 8) (byte_at raw 1) in
  Z.land res 0xFFFF.

Definition bme280_convert_t_S32_struct (temp : Z) (data : BME280_Data_t)
  : BME280_Data_t :=
  {| temp_int := s8 (Z.quot temp 100);
     temp_fract := u8 (Z.rem temp 100);
     pressure_int := pressure_int data;
     pressure_fract := pressure_fract data;
     humidity_int := humidity_int data;
     humidity_fract := humidity_fract data |}.

Definition bme280_convert_p_U32_struct (USE_64BIT : bool) (press : Z)
  (data : BME280_Data_t) : BME280_Data_t :=
  {| temp_int := temp_int data;
     temp_fract := temp_fract data;
     pressure_int :=
       if USE_64BIT then u16 (press / 10000) else u16 (press / 100);
     pressure_fract :=
       if USE_64BIT then u16 ((press mod 10000) / 10) else u16 (press mod 100);
     humidity_int := humidity_int data;
     humidity_fract := humidity_fract data |}.

Definition bme280_convert_h_U32_struct (hum : Z) (data : BME280_Data_t)
  : BME280_Data_t :=
  {| temp_int := temp_int data;
     temp_fract := temp_fract data;
     pressure_int := pressure_int data;
     pressure_fract := pressure_fract data;
     humidity_int := u8 (hum / 1000);
     humidity_fract := u16 (hum mod 1000) |}.

(** A local [BME280_Data_t] before anything is stored in it. *)
Definition blank_data : BME280_Data_t :=
  {| temp_int := 0; temp_fract := 0; pressure_int := 0; pressure_fract := 0;
     humidity_int := 0; humidity_fract := 0 |}.

Section Readers.

Context {W : Type}.

Definition set_t_fine (Dev : BME280_t W) (t : Z) : BME280_t W :=
  {| driver_ptr := driver_ptr Dev; mode := mode Dev; initialized := initialized Dev;
     trimm := trimm Dev; t_fine := t |}.

Definition bme280_is_normal_mode (Dev : BME280_t W) : Z :=
  if not_initialized =? initialized Dev then BME280_NO_INIT_ERR
  else if negb (normal_mode =? mode Dev) then BME280_CONDITION_ERR
  else BME280_OK.

(** *** Getters: the second component of the result is the content of the
    output variable after the call, given its content before. *)

Definition BME280_GetMode (Dev : BME280_t W) (Mode : Z) (b : Bus W)
  : option (Z * Z * BME280_t W * Bus W) :=
  let res := bme280_is_sleep_mode Dev in
  if BME280_NO_INIT_ERR =? res then Some (res, Mode, Dev, b)
  else
    '(res, rx, b) ← drv_read Dev BME280_CTRL_MEAS_ADDR 1 b;
    if negb (BME280_OK =? res) then Some (BME280_INTERFACE_ERR, Mode, Dev, b)
    else
      let ctrl_meas := byte_at rx 0 in
      let ctrl_meas := u8 (Z.land ctrl_meas 0x03) in
      let ctrl_meas := if 0x02 =? ctrl_meas then BME280_FORCEDMODE else ctrl_meas in
      Some (res, ctrl_meas, set_mode Dev ctrl_meas, b).

Definition BME280_GetPOvs (Dev : BME280_t W) (POvs : Z) (b : Bus W)
  : option (Z * Z * BME280_t W * Bus W) :=
  let res := bme280_is_sleep_mode Dev in
  if BME280_NO_INIT_ERR =? res then Some (res, POvs, Dev, b)
  else
    '(res, rx, b) ← drv_read Dev BME280_CTRL_MEAS_ADDR 1 b;
    if negb (BME280_OK =? res) then Some (BME280_INTERFACE_ERR, POvs, Dev, b)
    else
      let ctrl_meas := byte_at rx 0 in
      let ctrl_meas := u8 (Z.land (Z.shiftr ctrl_meas 2) 0x07) in
      Some (res, ctrl_meas, Dev, b).

Definition BME280_GetTOvs (Dev : BME280_t W) (TOvs : Z) (b : Bus W)
  : option (Z * Z * BME280_t W * Bus W) :=
  let res := bme280_is_sleep_mode Dev in
  if BME280_NO_INIT_ERR =? res then Some (res, TOvs, Dev, b)
  else
    '(res, rx, b) ← drv_read Dev BME280_CTRL_MEAS_ADDR 1 b;
    if negb (BME280_OK =? res) then Some (BME280_INTERFACE_ERR, TOvs, Dev, b)
    else
      let ctrl_meas := byte_at rx 0 in
      let ctrl_meas := u8 (Z.land (Z.shiftr ctrl_meas 5) 0x07) in
      Some (res, ctrl_meas, Dev, b).

Definition BME280_GetHOvs (Dev : BME280_t W) (HOvs : Z) (b : Bus W)
  : option (Z * Z * BME280_t W * Bus W) :=
  let res := bme280_is_sleep_mode Dev in
  if BME280_NO_INIT_ERR =? res then Some (res, HOvs, Dev, b)
  else
    '(res, rx, b) ← drv_read Dev BME280_CTRL_HUM_ADDR 1 b;
    if negb (BME280_OK =? res) then Some (BME280_INTERFACE_ERR, HOvs, Dev, b)
    else
      let ctrl_hum := byte_at rx 0 in
      let ctrl_hum := u8 (Z.land ctrl_hum 0x07) in
      Some (res, ctrl_hum, Dev, b).

Definition BME280_GetTStby (Dev : BME280_t W) (TStby : Z) (b : Bus W)
  : option (Z * Z * BME280_t W * Bus W) :=
  let res := bme280_is_sleep_mode Dev in
  if BME280_NO_INIT_ERR =? res then Some (res, TStby, Dev, b)
  else
    '(res, rx, b) ← drv_read Dev BME280_CONFIG_ADDR 1 b;
    if negb (BME280_OK =? res) then Some (BME280_INTERFACE_ERR, TStby, Dev, b)
    else
      let config := byte_at rx 0 in
      let config := u8 (Z.land (Z.shiftr config 5) 0x07) in
      Some (res, config, Dev, b).

Definition BME280_GetTFilter (Dev : BME280_t W) (Filter : Z) (b : Bus W)
  : option (Z * Z * BME280_t W * Bus W) :=
  let res := bme280_is_sleep_mode Dev in
  if BME280_NO_INIT_ERR =? res then Some (res, Filter, Dev, b)
  else
    '(res, rx, b) ← drv_read Dev BME280_CONFIG_ADDR 1 b;
    if negb (BME280_OK =? res) then Some (BME280_INTERFACE_ERR, Filter, Dev, b)
    else
      let config := byte_at rx 0 in
      let config := u8 (Z.land (Z.shiftr config 2) 0x07) in
      Some (res, config, Dev, b).

Definition BME280_Is3WireSPIEnabled (Dev : BME280_t W) (Result : Z) (b : Bus W)
  : option (Z * Z * BME280_t W * Bus W) :=
  let res := bme280_is_sleep_mode Dev in
  if BME280_NO_INIT_ERR =? res then Some (res, Result, Dev, b)
  else
    '(res, rx, b) ← drv_read Dev BME280_CONFIG_ADDR 1 b;
    if negb (BME280_OK =? res) then Some (BME280_INTERFACE_ERR, Result, Dev, b)
    else
      let config := byte_at rx 0 in
      let config := u8 (Z.land config 0x01) in
      Some (res, config, Dev, b).

(** *** Busy check *)

Definition bme280_busy_check (Dev : BME280_t W) (b : Bus W) : option (Z * Bus W) :=
  '(res, rx, b) ← drv_read Dev BME280_STATUS_ADDR 1 b;
  if negb (BME280_OK =? res) then Some (BME280_INTERFACE_ERR, b)
  else
    let status := u8 (Z.land (byte_at rx 0) 0x09) in
    if negb (0 =? status) then Some (BME280_BUSY_ERR, b)
    else Some (res, b).

(** *** Temperature compensation *)

(** Returns the temperature and the device with [t_fine] updated. *)
Definition bme280_compensate_t_s32t (Dev : BME280_t W) (adc_T : Z)
  : Z * BME280_t W :=
  let c := trimm Dev in
  let var1 := sub32 (s32 (Z.quot adc_T 8)) (mul32 (dig_T1 c) 2) in
  let var1 := s32 (Z.quot (mul32 var1 (dig_T2 c)) 2048) in
  let var2 := sub32 (s32 (Z.quot adc_T 16)) (dig_T1 c) in
  let var2 :=
    s32 (Z.quot (mul32 (s32 (Z.quot (mul32 var2 var2) 4096)) (dig_T3 c)) 16384) in
  let Dev := set_t_fine Dev (add32 var1 var2) in
  let temperature := s32 (Z.quot (add32 (mul32 (t_fine Dev) 5) 128) 256) in
  (temperature, Dev).

(** *** Reading and compensating the ADC registers *)

(** [temp], [press] and [hum] are the contents of the three output
    variables before the call; the result carries their contents after. *)
Definition bme280_read_compensate (USE_64BIT : bool) (read_type : Z)
  (Dev : BME280_t W) (temp press hum : Z) (b : Bus W)
  : option (Z * (Z * Z * Z) * BME280_t W * Bus W) :=
  let compensate (r : option (Z * list Z * Bus W)) :=
    '(res, adc_raw, b) ← r;
    if negb (BME280_OK =? res)
    then Some (BME280_INTERFACE_ERR, (temp, press, hum), Dev, b)
    else
      let adc_T := bme280_parse_press_temp_s32t (temp_raw adc_raw) in
      let '(temp, Dev) := bme280_compensate_t_s32t Dev adc_T in
      press ←
        (if (read_press =? read_type) || (read_all =? read_type)
         then
           let adc_P := bme280_parse_press_temp_s32t (press_raw adc_raw) in
           bme280_compensate_p_u32t USE_64BIT Dev adc_P
         else Some press);
      let hum :=
        if (read_hum =? read_type) || (read_all =? read_type)
        then
          let adc_H := bme280_parse_hum_s32t (hum_raw adc_raw) in
          bme280_compensate_h_u32t Dev adc_H
        else hum in
      Some (res, (temp, press, hum), Dev, b) in
  if read_type =? read_temp then
    compensate
      ('(res, rx, b) ← drv_read Dev BME280_TEMP_ADC_ADDR BME280_TEMP_ADC_LEN b;
       Some (res, adc_regs_fill 3 BME280_TEMP_ADC_LEN rx, b))
  else if read_type =? read_press then
    compensate
      ('(res, rx, b) ← drv_read Dev BME280_PRESS_ADC_ADDR
                         (BME280_PRESS_ADC_LEN + BME280_TEMP_ADC_LEN) b;
       Some (res, adc_regs_fill 0 (BME280_PRESS_ADC_LEN + BME280_TEMP_ADC_LEN) rx, b))
  else if read_type =? read_hum then
    compensate
      ('(res, rx, b) ← drv_read Dev BME280_TEMP_ADC_ADDR
                         (BME280_TEMP_ADC_LEN + BME280_HUM_ADC_LEN) b;
       Some (res, adc_regs_fill 3 (BME280_TEMP_ADC_LEN + BME280_HUM_ADC_LEN) rx, b))
  else if read_type =? read_all then
    compensate
      ('(res, rx, b) ← drv_read Dev BME280_PRESS_ADC_ADDR
                         (BME280_PRESS_ADC_LEN + BME280_TEMP_ADC_LEN
                          + BME280_HUM_ADC_LEN) b;
       Some (res,
             adc_regs_fill 0 (BME280_PRESS_ADC_LEN + BME280_TEMP_ADC_LEN
                              + BME280_HUM_ADC_LEN) rx, b))
  else Some (BME280_PARAM_ERR, (temp, press, hum), Dev, b).

(** *** Readers with integer results *)

Definition BME280_ReadAllLast (USE_64BIT : bool) (Dev : BME280_t W)
  (Data : BME280_Data_t) (b : Bus W)
  : option (Z * BME280_Data_t * BME280_t W * Bus W) :=
  let res := bme280_is_normal_mode Dev in
  if negb (BME280_OK =? res) then Some (res, Data, Dev, b)
  else
    '(res, (temp, press, hum), Dev', b) ←
      bme280_read_compensate USE_64BIT read_all Dev 0 0 0 b;
    if negb (BME280_OK =? res) then Some (res, Data, Dev', b)
    else
      let Data := bme280_convert_t_S32_struct temp Data in
      let Data := bme280_convert_p_U32_struct USE_64BIT press Data in
      let Data := bme280_convert_h_U32_struct hum Data in
      Some (res, Data, Dev', b).

Definition BME280_ReadTempLast (USE_64BIT : bool) (Dev : BME280_t W)
  (TempInt TempFract : Z) (b : Bus W)
  : option (Z * (Z * Z) * BME280_t W * Bus W) :=
  let res := bme280_is_normal_mode Dev in
  if negb (BME280_OK =? res) then Some (res, (TempInt, TempFract), Dev, b)
  else
    '(res, (temp, press, hum), Dev', b) ←
      bme280_read_compensate USE_64BIT read_temp Dev 0 0 0 b;
    if negb (BME280_OK =? res) then Some (res, (TempInt, TempFract), Dev', b)
    else
      let data := bme280_convert_t_S32_struct temp blank_data in
      Some (res, (s8 (temp_int data), u8 (temp_fract data)), Dev', b).

Definition BME280_ReadPressLast (USE_64BIT : bool) (Dev : BME280_t W)
  (PressInt PressFract : Z) (b : Bus W)
  : option (Z * (Z * Z) * BME280_t W * Bus W) :=
  let res := bme280_is_normal_mode Dev in
  if negb (BME280_OK =? res) then Some (res, (PressInt, PressFract), Dev, b)
  else
    '(res, (temp, press, hum), Dev', b) ←
      bme280_read_compensate USE_64BIT read_press Dev 0 0 0 b;
    if negb (BME280_OK =? res) then Some (res, (PressInt, PressFract), Dev', b)
    else
      let data := bme280_convert_p_U32_struct USE_64BIT press blank_data in
      Some (res, (u16 (pressure_int data), u16 (pressure_fract data)), Dev', b).

Definition BME280_ReadHumLast (USE_64BIT : bool) (Dev : BME280_t W)
  (HumInt HumFract : Z) (b : Bus W)
  : option (Z * (Z * Z) * BME280_t W * Bus W) :=
  let res := bme280_is_normal_mode Dev in
  if negb (BME280_OK =? res) then Some (res, (HumInt, HumFract), Dev, b)
  else
    '(res, (temp, press, hum), Dev', b) ←
      bme280_read_compensate USE_64BIT read_hum Dev 0 0 0 b;
    if negb (BME280_OK =? res) then Some (res, (HumInt, HumFract), Dev', b)
    else
      let data := bme280_convert_h_U32_struct hum blank_data in
      Some (res, (u8 (humidity_int data), u16 (humidity_fract data)), Dev', b).

Definition BME280_ReadAllForce (USE_64BIT : bool) (Dev : BME280_t W)
  (Data : BME280_Data_t) (b : Bus W)
  : option (Z * BME280_Data_t * BME280_t W * Bus W) :=
  let res := bme280_is_sleep_mode Dev in
  if negb (BME280_OK =? res) then Some (res, Data, Dev, b)
  else
    '(res, delay', b) ← bme280_set_forced_mode Dev 0 b;
    if negb (BME280_OK =? res) then Some (res, Data, Dev, b)
    else
      b ← drv_delay Dev delay' b;
      '(res, b) ← bme280_busy_check Dev b;
      if negb (BME280_OK =? res) then Some (res, Data, Dev, b)
      else
        '(res, (temp, press, hum), Dev', b) ←
          bme280_read_compensate USE_64BIT read_all Dev 0 0 0 b;
        if negb (BME280_OK =? res) then Some (res, Data, Dev', b)
        else
          let Data := bme280_convert_t_S32_struct temp Data in
          let Data := bme280_convert_p_U32_struct USE_64BIT press Data in
          let Data := bme280_convert_h_U32_struct hum Data in
          Some (res, Data, Dev', b).

Definition BME280_ReadTempForce (USE_64BIT : bool) (Dev : BME280_t W)
  (TempInt TempFract : Z) (b : Bus W)
  : option (Z * (Z * Z) * BME280_t W * Bus W) :=
  let res := bme280_is_sleep_mode Dev in
  if negb (BME280_OK =? res) then Some (res, (TempInt, TempFract), Dev, b)
  else
    '(res, delay', b) ← bme280_set_forced_mode Dev 0 b;
    if negb (BME280_OK =? res) then Some (res, (TempInt, TempFract), Dev, b)
    else
      b ← drv_delay Dev delay' b;
      '(res, b) ← bme280_busy_check Dev b;
      if negb (BME280_OK =? res) then Some (res, (TempInt, TempFract), Dev, b)
      else
        '(res, (temp, press, hum), Dev', b) ←
          bme280_read_compensate USE_64BIT read_temp Dev 0 0 0 b;
        if negb (BME280_OK =? res) then Some (res, (TempInt, TempFract), Dev', b)
        else
          let data := bme280_convert_t_S32_struct temp blank_data in
          Some (res, (s8 (temp_int data), u8 (temp_fract data)), Dev', b).

Definition BME280_ReadPressForce (USE_64BIT : bool) (Dev : BME280_t W)
  (PressInt PressFract : Z) (b : Bus W)
  : option (Z * (Z * Z) * BME280_t W * Bus W) :=
  let res := bme280_is_sleep_mode Dev in
  if negb (BME280_OK =? res) then Some (res, (PressInt, PressFract), Dev, b)
  else
    '(res, delay', b) ← bme280_set_forced_mode Dev 0 b;
    if negb (BME280_OK =? res) then Some (res, (PressInt, PressFract), Dev, b)
    else
      b ← drv_delay Dev delay' b;
      '(res, b) ← bme280_busy_check Dev b;
      if negb (BME280_OK =? res) then Some (res, (PressInt, PressFract), Dev, b)
      else
        '(res, (temp, press, hum), Dev', b) ←
          bme280_read_compensate USE_64BIT read_press Dev 0 0 0 b;
        if negb (BME280_OK =? res) then Some (res, (PressInt, PressFract), Dev', b)
        else
          let data := bme280_convert_p_U32_struct USE_64BIT press blank_data in
          Some (res, (u16 (pressure_int data), u16 (pressure_fract data)), Dev', b).

Definition BME280_ReadHumForce (USE_64BIT : bool) (Dev : BME280_t W)
  (HumInt HumFract : Z) (b : Bus W)
  : option (Z * (Z * Z) * BME280_t W * Bus W) :=
  let res := bme280_is_sleep_mode Dev in
  if negb (BME280_OK =? res) then Some (res, (HumInt, HumFract), Dev, b)
  else
    '(res, delay', b) ← bme280_set_forced_mode Dev 0 b;
    if negb (BME280_OK =? res) then Some (res, (HumInt, HumFract), Dev, b)
    else
      b ← drv_delay Dev delay' b;
      '(res, b) ← bme280_busy_check Dev b;
      if negb (BME280_OK =? res) then Some (res, (HumInt, HumFract), Dev, b)
      else
        '(res, (temp, press, hum), Dev', b) ←
          bme280_read_compensate USE_64BIT read_hum Dev 0 0 0 b;
        if negb (BME280_OK =? res) then Some (res, (HumInt, HumFract), Dev', b)
        else
          let data := bme280_convert_h_U32_struct hum blank_data in
          Some (res, (u8 (humidity_int data), u16 (humidity_fract data)), Dev', b).

End Readers.

(** ** The getter calls as data *)

Inductive getter_call : Type :=
| CallGetMode
| CallGetPOvs
| CallGetTOvs
| CallGetHOvs
| CallGetTStby
| CallGetTFilter
| CallIs3WireSPIEnabled.

Definition run_getter {W : Type} (g : getter_call) (Dev : BME280_t W) (out : Z)
  (b : Bus W) : option (Z * Z * BME280_t W * Bus W) :=
  match g with
  | CallGetMode => BME280_GetMode Dev out b
  | CallGetPOvs => BME280_GetPOvs Dev out b
  | CallGetTOvs => BME280_GetTOvs Dev out b
  | CallGetHOvs => BME280_GetHOvs Dev out b
  | CallGetTStby => BME280_GetTStby Dev out b
  | CallGetTFilter => BME280_GetTFilter Dev out b
  | CallIs3WireSPIEnabled => BME280_Is3WireSPIEnabled Dev out b
  end.

(** The register a getter reads and the value it reports for a register
    byte. *)
Definition getter_addr (g : getter_call) : Z :=
  match g with
  | CallGetMode | CallGetPOvs | CallGetTOvs => BME280_CTRL_MEAS_ADDR
  | CallGetHOvs => BME280_CTRL_HUM_ADDR
  | _ => BME280_CONFIG_ADDR
  end.

Definition getter_value (g : getter_call) (reg : Z) : Z :=
  match g with
  | CallGetMode => if Z.land reg 0x03 =? 0x02 then 0x01 else Z.land reg 0x03
  | CallGetPOvs | CallGetTFilter => Z.land (Z.shiftr reg 2) 0x07
  | CallGetTOvs | CallGetTStby => Z.land (Z.shiftr reg 5) 0x07
  | CallGetHOvs => Z.land reg 0x07
  | CallIs3WireSPIEnabled => Z.land reg 0x01
  end.

(** The device a successful getter leaves: only [BME280_GetMode] stores what
    it read. *)
Definition getter_dev {W : Type} (g : getter_call) (Dev : BME280_t W) (out : Z)
  : BME280_t W :=
  match g with
  | CallGetMode => set_mode Dev out
  | _ => Dev
  end.

(** The getter that reports the field a per-field setter changes. *)
Definition reports (g : getter_call) (c : setter_call) : bool :=
  match g, c with
  | CallGetPOvs, CallSetPOvs _
  | CallGetTOvs, CallSetTOvs _
  | CallGetHOvs, CallSetHOvs _
  | CallGetTStby, CallSetTStby _
  | CallGetTFilter, CallSetFilter _
  | CallIs3WireSPIEnabled, CallEnable3WireSPI
  | CallIs3WireSPIEnabled, CallDisable3WireSPI => true
  | _, _ => false
  end.

(** What the getters report for a configuration written by
    [BME280_ConfigureAll]. *)
Definition config_value (g : getter_call) (Cfg : Config.t) : Z :=
  match g with
  | CallGetMode =>
      if Z.land (Config.mode Cfg) 0x03 =? 0x02 then 0x01
      else Z.land (Config.mode Cfg) 0x03
  | CallGetPOvs => Z.land (Config.oversampling_p Cfg) 0x07
  | CallGetTOvs => Z.land (Config.oversampling_t Cfg) 0x07
  | CallGetHOvs => Z.land (Config.oversampling_h Cfg) 0x07
  | CallGetTStby => Z.land (Config.t_stby Cfg) 0x07
  | CallGetTFilter => Z.land (Config.filter Cfg) 0x07
  | CallIs3WireSPIEnabled => Z.land (Config.spi3w_enable Cfg) 0x01
  end.

(** The three register bytes [BME280_ConfigureAll] sends. *)
Definition config_ctrl_hum (Cfg : Config.t) : Z :=
  u8 (Z.land (Config.oversampling_h Cfg) 0x07).
Definition config_ctrl_meas (Cfg : Config.t) : Z :=
  u8 (Z.lor
        (u8 (Z.lor (u8 (Z.lor 0 (Z.land (Z.shiftl (Config.oversampling_t Cfg) 5) 0xE0)))
                   (Z.land (Z.shiftl (Config.oversampling_p Cfg) 2) 0x1C)))
        (Z.land (Config.mode Cfg) 0x03)).
Definition config_config (Cfg : Config.t) : Z :=
  u8 (Z.lor
        (u8 (Z.lor (u8 (Z.lor 0 (Z.land (Z.shiftl (Config.t_stby Cfg) 5) 0xE0)))
                   (Z.land (Z.shiftl (Config.filter Cfg) 2) 0x1C)))
        (Z.land (Config.spi3w_enable Cfg) 0x01)).


(** ** The four kinds of ADC read as data *)

(** Start register and length of the burst [bme280_read_compensate] issues
    for a read type, and where the temperature and humidity words sit in the
    bytes received. *)
Definition adc_read_addr (read_type : Z) : Z :=
  if (read_type =? read_temp) || (read_type =? read_hum)
  then BME280_TEMP_ADC_ADDR else BME280_PRESS_ADC_ADDR.

Definition adc_read_offset (read_type : Z) : nat :=
  if (read_type =? read_temp) || (read_type =? read_hum) then 3%nat else 0%nat.

Definition adc_read_len (read_type : Z) : Z :=
  if read_type =? read_temp then 3
  else if read_type =? read_press then 6
  else if read_type =? read_hum then 5
  else 8.

Definition adc_temp_bytes (read_type : Z) (rx : list Z) : list Z :=
  if (read_type =? read_temp) || (read_type =? read_hum) then rx else skipn 3 rx.

Definition adc_hum_bytes (read_type : Z) (rx : list Z) : list Z :=
  if read_type =? read_hum then skipn 3 rx else skipn 6 rx.

Definition wants_press (read_type : Z) : bool :=
  (read_press =? read_type) || (read_all =? read_type).

Definition wants_hum (read_type : Z) : bool :=
  (read_hum =? read_type) || (read_all =? read_type).

Definition valid_read_type (read_type : Z) : bool :=
  (read_type =? read_all) || (read_type =? read_temp)
  || (read_type =? read_press) || (read_type =? read_hum).

(** The register byte [bme280_set_forced_mode] writes for a measurement
    control byte. *)
Definition forced_ctrl_meas (ctrl_meas : Z) : Z :=
  u8 (Z.lor (u8 (Z.land ctrl_meas 0xFC)) BME280_FORCEDMODE).

(** ** Measurements on the register-file sensor *)

(** The raw words in the ADC registers 0xF7..0xFE. *)
Definition sensor_adc_P (regs : gmap Z Z) : Z :=
  bme280_parse_press_temp_s32t
    [reg_value regs 0xF7; reg_value regs 0xF8; reg_value regs 0xF9].

Definition sensor_adc_T (regs : gmap Z Z) : Z :=
  bme280_parse_press_temp_s32t
    [reg_value regs 0xFA; reg_value regs 0xFB; reg_value regs 0xFC].

Definition sensor_adc_H (regs : gmap Z Z) : Z :=
  bme280_parse_hum_s32t [reg_value regs 0xFD; reg_value regs 0xFE].

(** The compensated measurement, converted for display, and the device
    with the fine temperature it leaves. *)
Definition sensor_measurement (USE_64BIT : bool) (Dev : BME280_t (gmap Z Z))
  (regs : gmap Z Z) : option (BME280_Data_t * BME280_t (gmap Z Z)) :=
  let '(temp, Dev1) := bme280_compensate_t_s32t Dev (sensor_adc_T regs) in
  press ← bme280_compensate_p_u32t USE_64BIT Dev1 (sensor_adc_P regs);
  let hum := bme280_compensate_h_u32t Dev1 (sensor_adc_H regs) in
  Some (bme280_convert_h_U32_struct hum
          (bme280_convert_p_U32_struct USE_64BIT press
             (bme280_convert_t_S32_struct temp blank_data)),
        Dev1).

(** A call leaves its output and the device as they were whenever it
    returns a failure. *)
Definition untouched_on_failure {W A : Type} (Dev : BME280_t W) (out : A)
  (r : option (Z * A * BME280_t W * Bus W)) : Prop :=
  forall res out' Dev' b',
    r = Some (res, out', Dev', b') -> res <> BME280_OK ->
    out' = out /\ Dev' = Dev.

(** * Properties *)

(** ** Integer facts *)

Lemma all_below_spec (n : nat) (p : Z -> bool) :
  all_below n p = true -> forall x, 0 <= x < Z.of_nat n -> p x = true.
Proof.
  induction n as [|k IH]; intros Hall x Hx.
  - lia.
  - cbn [all_below] in Hall. apply andb_prop in Hall as [Hk Hrest].
    destruct (Z.eq_dec x (Z.of_nat k)) as [->|Hne]; [exact Hk|].
    apply IH; [exact Hrest|lia].
Qed.

Lemma all_below2_spec (n m : nat) (p : Z -> Z -> bool) :
  all_below n (fun a => all_below m (p a)) = true ->
  forall a b, 0 <= a < Z.of_nat n -> 0 <= b < Z.of_nat m -> p a b = true.
Proof.
  intros Hall a b Ha Hb.
  pose proof (all_below_spec n _ Hall a Ha) as Hrow.
  exact (all_below_spec m _ Hrow b Hb).
Qed.

Lemma u8_range (x : Z) : 0 <= u8 x < 256.
Proof. unfold u8. apply Z.mod_pos_bound. lia. Qed.

Lemma byte_at_range (buf : list Z) (i : nat) : 0 <= byte_at buf i < 256.
Proof. apply u8_range. Qed.

Lemma s32_range (x : Z) : -2147483648 <= s32 x < 2147483648.
Proof.
  unfold s32.
  pose proof (Z.mod_pos_bound (x + 2147483648) 4294967296 ltac:(lia)). lia.
Qed.

Lemma u32_s32_zero (x : Z) : u32 (s32 x) = 0 -> s32 x = 0.
Proof.
  pose proof (s32_range x) as Hr. unfold u32. intros H.
  apply Z.mod_divide in H; [|lia].
  destruct H as [k Hk]. lia.
Qed.

(** ** Calibration parser *)

Lemma lor_bound (n a b : Z) :
  0 < n -> 0 <= a < 2 ^ n -> 0 <= b < 2 ^ n -> 0 <= Z.lor a b < 2 ^ n.
Proof.
  intros Hn Ha Hb.
  assert (Hnn : 0 <= Z.lor a b) by (apply Z.lor_nonneg; lia).
  split; [exact Hnn|].
  destruct (Z.eq_dec (Z.lor a b) 0) as [->|Hne].
  - apply Z.pow_pos_nonneg; lia.
  - apply Z.log2_lt_pow2; [lia|].
    rewrite Z.log2_lor by lia.
    apply Z.max_lub_lt.
    + destruct (Z.eq_dec a 0) as [->|Ha0]; [cbn; lia|].
      apply Z.log2_lt_pow2; lia.
    + destruct (Z.eq_dec b 0) as [->|Hb0]; [cbn; lia|].
      apply Z.log2_lt_pow2; lia.
Qed.

Lemma s16_small (x : Z) : -32768 <= x < 32768 -> s16 x = x.
Proof. intros H. unfold s16. rewrite Z.mod_small; lia. Qed.

Lemma u16_small (x : Z) : 0 <= x < 65536 -> u16 x = x.
Proof. intros H. unfold u16. apply Z.mod_small. exact H. Qed.

Lemma half_word_range (msb lsb : Z) :
  0 <= msb < 256 -> 0 <= lsb < 256 -> 0 <= half_word msb lsb < 65536.
Proof.
  intros Hm Hl. unfold half_word. apply (lor_bound 16); [lia| |lia].
  rewrite Z.shiftl_mul_pow2 by lia. change (2 ^ 8) with 256.
  change (2 ^ 16) with 65536. lia.
Qed.

Lemma CAT_UI16T_bytes (msb lsb : Z) :
  0 <= msb < 256 -> 0 <= lsb < 256 -> CAT_UI16T msb lsb = half_word msb lsb.
Proof.
  intros Hm Hl. unfold CAT_UI16T.
  rewrite (u16_small msb), (u16_small lsb) by lia.
  apply u16_small. exact (half_word_range msb lsb Hm Hl).
Qed.

Lemma CAT_I16T_bytes (msb lsb : Z) :
  0 <= msb < 256 -> 0 <= lsb < 256 -> CAT_I16T msb lsb = signed_half_word msb lsb.
Proof.
  intros Hm Hl. unfold CAT_I16T, signed_half_word.
  rewrite (s16_small msb), (s16_small lsb) by lia.
  fold (half_word msb lsb).
  pose proof (half_word_range msb lsb Hm Hl) as Hr.
  destruct (Z.ltb_spec (half_word msb lsb) 32768) as [Hlt|Hge].
  - apply s16_small. lia.
  - unfold s16.
    replace (half_word msb lsb + 32768)
      with (half_word msb lsb - 32768 + 1 * 65536) by lia.
    rewrite Z.mod_add by lia. rewrite Z.mod_small; lia.
Qed.

Lemma packed_H4_bytes (b28 b29 : Z) :
  0 <= b28 < 256 -> 0 <= b29 < 256 ->
  s16 (Z.lor (Z.shiftl (s16 b28) 4) (Z.land (s16 b29) 0x0F))
  = Z.lor (Z.shiftl b28 4) (Z.land b29 0x0F).
Proof.
  intros H28 H29. rewrite (s16_small b28), (s16_small b29) by lia.
  apply s16_small.
  assert (Hb : 0 <= Z.lor (Z.shiftl b28 4) (Z.land b29 0x0F) < 2 ^ 12).
  { apply lor_bound; [lia| |].
    - rewrite Z.shiftl_mul_pow2 by lia. change (2 ^ 4) with 16.
      change (2 ^ 12) with 4096. lia.
    - change 0x0F with (Z.ones 4). rewrite Z.land_ones by lia.
      pose proof (Z.mod_pos_bound b29 (2 ^ 4) ltac:(lia)).
      change (2 ^ 4) with 16 in *. change (2 ^ 12) with 4096. lia. }
  change (2 ^ 12) with 4096 in Hb. lia.
Qed.

Lemma packed_H5_bytes (b30 b29 : Z) :
  0 <= b30 < 256 -> 0 <= b29 < 256 ->
  s16 (Z.lor (Z.shiftl (s16 b30) 4) (Z.shiftr (s16 b29) 4))
  = Z.lor (Z.shiftl b30 4) (Z.shiftr b29 4).
Proof.
  intros H30 H29. rewrite (s16_small b30), (s16_small b29) by lia.
  apply s16_small.
  assert (Hb : 0 <= Z.lor (Z.shiftl b30 4) (Z.shiftr b29 4) < 2 ^ 12).
  { apply lor_bound; [lia| |].
    - rewrite Z.shiftl_mul_pow2 by lia. change (2 ^ 4) with 16.
      change (2 ^ 12) with 4096. lia.
    - rewrite Z.shiftr_div_pow2 by lia. change (2 ^ 4) with 16.
      change (2 ^ 12) with 4096.
      pose proof (Z.div_pos b29 16 ltac:(lia) ltac:(lia)).
      pose proof (Z.div_le_upper_bound b29 16 256 ltac:(lia) ltac:(lia)). lia. }
  change (2 ^ 12) with 4096 in Hb. lia.
Qed.

(** The parser packs humidity trims 4 and 5 by the 12-bit rule and combines
    every temperature and pressure trim as [(msb << 8) | lsb], unsigned for
    T1 and P1 and signed for the others. *)
Lemma parse_compensation_parameters_layout (tmp_buff : list Z) :
  let c := parse_compensation_parameters tmp_buff in
  let byte := byte_at tmp_buff in
  dig_H4 c = Z.lor (Z.shiftl (byte 28%nat) 4) (Z.land (byte 29%nat) 0x0F) /\
  dig_H5 c = Z.lor (Z.shiftl (byte 30%nat) 4) (Z.shiftr (byte 29%nat) 4) /\
  dig_T1 c = half_word (byte 1%nat) (byte 0%nat) /\
  dig_T2 c = signed_half_word (byte 3%nat) (byte 2%nat) /\
  dig_T3 c = signed_half_word (byte 5%nat) (byte 4%nat) /\
  dig_P1 c = half_word (byte 7%nat) (byte 6%nat) /\
  dig_P2 c = signed_half_word (byte 9%nat) (byte 8%nat) /\
  dig_P3 c = signed_half_word (byte 11%nat) (byte 10%nat) /\
  dig_P4 c = signed_half_word (byte 13%nat) (byte 12%nat) /\
  dig_P5 c = signed_half_word (byte 15%nat) (byte 14%nat) /\
  dig_P6 c = signed_half_word (byte 17%nat) (byte 16%nat) /\
  dig_P7 c = signed_half_word (byte 19%nat) (byte 18%nat) /\
  dig_P8 c = signed_half_word (byte 21%nat) (byte 20%nat) /\
  dig_P9 c = signed_half_word (byte 23%nat) (byte 22%nat).
Proof.
  cbn zeta. unfold parse_compensation_parameters. cbn [dig_H4 dig_H5 dig_T1 dig_T2
    dig_T3 dig_P1 dig_P2 dig_P3 dig_P4 dig_P5 dig_P6 dig_P7 dig_P8 dig_P9].
  repeat split;
    first [ apply packed_H4_bytes | apply packed_H5_bytes
          | apply CAT_UI16T_bytes | apply CAT_I16T_bytes ];
    apply byte_at_range.
Qed.

(** The parser runs on the buffer assembled from the two calibration reads,
    and only when both succeed. *)
Lemma read_compensation_parameters_ok {W : Type} (Dev : BME280_t W) (b : Bus W)
  (rd : bme280_readregisters W) (rx1 rx2 : list Z) (w1 w2 : W) :
  read (driver Dev) = Some rd ->
  rd BME280_CALIB_DATA1_ADDR BME280_CALIB_DATA1_LEN (world b) = (BME280_OK, rx1, w1) ->
  rd BME280_CALIB_DATA2_ADDR BME280_CALIB_DATA2_LEN w1 = (BME280_OK, rx2, w2) ->
  exists b',
    bme280_read_compensation_parameters Dev b
    = Some (BME280_OK,
            set_trimm Dev (parse_compensation_parameters (calib_buffer rx1 rx2)),
            b').
Proof.
  intros Hrd H1 H2. unfold bme280_read_compensation_parameters, drv_read.
  rewrite Hrd. cbn. rewrite H1. cbn. rewrite H2. cbn. eexists. reflexivity.
Qed.

(** Byte [i] of the 32-byte buffer: the first read fills bytes 0..24, the
    second bytes 25..31. *)
Lemma calib_buffer_byte (rx1 rx2 : list Z) (i : nat) :
  (i < 32)%nat ->
  byte_at (calib_buffer rx1 rx2) i
  = if (i <? 25)%nat then byte_at rx1 i else byte_at rx2 (i - 25).
Proof.
  intros Hi.
  do 32 (destruct i as [|i]; [reflexivity|]). lia.
Qed.

(** C5.  Whenever the two calibration reads of initialisation succeed,
    [bme280_read_compensation_parameters] returns OK and stores trims built
    from the 32 bytes read (bytes 0..24 from the first read, 25..31 from
    the second): humidity trims 4 and 5 by the 12-bit rule
    [H4 = (byte[28] << 4) | (byte[29] & 0x0F)],
    [H5 = (byte[30] << 4) | (byte[29] >> 4)], and every temperature and
    pressure trim as [(msb << 8) | lsb], read as unsigned 16-bit for T1 and
    P1 and as signed 16-bit for the others.  Nothing else in the device
    changes. *)
Theorem calibration_byte_layout {W : Type} (Dev : BME280_t W) (b : Bus W)
  (rd : bme280_readregisters W) (rx1 rx2 : list Z) (w1 w2 : W) :
  read (driver Dev) = Some rd ->
  rd BME280_CALIB_DATA1_ADDR BME280_CALIB_DATA1_LEN (world b) = (BME280_OK, rx1, w1) ->
  rd BME280_CALIB_DATA2_ADDR BME280_CALIB_DATA2_LEN w1 = (BME280_OK, rx2, w2) ->
  let byte (i : nat) :=
    if (i <? 25)%nat then byte_at rx1 i else byte_at rx2 (i - 25) in
  exists Dev',
    bme280_read_compensation_parameters Dev b
    = Some (BME280_OK, Dev',
            log (EvRead BME280_CALIB_DATA2_ADDR BME280_CALIB_DATA2_LEN) w2
              (log (EvRead BME280_CALIB_DATA1_ADDR BME280_CALIB_DATA1_LEN) w1 b)) /\
    Dev' = set_trimm Dev (trimm Dev') /\
    let c := trimm Dev' in
    dig_H4 c = Z.lor (Z.shiftl (byte 28%nat) 4) (Z.land (byte 29%nat) 0x0F) /\
    dig_H5 c = Z.lor (Z.shiftl (byte 30%nat) 4) (Z.shiftr (byte 29%nat) 4) /\
    dig_T1 c = half_word (byte 1%nat) (byte 0%nat) /\
    dig_T2 c = signed_half_word (byte 3%nat) (byte 2%nat) /\
    dig_T3 c = signed_half_word (byte 5%nat) (byte 4%nat) /\
    dig_P1 c = half_word (byte 7%nat) (byte 6%nat) /\
    dig_P2 c = signed_half_word (byte 9%nat) (byte 8%nat) /\
    dig_P3 c = signed_half_word (byte 11%nat) (byte 10%nat) /\
    dig_P4 c = signed_half_word (byte 13%nat) (byte 12%nat) /\
    dig_P5 c = signed_half_word (byte 15%nat) (byte 14%nat) /\
    dig_P6 c = signed_half_word (byte 17%nat) (byte 16%nat) /\
    dig_P7 c = signed_half_word (byte 19%nat) (byte 18%nat) /\
    dig_P8 c = signed_half_word (byte 21%nat) (byte 20%nat) /\
    dig_P9 c = signed_half_word (byte 23%nat) (byte 22%nat).
Proof.
  intros Hrd H1 H2 byte.
  exists (set_trimm Dev (parse_compensation_parameters (calib_buffer rx1 rx2))).
  split.
  - unfold bme280_read_compensation_parameters, drv_read.
    rewrite Hrd. cbn [mbind option_bind]. rewrite H1. cbn [mbind option_bind].
    change (negb (BME280_OK =? BME280_OK)) with false. cbv iota.
    cbn [world log]. rewrite H2. cbn [mbind option_bind].
    change (negb (BME280_OK =? BME280_OK)) with false. cbv iota. reflexivity.
  - split; [reflexivity|].
    pose proof (parse_compensation_parameters_layout (calib_buffer rx1 rx2)) as H.
    cbv zeta in H. rewrite !calib_buffer_byte in H by lia.
    exact H.
Qed.

(** The theorem on a sensor that holds [T1 = 0x6B70], [H4 = 0x14D] and
    [H5 = 0x32]. *)
Lemma calibration_byte_layout_witness :
  (read (driver (fresh_dev sensor_driver)) = Some sensor_read /\
   sensor_read BME280_CALIB_DATA1_ADDR BME280_CALIB_DATA1_LEN
     (world (quiet_bus calib_chip))
   = (BME280_OK, [0x70; 0x6B] ++ repeat 0 23, calib_chip) /\
   sensor_read BME280_CALIB_DATA2_ADDR BME280_CALIB_DATA2_LEN calib_chip
   = (BME280_OK, [0; 0; 0; 0x14; 0x2D; 0x03; 0], calib_chip)) /\
  exists Dev' b',
    bme280_read_compensation_parameters (fresh_dev sensor_driver)
      (quiet_bus calib_chip)
    = Some (BME280_OK, Dev', b') /\
    dig_T1 (trimm Dev') = 0x6B70 /\
    dig_H4 (trimm Dev') = 0x14D /\
    dig_H5 (trimm Dev') = 0x32.
Proof.
  assert (H1 : read (driver (fresh_dev sensor_driver)) = Some sensor_read)
    by reflexivity.
  assert (H2 : sensor_read BME280_CALIB_DATA1_ADDR BME280_CALIB_DATA1_LEN
                 (world (quiet_bus calib_chip))
               = (BME280_OK, [0x70; 0x6B] ++ repeat 0 23, calib_chip))
    by (vm_compute; reflexivity).
  assert (H3 : sensor_read BME280_CALIB_DATA2_ADDR BME280_CALIB_DATA2_LEN calib_chip
               = (BME280_OK, [0; 0; 0; 0x14; 0x2D; 0x03; 0], calib_chip))
    by (vm_compute; reflexivity).
  split; [exact (conj H1 (conj H2 H3))|].
  destruct (calibration_byte_layout (fresh_dev sensor_driver)
              (quiet_bus calib_chip) sensor_read _ _ _ _ H1 H2 H3)
    as (Dev' & Hrun & _ & HH4 & HH5 & HT1 & _).
  exists Dev'. eexists. split; [exact Hrun|].
  split; [exact HT1|]. split; [exact HH4|exact HH5].
Defined.

(** ** Mode checks and the setters *)

Lemma is_sleep_mode_ok {W : Type} (Dev : BME280_t W) :
  initialized Dev <> not_initialized -> mode Dev = sleep_mode ->
  bme280_is_sleep_mode Dev = BME280_OK.
Proof.
  intros Hi Hm. unfold bme280_is_sleep_mode.
  destruct (Z.eqb_spec not_initialized (initialized Dev)) as [E|_]; [congruence|].
  rewrite Hm. reflexivity.
Qed.

Lemma is_sleep_mode_fail {W : Type} (Dev : BME280_t W) :
  initialized Dev = not_initialized \/ mode Dev <> sleep_mode ->
  bme280_is_sleep_mode Dev
  = (if initialized Dev =? not_initialized then BME280_NO_INIT_ERR
     else BME280_CONDITION_ERR)
  /\ bme280_is_sleep_mode Dev <> BME280_OK.
Proof.
  intros H. unfold bme280_is_sleep_mode.
  rewrite (Z.eqb_sym not_initialized).
  destruct (Z.eqb_spec (initialized Dev) not_initialized) as [E|E].
  - split; [reflexivity|discriminate].
  - destruct H as [H|H]; [contradiction|].
    destruct (Z.eqb_spec sleep_mode (mode Dev)) as [E'|E']; [congruence|].
    split; [reflexivity|discriminate].
Qed.

(** Every read-compare-write setter is its parameter check followed by
    [set_field] at its own register, field and update. *)
Lemma run_call_rmw {W : Type} (c : setter_call) (Dev : BME280_t W) (b : Bus W) :
  is_rmw c = true ->
  run_call c Dev b
  = if param_ok c
    then set_field Dev (rmw_addr c) (requested_value c) (rmw_field c) (rmw_upd c) b
    else Some (BME280_PARAM_ERR, Dev, b).
Proof.
  destruct c as [v|v|v|v|v| | |Cfg]; cbn [is_rmw]; intros Hc; try discriminate;
    cbn [run_call param_ok rmw_addr requested_value rmw_field rmw_upd];
    unfold BME280_SetPOvs, BME280_SetTOvs, BME280_SetTStby, BME280_SetFilter,
      BME280_Enable3WireSPI, BME280_Disable3WireSPI, set_field;
    try (match goal with |- context [?k <? v] => destruct (k <? v) end);
    reflexivity.
Qed.


Lemma sleep_check_fails {W : Type} (Dev : BME280_t W) :
  bme280_is_sleep_mode Dev <> BME280_OK ->
  negb (BME280_OK =? bme280_is_sleep_mode Dev) = true.
Proof.
  intros H. destruct (Z.eqb_spec BME280_OK (bme280_is_sleep_mode Dev)); [congruence|].
  reflexivity.
Qed.

(** Unfold whichever setter the goal calls. *)
Ltac unfold_setter :=
  unfold BME280_SetPOvs, BME280_SetTOvs, BME280_SetHOvs, BME280_SetTStby,
    BME280_SetFilter, BME280_Enable3WireSPI, BME280_Disable3WireSPI,
    BME280_ConfigureAll.

(** C1, as amended.  For every device state and every call of a setter or
    of the bulk configure operation: if the device is not initialized or its
    local mode is not Sleep, the call fails, returns the device and the bus
    exactly as they were (zero reads, zero writes), and its return code is
    NotInitializedError or ConditionError respectively when the argument
    passes the parameter check, ParameterError when it does not. *)
Theorem setter_precondition {W : Type} (c : setter_call) (Dev : BME280_t W)
  (b : Bus W) :
  initialized Dev = not_initialized \/ mode Dev <> sleep_mode ->
  exists res b',
    run_call c Dev b = Some (res, Dev, b') /\
    b' = b /\ bus_reads b' = bus_reads b /\ bus_writes b' = bus_writes b /\
    res <> BME280_OK /\
    res = (if param_ok c
           then if initialized Dev =? not_initialized
                then BME280_NO_INIT_ERR else BME280_CONDITION_ERR
           else BME280_PARAM_ERR).
Proof.
  intros H. destruct (is_sleep_mode_fail Dev H) as [Hcode Hne].
  pose proof (sleep_check_fails Dev Hne) as Hchk.
  destruct c as [v|v|v|v|v| | |Cfg]; cbn [run_call param_ok]; unfold_setter;
    try (match goal with |- context [?k <? v] => destruct (k <? v) end);
    cbn [negb]; try rewrite Hchk;
    eexists; exists b; repeat split; try reflexivity;
    first [ exact Hne | exact Hcode | discriminate ].
Qed.

(** The theorem at an initialised device in Normal mode:
    [BME280_SetPOvs(3)]. *)
Lemma setter_precondition_witness :
  (initialized (ready_dev normal_mode) = not_initialized
   \/ mode (ready_dev normal_mode) <> sleep_mode) /\
  exists res b',
    run_call (CallSetPOvs 3) (ready_dev normal_mode) (quiet_bus ∅)
    = Some (res, ready_dev normal_mode, b') /\
    b' = quiet_bus ∅ /\ bus_reads b' = bus_reads (quiet_bus ∅) /\
    bus_writes b' = bus_writes (quiet_bus ∅) /\
    res <> BME280_OK /\
    res = (if param_ok (CallSetPOvs 3)
           then if initialized (ready_dev normal_mode) =? not_initialized
                then BME280_NO_INIT_ERR else BME280_CONDITION_ERR
           else BME280_PARAM_ERR).
Proof.
  assert (Hpre : initialized (ready_dev normal_mode) = not_initialized
                 \/ mode (ready_dev normal_mode) <> sleep_mode).
  { right. vm_compute. lia. }
  split; [exact Hpre|].
  exact (setter_precondition (CallSetPOvs 3) (ready_dev normal_mode) (quiet_bus ∅) Hpre).
Defined.

(** On a device that is not initialized, [BME280_SetPOvs(255)] returns
    ParameterError, neither NotInitializedError nor ConditionError. *)
Lemma setter_precondition_counterexample :
  initialized (fresh_dev sensor_driver) = not_initialized /\
  run_call (CallSetPOvs 255) (fresh_dev sensor_driver) (quiet_bus ∅)
  = Some (BME280_PARAM_ERR, fresh_dev sensor_driver, quiet_bus ∅) /\
  BME280_PARAM_ERR <> BME280_NO_INIT_ERR /\
  BME280_PARAM_ERR <> BME280_CONDITION_ERR.
Proof. repeat split; discriminate. Qed.

Lemma driver_attached {W : Type} (Dev : BME280_t W) (d : BME280_Driver_t W) :
  driver_ptr Dev = Some d -> driver Dev = d.
Proof. intros H. unfold driver. rewrite H. reflexivity. Qed.

(** On a device no driver structure was attached to, [BME280_Reset]
    dereferences the null pointer: the call has no defined result. *)
Lemma reset_without_driver {W : Type} (Dev : BME280_t W) (b : Bus W) :
  driver_ptr Dev = None -> BME280_Reset Dev b = None.
Proof. intros H. unfold BME280_Reset. rewrite H. reflexivity. Qed.

(** C2, as amended.  For every device state that has a driver structure
    attached whose write function is set (initialised or not, in any mode),
    and every outcome of that write, [BME280_Reset] issues the reset
    command, sets the local mode to Sleep and returns the result of the
    write, also when the write failed.  When the write function of the
    attached driver structure is not set it returns ParameterError and
    changes nothing. *)
Theorem reset_forces_sleep {W : Type} (Dev : BME280_t W) (b : Bus W)
  (d : BME280_Driver_t W) :
  driver_ptr Dev = Some d ->
  (forall (wr : bme280_writeregister W) (res : Z) (w' : W),
      write d = Some wr ->
      wr BME280_RESET_ADDR BME280_RESET_VALUE (world b) = (res, w') ->
      BME280_Reset Dev b
      = Some (res, set_mode Dev sleep_mode,
              log (EvWrite BME280_RESET_ADDR BME280_RESET_VALUE) w' b)) /\
  (write d = None ->
   BME280_Reset Dev b = Some (BME280_PARAM_ERR, Dev, b)).
Proof.
  intros Hd. split.
  - intros wr res w' Hwr Hcall. unfold BME280_Reset, drv_write.
    rewrite (driver_attached Dev d Hd), Hd. cbn [mbind option_bind].
    rewrite Hwr. cbn [IS_NULL mbind option_bind]. rewrite Hcall. reflexivity.
  - intros Hnone. unfold BME280_Reset. rewrite Hd. cbn [mbind option_bind].
    rewrite Hnone. reflexivity.
Qed.

(** The theorem on a bus whose write fails: the mode is Sleep afterwards and
    the failure code comes back. *)
Lemma reset_forces_sleep_witness :
  (driver_ptr (set_driver (ready_dev normal_mode) broken_driver)
   = Some broken_driver /\
   write broken_driver = Some (fun _ _ regs => (-7, regs)) /\
   (fun (_ _ : Z) (regs : gmap Z Z) => (-7, regs))
     BME280_RESET_ADDR BME280_RESET_VALUE (world (quiet_bus ∅))
   = (-7, ∅)) /\
  BME280_Reset (set_driver (ready_dev normal_mode) broken_driver) (quiet_bus ∅)
  = Some (-7,
          set_mode (set_driver (ready_dev normal_mode) broken_driver) sleep_mode,
          log (EvWrite BME280_RESET_ADDR BME280_RESET_VALUE) ∅ (quiet_bus ∅)).
Proof.
  assert (H0 : driver_ptr (set_driver (ready_dev normal_mode) broken_driver)
               = Some broken_driver) by reflexivity.
  assert (H1 : write broken_driver = Some (fun _ _ regs => (-7, regs)))
    by reflexivity.
  assert (H2 : (fun (_ _ : Z) (regs : gmap Z Z) => (-7, regs))
                 BME280_RESET_ADDR BME280_RESET_VALUE (world (quiet_bus ∅))
               = (-7, ∅)) by reflexivity.
  split; [exact (conj H0 (conj H1 H2))|].
  exact (proj1 (reset_forces_sleep
                  (set_driver (ready_dev normal_mode) broken_driver) (quiet_bus ∅)
                  broken_driver H0)
           _ (-7) ∅ H1 H2).
Defined.

(** A device in Normal mode whose attached driver structure has no write
    function: the reset command is not issued and the mode is not Sleep
    afterwards. *)
Lemma reset_counterexample :
  BME280_Reset (set_mode (fresh_dev null_driver) normal_mode) (quiet_bus ∅)
  = Some (BME280_PARAM_ERR, set_mode (fresh_dev null_driver) normal_mode, quiet_bus ∅)
  /\ mode (set_mode (fresh_dev null_driver) normal_mode) <> sleep_mode
  /\ bus_writes (quiet_bus ∅) = 0%nat.
Proof. repeat split. discriminate. Qed.

(** Reduce one monadic bind without touching the integer operations. *)
Ltac bind_step :=
  cbn -[Z.eqb Z.ltb Z.leb Z.land Z.lor Z.shiftl Z.shiftr u8 byte_at].

(** [set_field] never touches the device, and returns whenever the two
    callbacks it may call are set. *)
Lemma set_field_frame {W : Type} (Dev : BME280_t W) (a v : Z) (f u : Z -> Z)
  (b : Bus W) (res : Z) (Dev' : BME280_t W) (b' : Bus W) :
  set_field Dev a v f u b = Some (res, Dev', b') -> Dev' = Dev.
Proof.
  unfold set_field, drv_read, drv_write. cbv zeta.
  destruct (negb (BME280_OK =? bme280_is_sleep_mode Dev)); [congruence|].
  destruct (read (driver Dev)) as [rd|]; bind_step; [|discriminate].
  destruct (rd a 1 (world b)) as [[r rx] w]. bind_step.
  destruct (negb (BME280_OK =? r)); [congruence|].
  destruct (v =? f (byte_at rx 0)); [congruence|].
  destruct (write (driver Dev)) as [wr|]; bind_step; [|discriminate].
  destruct (wr a (u (byte_at rx 0)) w) as [r' w']. bind_step. congruence.
Qed.

Lemma set_field_returns {W : Type} (Dev : BME280_t W) (a v : Z) (f u : Z -> Z)
  (b : Bus W) (rd : bme280_readregisters W) (wr : bme280_writeregister W) :
  read (driver Dev) = Some rd -> write (driver Dev) = Some wr ->
  exists res b', set_field Dev a v f u b = Some (res, Dev, b').
Proof.
  intros Hrd Hwr. unfold set_field, drv_read, drv_write. cbv zeta. rewrite Hrd, Hwr.
  destruct (negb (BME280_OK =? bme280_is_sleep_mode Dev)); [eauto|]. bind_step.
  destruct (rd a 1 (world b)) as [[r rx] w]. bind_step.
  destruct (negb (BME280_OK =? r)); [eauto|].
  destruct (v =? f (byte_at rx 0)); [eauto|].
  destruct (wr a (u (byte_at rx 0)) _) as [r' w']. bind_step. eauto.
Qed.

Lemma SetHOvs_frame {W : Type} (Dev : BME280_t W) (v : Z) (b : Bus W)
  (res : Z) (Dev' : BME280_t W) (b' : Bus W) :
  BME280_SetHOvs Dev v b = Some (res, Dev', b') -> Dev' = Dev.
Proof.
  unfold BME280_SetHOvs, drv_read, drv_write. cbv zeta.
  destruct (BME280_OVERSAMPLING_X16 <? v); [congruence|].
  destruct (negb (BME280_OK =? bme280_is_sleep_mode Dev)); [congruence|].
  destruct (write (driver Dev)) as [wr|]; bind_step; [|discriminate].
  destruct (wr BME280_CTRL_HUM_ADDR v (world b)) as [r w]. bind_step.
  destruct (negb (BME280_OK =? r)); [congruence|].
  destruct (read (driver Dev)) as [rd|]; bind_step; [|discriminate].
  destruct (rd BME280_CTRL_MEAS_ADDR 1 w) as [[r1 rx] w1]. bind_step.
  destruct (negb (BME280_OK =? r1)); [congruence|].
  destruct (wr BME280_CTRL_MEAS_ADDR (byte_at rx 0) w1) as [r2 w2]. bind_step. congruence.
Qed.

Lemma SetHOvs_returns {W : Type} (Dev : BME280_t W) (v : Z) (b : Bus W)
  (rd : bme280_readregisters W) (wr : bme280_writeregister W) :
  read (driver Dev) = Some rd -> write (driver Dev) = Some wr ->
  exists res b', BME280_SetHOvs Dev v b = Some (res, Dev, b').
Proof.
  intros Hrd Hwr. unfold BME280_SetHOvs, drv_read, drv_write. cbv zeta. rewrite Hrd, Hwr.
  destruct (BME280_OVERSAMPLING_X16 <? v); [eauto|].
  destruct (negb (BME280_OK =? bme280_is_sleep_mode Dev)); [eauto|]. bind_step.
  destruct (wr BME280_CTRL_HUM_ADDR v (world b)) as [r w]. bind_step.
  destruct (negb (BME280_OK =? r)); [eauto|].
  destruct (rd BME280_CTRL_MEAS_ADDR 1 w) as [[r1 rx] w1]. bind_step.
  destruct (negb (BME280_OK =? r1)); [eauto|].
  destruct (wr BME280_CTRL_MEAS_ADDR (byte_at rx 0) w1) as [r2 w2]. bind_step. eauto.
Qed.

(** C10.  For every device state and every argument value, each of the
    seven per-field setters returns the device state it was given, whether
    it succeeds or fails, and it does return whenever the read and write
    functions are set; [BME280_SetMode], in contrast, updates the local mode
    field. *)
Theorem field_setters_frame {W : Type} (c : setter_call) (Dev : BME280_t W)
  (b : Bus W) :
  is_per_field c = true ->
  (forall res Dev' b', run_call c Dev b = Some (res, Dev', b') -> Dev' = Dev) /\
  (forall rd wr,
      read (driver Dev) = Some rd -> write (driver Dev) = Some wr ->
      exists res b', run_call c Dev b = Some (res, Dev, b')) /\
  (exists res b',
      BME280_SetMode (ready_dev sleep_mode) BME280_NORMALMODE (quiet_bus ∅)
      = Some (res, set_mode (ready_dev sleep_mode) normal_mode, b')
      /\ mode (set_mode (ready_dev sleep_mode) normal_mode)
         <> mode (ready_dev sleep_mode)).
Proof.
  intros Hc. split; [|split].
  - intros res Dev' b'.
    destruct (is_rmw c) eqn:Hrmw.
    + rewrite (run_call_rmw c Dev b Hrmw).
      destruct (param_ok c); [apply set_field_frame|congruence].
    + destruct c; try discriminate. cbn [run_call]. apply SetHOvs_frame.
  - intros rd wr Hrd Hwr.
    destruct (is_rmw c) eqn:Hrmw.
    + rewrite (run_call_rmw c Dev b Hrmw).
      destruct (param_ok c); [exact (set_field_returns Dev _ _ _ _ b rd wr Hrd Hwr)|eauto].
    + destruct c; try discriminate. cbn [run_call].
      exact (SetHOvs_returns Dev _ b rd wr Hrd Hwr).
  - eexists. eexists. split; [vm_compute; reflexivity|]. vm_compute. lia.
Qed.

(** The theorem at [BME280_SetPOvs(3)] on an initialised sleeping device. *)
Lemma field_setters_frame_witness :
  is_per_field (CallSetPOvs 3) = true /\
  (forall res Dev' b',
      run_call (CallSetPOvs 3) (ready_dev sleep_mode) (quiet_bus ∅)
      = Some (res, Dev', b') -> Dev' = ready_dev sleep_mode).
Proof.
  split; [reflexivity|].
  exact (proj1 (field_setters_frame (CallSetPOvs 3) (ready_dev sleep_mode)
                  (quiet_bus ∅) eq_refl)).
Defined.

(** ** Initialisation *)

Lemma read_compensation_parameters_cases {W : Type} (Dev : BME280_t W) (b : Bus W)
  (rd : bme280_readregisters W) :
  read (driver Dev) = Some rd ->
  exists res Dev' b',
    bme280_read_compensation_parameters Dev b = Some (res, Dev', b') /\
    ((res = BME280_INTERFACE_ERR /\ Dev' = Dev) \/
     (res = BME280_OK /\ exists c, Dev' = set_trimm Dev c)).
Proof.
  intros Hrd. unfold bme280_read_compensation_parameters, drv_read. rewrite Hrd.
  bind_step.
  destruct (rd BME280_CALIB_DATA1_ADDR BME280_CALIB_DATA1_LEN (world b))
    as [[r1 rx1] w1]. bind_step.
  destruct (negb (BME280_OK =? r1)); [eauto 8|].
  destruct (rd BME280_CALIB_DATA2_ADDR BME280_CALIB_DATA2_LEN w1)
    as [[r2 rx2] w2]. bind_step.
  destruct (negb (BME280_OK =? r2)); eauto 10.
Qed.

(** C3, as amended.  [BME280_Init] always returns.  Whenever it returns a
    failure, the initialized flag, the calibration trims and the fine
    temperature are unchanged.  If a required capability function is absent
    the whole device state and the bus are untouched (ParameterError);
    otherwise the device state after the failure is the one passed in with
    the driver attached and the mode set to Sleep. *)
Theorem init_failure_effect {W : Type} (Dev : BME280_t W)
  (Driver : BME280_Driver_t W) (b : Bus W) :
  (exists o, BME280_Init Dev Driver b = Some o) /\
  forall res Dev' b',
    BME280_Init Dev Driver b = Some (res, Dev', b') -> res <> BME280_OK ->
    initialized Dev' = initialized Dev /\
    trimm Dev' = trimm Dev /\
    t_fine Dev' = t_fine Dev /\
    (if IS_NULL (write Driver) || IS_NULL (read Driver) || IS_NULL (delay Driver)
     then res = BME280_PARAM_ERR /\ Dev' = Dev /\ b' = b
     else Dev' = set_mode (set_driver Dev Driver) sleep_mode).
Proof.
  unfold BME280_Init.
  destruct (IS_NULL (write Driver) || IS_NULL (read Driver) || IS_NULL (delay Driver))
    eqn:Hnull.
  { split; [eauto|]. intros res Dev' b' [= <- <- <-] _. repeat split; reflexivity. }
  apply orb_false_elim in Hnull as [Hnull Hdl].
  apply orb_false_elim in Hnull as [Hwr Hrd].
  destruct (write Driver) as [wr|] eqn:Ewr; [|discriminate].
  destruct (read Driver) as [rd|] eqn:Erd; [|discriminate].
  destruct (delay Driver) as [dl|] eqn:Edl; [|discriminate].
  unfold BME280_Reset, drv_write, drv_delay, drv_read. cbv zeta.
  bind_step. rewrite Ewr. bind_step.
  destruct (wr BME280_RESET_ADDR BME280_RESET_VALUE (world b)) as [r0 w0].
  bind_step.
  destruct (Z.eqb_spec BME280_OK r0) as [<-|Hr0]; bind_step.
  2:{ split; [eauto|]. intros res Dev' b' [= <- <- <-] _. repeat split; reflexivity. }
  rewrite Edl. bind_step. rewrite Erd. bind_step.
  destruct (rd BME280_ID_ADDR 1 (dl 4 w0)) as [[r1 id] w1]. bind_step.
  destruct (Z.eqb_spec BME280_OK r1) as [<-|Hr1]; bind_step.
  2:{ split; [eauto|]. intros res Dev' b' [= <- <- <-] _. repeat split; reflexivity. }
  match goal with
  | |- context [bme280_read_compensation_parameters ?D ?B] =>
      destruct (read_compensation_parameters_cases D B rd Erd)
        as (res & Dev3 & b3 & -> & Hcases)
  end.
  bind_step.
  destruct Hcases as [[-> ->]|[-> [c ->]]]; bind_step.
  - split; [eauto|]. intros res Dev' b' [= <- <- <-] _. repeat split; reflexivity.
  - split; [eauto|]. intros res Dev' b' [= <- <- <-] Hne. congruence.
Qed.

(** The theorem on a bus where every transfer fails. *)
Lemma init_failure_effect_witness :
  (BME280_Init (ready_dev normal_mode) broken_driver (quiet_bus ∅)
   = Some (-7, set_mode (set_driver (ready_dev normal_mode) broken_driver) sleep_mode,
           log (EvWrite BME280_RESET_ADDR BME280_RESET_VALUE) ∅ (quiet_bus ∅))
   /\ -7 <> BME280_OK) /\
  initialized (set_mode (set_driver (ready_dev normal_mode) broken_driver) sleep_mode)
  = initialized (ready_dev normal_mode).
Proof.
  assert (Hrun : BME280_Init (ready_dev normal_mode) broken_driver (quiet_bus ∅)
                 = Some (-7,
                         set_mode (set_driver (ready_dev normal_mode) broken_driver)
                           sleep_mode,
                         log (EvWrite BME280_RESET_ADDR BME280_RESET_VALUE) ∅
                           (quiet_bus ∅))) by reflexivity.
  assert (Hne : -7 <> BME280_OK) by (vm_compute; lia).
  split; [split; [exact Hrun|exact Hne]|].
  exact (proj1 (proj2 (init_failure_effect (ready_dev normal_mode) broken_driver
                         (quiet_bus ∅)) _ _ _ Hrun Hne)).
Defined.

(** An initialised device in Normal mode, initialised again over a bus where
    every transfer fails: the call fails and the device state differs from
    the one passed in (the mode is now Sleep). *)
Lemma init_failure_counterexample :
  exists res Dev' b',
    BME280_Init (ready_dev normal_mode) broken_driver (quiet_bus ∅)
    = Some (res, Dev', b') /\
    res <> BME280_OK /\
    mode (ready_dev normal_mode) = normal_mode /\
    mode Dev' = sleep_mode /\
    Dev' <> ready_dev normal_mode.
Proof.
  eexists. eexists. eexists. split; [reflexivity|].
  split; [discriminate|]. split; [reflexivity|]. split; [reflexivity|].
  intros H. apply (f_equal mode) in H. discriminate H.
Qed.

(** C9.  For every value [id] read from the identity register: once the
    reset write and the identity read have succeeded, [BME280_Init] goes on
    to [bme280_read_compensation_parameters] and returns what that step
    returns; the byte read is never compared with the expected identity and
    the result is never the identity-mismatch error. *)
Theorem init_skips_identity_check {W : Type} (Dev : BME280_t W)
  (Driver : BME280_Driver_t W) (b : Bus W)
  (rd : bme280_readregisters W) (wr : bme280_writeregister W)
  (dl : bme280_delayms W) (w1 w3 : W) (id : list Z) :
  read Driver = Some rd -> write Driver = Some wr -> delay Driver = Some dl ->
  wr BME280_RESET_ADDR BME280_RESET_VALUE (world b) = (BME280_OK, w1) ->
  rd BME280_ID_ADDR 1 (dl 4 w1) = (BME280_OK, id, w3) ->
  let Dev2 := set_mode (set_driver Dev Driver) sleep_mode in
  let b3 :=
    log (EvRead BME280_ID_ADDR 1) w3
      (log (EvDelay 4) (dl 4 w1)
         (log (EvWrite BME280_RESET_ADDR BME280_RESET_VALUE) w1 b)) in
  exists res Dev3 b4,
    bme280_read_compensation_parameters Dev2 b3 = Some (res, Dev3, b4) /\
    BME280_Init Dev Driver b
    = Some (res,
            (if BME280_OK =? res then set_initialized Dev3 initialized_flag
             else Dev3),
            b4) /\
    res <> BME280_ID_ERR.
Proof.
  intros Erd Ewr Edl Hreset Hid Dev2 b3.
  destruct (read_compensation_parameters_cases Dev2 b3 rd Erd)
    as (res & Dev3 & b4 & Hcal & Hcases).
  exists res, Dev3, b4. split; [exact Hcal|]. split.
  - unfold BME280_Init. rewrite Erd, Ewr, Edl. cbn [IS_NULL orb].
    unfold BME280_Reset, drv_write, drv_delay, drv_read. cbv zeta.
    bind_step. rewrite Ewr. bind_step. rewrite Hreset. bind_step.
    rewrite Edl. bind_step. rewrite Erd. bind_step. rewrite Hid. bind_step.
    change (BME280_OK =? BME280_OK) with true. cbn [negb].
    fold Dev2. unfold b3 in Hcal. rewrite Hcal. bind_step.
    destruct (BME280_OK =? res); reflexivity.
  - destruct Hcases as [[-> _]|[-> _]]; discriminate.
Qed.


(** The theorem on a sensor that answers with identity 0x58. *)
Lemma init_skips_identity_check_witness :
  (read sensor_driver = Some sensor_read /\
   write sensor_driver = Some sensor_write /\
   delay sensor_driver = Some sensor_delay /\
   sensor_write BME280_RESET_ADDR BME280_RESET_VALUE (world (quiet_bus foreign_chip))
   = (BME280_OK, <[BME280_RESET_ADDR := BME280_RESET_VALUE]> foreign_chip) /\
   sensor_read BME280_ID_ADDR 1
     (sensor_delay 4 (<[BME280_RESET_ADDR := BME280_RESET_VALUE]> foreign_chip))
   = (BME280_OK, [0x58], <[BME280_RESET_ADDR := BME280_RESET_VALUE]> foreign_chip)) /\
  exists res Dev3 b4,
    BME280_Init (fresh_dev null_driver) sensor_driver (quiet_bus foreign_chip)
    = Some (res,
            (if BME280_OK =? res then set_initialized Dev3 initialized_flag
             else Dev3),
            b4) /\
    res <> BME280_ID_ERR.
Proof.
  assert (H1 : read sensor_driver = Some sensor_read) by reflexivity.
  assert (H2 : write sensor_driver = Some sensor_write) by reflexivity.
  assert (H3 : delay sensor_driver = Some sensor_delay) by reflexivity.
  assert (H4 : sensor_write BME280_RESET_ADDR BME280_RESET_VALUE
                 (world (quiet_bus foreign_chip))
               = (BME280_OK, <[BME280_RESET_ADDR := BME280_RESET_VALUE]> foreign_chip))
    by reflexivity.
  assert (H5 : sensor_read BME280_ID_ADDR 1
                 (sensor_delay 4
                    (<[BME280_RESET_ADDR := BME280_RESET_VALUE]> foreign_chip))
               = (BME280_OK, [0x58],
                  <[BME280_RESET_ADDR := BME280_RESET_VALUE]> foreign_chip))
    by (vm_compute; reflexivity).
  split; [repeat split; assumption|].
  destruct (init_skips_identity_check (fresh_dev null_driver) sensor_driver
              (quiet_bus foreign_chip) sensor_read sensor_write sensor_delay
              _ _ [0x58] H1 H2 H3 H4 H5)
    as (res & Dev3 & b4 & _ & Hinit & Hne).
  exists res, Dev3, b4. split; [exact Hinit|exact Hne].
Defined.

(** ** Compensation engine *)

Lemma u32_small (x : Z) : 0 <= x < 4294967296 -> u32 x = x.
Proof. intros H. unfold u32. apply Z.mod_small. exact H. Qed.

Lemma s32_small (x : Z) : -2147483648 <= x < 2147483648 -> s32 x = x.
Proof. intros H. unfold s32. rewrite Z.mod_small; lia. Qed.

Lemma h_var5_clamped_range {W : Type} (Dev : BME280_t W) (adc_H : Z) :
  0 <= h_var5_clamped Dev adc_H <= 419430400.
Proof.
  unfold h_var5_clamped. cbv zeta.
  match goal with
  | |- context [if ?x <? 0 then 0 else ?x] => generalize x
  end.
  intros x. destruct (Z.ltb_spec x 0) as [Hx|Hx].
  - cbn. lia.
  - destruct (Z.gtb_spec x 419430400); lia.
Qed.

(** C7.  For every calibration data set, fine temperature and raw humidity
    word, the intermediate result is clamped to [0, 419430400] before the
    final scaling division, and the returned value lies in
    [0, 419430400/1024]. *)
Theorem humidity_clamped {W : Type} (Dev : BME280_t W) (adc_H : Z) :
  0 <= h_var5_clamped Dev adc_H <= 419430400 /\
  bme280_compensate_h_u32t Dev adc_H = Z.quot (h_var5_clamped Dev adc_H) 4096 /\
  0 <= bme280_compensate_h_u32t Dev adc_H <= 419430400 / 1024.
Proof.
  pose proof (h_var5_clamped_range Dev adc_H) as Hr.
  assert (Hq : 0 <= Z.quot (h_var5_clamped Dev adc_H) 4096 <= 102400).
  { rewrite Z.quot_div_nonneg by lia. split.
    - apply Z.div_pos; lia.
    - apply Z.div_le_upper_bound; lia. }
  assert (Heq : bme280_compensate_h_u32t Dev adc_H
                = Z.quot (h_var5_clamped Dev adc_H) 4096).
  { unfold bme280_compensate_h_u32t. rewrite s32_small by lia.
    apply u32_small. lia. }
  split; [exact Hr|]. split; [exact Heq|].
  rewrite Heq. change (419430400 / 1024) with 409600. lia.
Qed.

Lemma div64_nonzero (a b : Z) : b <> 0 -> div64 a b = Some (s64 (Z.quot a b)).
Proof.
  intros H. unfold div64. destruct (Z.eqb_spec b 0); [contradiction|reflexivity].
Qed.

Lemma udiv32_nonzero (a b : Z) : b <> 0 -> udiv32 a b = Some (u32 (a / b)).
Proof.
  intros H. unfold udiv32. destruct (Z.eqb_spec b 0); [contradiction|reflexivity].
Qed.

Lemma p64_var1_defined {W : Type} (Dev : BME280_t W) :
  exists v, p64_var1 Dev = Some v.
Proof.
  unfold p64_var1. cbv zeta.
  rewrite (div64_nonzero _ 256) by lia. cbn [mbind option_bind].
  rewrite (div64_nonzero _ 8589934592) by lia. eauto.
Qed.

Lemma p32_var1_range {W : Type} (Dev : BME280_t W) :
  -2147483648 <= p32_var1 Dev < 2147483648.
Proof.
  unfold p32_var1. cbv zeta.
  match goal with |- context [sar32 (mul32 ?a ?b) 15] =>
    pose proof (s32_range (a * b)) as Hr; fold (mul32 a b) in Hr;
    generalize dependent (mul32 a b) end.
  intros m Hm. unfold sar32. rewrite Z.shiftr_div_pow2 by lia. change (2 ^ 15) with 32768.
  split.
  - apply Z.div_le_lower_bound; lia.
  - apply Z.div_lt_upper_bound; lia.
Qed.

(** C8.  For every calibration data set, fine temperature and raw pressure
    word: on the 64-bit and on the 32-bit path the pressure compensation
    never divides by zero (it always yields a value), and when the divisor
    coefficient combination [var1] is zero it returns exactly 0. *)
Theorem pressure_zero_divisor {W : Type} (Dev : BME280_t W) (adc_P : Z) :
  (forall USE_64BIT, exists p, bme280_compensate_p_u32t USE_64BIT Dev adc_P = Some p) /\
  (p64_var1 Dev = Some 0 -> bme280_compensate_p_u32t true Dev adc_P = Some 0) /\
  (p32_var1 Dev = 0 -> bme280_compensate_p_u32t false Dev adc_P = Some 0).
Proof.
  split; [|split].
  - intros [|]; cbn [bme280_compensate_p_u32t].
    + unfold bme280_compensate_p_u32t_64. cbv zeta.
      destruct (p64_var1_defined Dev) as [v ->]. cbn [mbind option_bind].
      destruct (Z.eqb_spec v 0) as [->|Hv]; cbn [negb]; [eauto|].
      rewrite (div64_nonzero _ v) by exact Hv. cbn [mbind option_bind].
      unfold div64. cbn [Z.eqb mbind option_bind]. eauto.
    + unfold bme280_compensate_p_u32t_32. cbv zeta.
      destruct (Z.eqb_spec (p32_var1 Dev) 0) as [E|Hv]; [eauto|].
      assert (Hu : u32 (p32_var1 Dev) <> 0).
      { intros Hz. apply Hv. pose proof (p32_var1_range Dev) as Hr.
        rewrite <- (s32_small _ Hr) in Hz |- *. apply u32_s32_zero. exact Hz. }
      match goal with |- context [if ?c then _ else _] => destruct c end;
        rewrite (udiv32_nonzero _ _ Hu); cbn [mbind option_bind]; eauto.
  - intros H0. cbn [bme280_compensate_p_u32t]. unfold bme280_compensate_p_u32t_64.
    cbv zeta. rewrite H0. reflexivity.
  - intros H0. cbn [bme280_compensate_p_u32t]. unfold bme280_compensate_p_u32t_32.
    cbv zeta. rewrite H0. reflexivity.
Qed.

(** The theorem at all-zero trims, where [var1] is zero on both paths. *)
Lemma pressure_zero_divisor_witness :
  (p64_var1 (ready_dev sleep_mode) = Some 0 /\ p32_var1 (ready_dev sleep_mode) = 0) /\
  bme280_compensate_p_u32t true (ready_dev sleep_mode) 415148 = Some 0 /\
  bme280_compensate_p_u32t false (ready_dev sleep_mode) 415148 = Some 0.
Proof.
  assert (H64 : p64_var1 (ready_dev sleep_mode) = Some 0) by (vm_compute; reflexivity).
  assert (H32 : p32_var1 (ready_dev sleep_mode) = 0) by (vm_compute; reflexivity).
  split; [split; [exact H64|exact H32]|].
  destruct (pressure_zero_divisor (ready_dev sleep_mode) 415148) as (_ & P64 & P32).
  split; [exact (P64 H64)|exact (P32 H32)].
Defined.

(** ** Forced-measurement delay *)

Lemma land7_range (x : Z) : 0 <= Z.land x 0x07 < 8.
Proof.
  change 0x07 with (Z.ones 3). rewrite Z.land_ones by lia.
  apply Z.mod_pos_bound. reflexivity.
Qed.

Lemma osrs_to_oversampling_table (osrs : Z) :
  bme280_osrs_to_oversampling osrs = spec_multiplier osrs.
Proof.
  unfold bme280_osrs_to_oversampling, spec_multiplier.
  unfold BME280_OVERSAMPLING_X2, BME280_OVERSAMPLING_X4, BME280_OVERSAMPLING_X8.
  rewrite (Z.eqb_sym 3 osrs), (Z.eqb_sym 4 osrs). reflexivity.
Qed.

Lemma forced_delay_codes (t p h : Z) :
  0 <= t < 8 -> 0 <= p < 8 -> 0 <= h < 8 ->
  forced_delay (spec_multiplier t) (spec_multiplier p) (spec_multiplier h)
  = floor_forced_delay t p h
  /\ floor_forced_delay t p h = spec_forced_delay t p h - 1.
Proof.
  intros Ht Hp Hh.
  pose (chk := fun t p h =>
    (forced_delay (spec_multiplier t) (spec_multiplier p) (spec_multiplier h)
     =? floor_forced_delay t p h)
    && (floor_forced_delay t p h =? spec_forced_delay t p h - 1)).
  assert (Hall : all_below 8 (fun t => all_below 8 (fun p => all_below 8 (chk t p)))
                 = true) by (vm_compute; reflexivity).
  pose proof (all_below_spec 8 _ Hall t ltac:(lia)) as H1.
  pose proof (all_below_spec 8 _ H1 p ltac:(lia)) as H2.
  pose proof (all_below_spec 8 _ H2 h ltac:(lia)) as H3.
  unfold chk in H3. apply andb_prop in H3 as [Ha Hb].
  split; apply Z.eqb_eq; assumption.
Qed.

(** C6, as amended.  For every triple of oversampling codes read from an
    idle, sleeping sensor, the orchestrator computes the wait time as
    [floor((125 + 230*T + 230*P + 58 + 230*H + 58) / 100) + 1], with each
    code first mapped through the table {0, 1, 2, 4, 8, 16}; this is one
    less than [ceil(... / 100) + 1]. *)
Theorem forced_delay_floor {W : Type} (Dev : BME280_t W) (delay0 : Z) (b : Bus W)
  (rd : bme280_readregisters W) (wr : bme280_writeregister W)
  (buff : list Z) (w1 : W) :
  read (driver Dev) = Some rd -> write (driver Dev) = Some wr ->
  rd BME280_CTRL_HUM_ADDR 3 (world b) = (BME280_OK, buff, w1) ->
  Z.land (byte_at buff 1) 0x09 = 0 ->
  Z.land (byte_at buff 2) 0x03 = 0 ->
  let t_code := Z.land (Z.shiftr (byte_at buff 2) 5) 0x07 in
  let p_code := Z.land (Z.shiftr (byte_at buff 2) 2) 0x07 in
  let h_code := Z.land (byte_at buff 0) 0x07 in
  (exists res b',
      bme280_set_forced_mode Dev delay0 b
      = Some (res, floor_forced_delay t_code p_code h_code, b')) /\
  floor_forced_delay t_code p_code h_code
  = spec_forced_delay t_code p_code h_code - 1.
Proof.
  intros Erd Ewr Hread Hidle Hsleep t_code p_code h_code.
  destruct (forced_delay_codes t_code p_code h_code
              (land7_range _) (land7_range _) (land7_range _)) as [Hcode Hoff].
  split; [|exact Hoff].
  unfold bme280_set_forced_mode, drv_read, drv_write. cbv zeta.
  rewrite Erd. bind_step. rewrite Hread. bind_step.
  rewrite Hidle, Hsleep. rewrite !osrs_to_oversampling_table.
  fold t_code p_code h_code. rewrite Hcode.
  change (negb (BME280_OK =? BME280_OK)) with false.
  change (negb (0 =? u8 0)) with false.
  change (negb (BME280_SLEEPMODE =? 0)) with false.
  cbv iota. rewrite Ewr. bind_step.
  match goal with |- context [wr ?a ?v ?w] => destruct (wr a v w) as [r2 w2] end.
  bind_step. destruct (negb (BME280_OK =? r2)); eauto.
Qed.

(** The theorem on a sensor with all three oversamplings at x1. *)
Lemma forced_delay_floor_witness :
  (read (driver (ready_dev sleep_mode)) = Some sensor_read /\
   write (driver (ready_dev sleep_mode)) = Some sensor_write /\
   sensor_read BME280_CTRL_HUM_ADDR 3 (world (quiet_bus x1_chip))
   = (BME280_OK, [0x01; 0x00; 0x24], x1_chip) /\
   Z.land (byte_at [0x01; 0x00; 0x24] 1) 0x09 = 0 /\
   Z.land (byte_at [0x01; 0x00; 0x24] 2) 0x03 = 0) /\
  (exists res b',
      bme280_set_forced_mode (ready_dev sleep_mode) 0 (quiet_bus x1_chip)
      = Some (res, 10, b')).
Proof.
  assert (H1 : read (driver (ready_dev sleep_mode)) = Some sensor_read) by reflexivity.
  assert (H2 : write (driver (ready_dev sleep_mode)) = Some sensor_write) by reflexivity.
  assert (H3 : sensor_read BME280_CTRL_HUM_ADDR 3 (world (quiet_bus x1_chip))
               = (BME280_OK, [0x01; 0x00; 0x24], x1_chip)) by (vm_compute; reflexivity).
  assert (H4 : Z.land (byte_at [0x01; 0x00; 0x24] 1) 0x09 = 0) by reflexivity.
  assert (H5 : Z.land (byte_at [0x01; 0x00; 0x24] 2) 0x03 = 0) by reflexivity.
  split; [repeat split; assumption|].
  exact (proj1 (forced_delay_floor (ready_dev sleep_mode) 0 (quiet_bus x1_chip)
                  sensor_read sensor_write _ _ H1 H2 H3 H4 H5)).
Defined.

(** With all three oversamplings at x1 the code waits 10 ms, whereas
    [ceil(931 / 100) + 1] is 11. *)
Lemma forced_delay_counterexample :
  (exists b',
      bme280_set_forced_mode (ready_dev sleep_mode) 0 (quiet_bus x1_chip)
      = Some (BME280_OK, 10, b')) /\
  spec_forced_delay 1 1 1 = 11.
Proof. split; [eexists; vm_compute; reflexivity|reflexivity]. Qed.
(** ** Write counts on the register-file sensor *)

Lemma bus_writes_read {W : Type} (w : W) (tr : list bus_event) (a n : Z) :
  bus_writes {| world := w; trace := tr ++ [EvRead a n] |}
  = bus_writes {| world := w; trace := tr |}.
Proof.
  unfold bus_writes. cbn [trace]. rewrite List.filter_app, List.length_app.
  cbn. lia.
Qed.

Lemma bus_writes_write {W : Type} (w w' : W) (tr : list bus_event) (a v : Z) :
  bus_writes {| world := w; trace := tr ++ [EvWrite a v] |}
  = S (bus_writes {| world := w'; trace := tr |}).
Proof.
  unfold bus_writes. cbn [trace]. rewrite List.filter_app, List.length_app.
  cbn. lia.
Qed.

Lemma sensor_read_one (regs : gmap Z Z) (a : Z) :
  sensor_read a 1 regs = (BME280_OK, [reg_value regs a], regs).
Proof.
  unfold sensor_read. change (Z.to_nat 1) with 1%nat.
  cbn [seq List.map map Z.of_nat]. rewrite Z.add_0_r. reflexivity.
Qed.

Lemma reg_value_insert (regs : gmap Z Z) (a v : Z) :
  reg_value (<[a := v]> regs) a = v.
Proof. unfold reg_value. rewrite lookup_insert_eq. reflexivity. Qed.

(** Writing the updated register makes the field equal to the requested
    value, for every register byte and every value the parameter check
    admits. *)
Lemma rmw_field_upd (c : setter_call) (reg : Z) :
  is_rmw c = true -> param_ok c = true -> 0 <= requested_value c ->
  0 <= reg < 256 ->
  rmw_field c (u8 (rmw_upd c reg)) = requested_value c.
Proof.
  intros Hrmw Hok Hv Hreg.
  assert (Hall : forall k : Z -> setter_call,
             all_below 8 (fun v => all_below 256 (fun r =>
               implb (param_ok (k v))
                     (rmw_field (k v) (u8 (rmw_upd (k v) r)) =? requested_value (k v))))
             = true ->
             forall v, 0 <= v < 8 -> param_ok (k v) = true ->
             rmw_field (k v) (u8 (rmw_upd (k v) reg)) = requested_value (k v)).
  { intros k Hk v Hv8 Hp.
    pose proof (all_below2_spec 8 256 _ Hk v reg ltac:(lia) ltac:(lia)) as H.
    cbv beta in H. rewrite Hp in H. cbn [implb] in H. apply Z.eqb_eq. exact H. }
  destruct c as [v|v|v|v|v| | |Cfg]; cbn [is_rmw] in Hrmw; try discriminate;
    cbn [requested_value] in Hv.
  - apply (Hall CallSetPOvs); [vm_compute; reflexivity| |exact Hok].
    cbn [param_ok] in Hok. unfold BME280_OVERSAMPLING_X16 in Hok. lia.
  - apply (Hall CallSetTOvs); [vm_compute; reflexivity| |exact Hok].
    cbn [param_ok] in Hok. unfold BME280_OVERSAMPLING_X16 in Hok. lia.
  - apply (Hall CallSetTStby); [vm_compute; reflexivity| |exact Hok].
    cbn [param_ok] in Hok. unfold BME280_STBY_20MS in Hok. lia.
  - apply (Hall CallSetFilter); [vm_compute; reflexivity| |exact Hok].
    cbn [param_ok] in Hok. unfold BME280_FILTER_16 in Hok. lia.
  - apply (Hall (fun _ => CallEnable3WireSPI)) with (v := 0);
      [vm_compute; reflexivity|lia|reflexivity].
  - apply (Hall (fun _ => CallDisable3WireSPI)) with (v := 0);
      [vm_compute; reflexivity|lia|reflexivity].
Qed.

(** One call of a read-compare-write setter on the register-file sensor. *)
Lemma set_field_sensor (Dev : BME280_t (gmap Z Z)) (regs : gmap Z Z)
  (tr : list bus_event) (a v : Z) (f u : Z -> Z) :
  driver Dev = sensor_driver -> bme280_is_sleep_mode Dev = BME280_OK ->
  set_field Dev a v f u {| world := regs; trace := tr |}
  = if v =? f (u8 (reg_value regs a))
    then Some (BME280_OK, Dev, {| world := regs; trace := tr ++ [EvRead a 1] |})
    else Some (BME280_OK, Dev,
               {| world := <[a := u (u8 (reg_value regs a))]> regs;
                  trace := (tr ++ [EvRead a 1])
                           ++ [EvWrite a (u (u8 (reg_value regs a)))] |}).
Proof.
  intros Hdrv Hsleep. unfold set_field, drv_read, drv_write. cbv zeta.
  rewrite Hsleep, Hdrv.
  change (negb (BME280_OK =? BME280_OK)) with false. cbv iota.
  cbn [read write sensor_driver mbind option_bind world].
  rewrite sensor_read_one.
  cbn [mbind option_bind log world trace].
  change (negb (BME280_OK =? BME280_OK)) with false. cbv iota.
  change (byte_at [reg_value regs a] 0) with (u8 (reg_value regs a)).
  destruct (v =? f (u8 (reg_value regs a))); reflexivity.
Qed.

Lemma SetHOvs_sensor (Dev : BME280_t (gmap Z Z)) (regs : gmap Z Z)
  (tr : list bus_event) (v : Z) :
  driver Dev = sensor_driver -> bme280_is_sleep_mode Dev = BME280_OK ->
  param_ok (CallSetHOvs v) = true ->
  exists regs' tr',
    BME280_SetHOvs Dev v {| world := regs; trace := tr |}
    = Some (BME280_OK, Dev, {| world := regs'; trace := tr' |}) /\
    bus_writes {| world := regs'; trace := tr' |}
    = S (S (bus_writes {| world := regs; trace := tr |})).
Proof.
  intros Hdrv Hsleep Hok. cbn [param_ok] in Hok.
  unfold BME280_SetHOvs, drv_read, drv_write. cbv zeta.
  destruct (BME280_OVERSAMPLING_X16 <? v); [discriminate|].
  rewrite Hsleep, Hdrv.
  change (negb (BME280_OK =? BME280_OK)) with false. cbv iota.
  cbn [read write sensor_driver mbind option_bind world sensor_write log trace].
  change (negb (BME280_OK =? BME280_OK)) with false. cbv iota.
  rewrite sensor_read_one.
  cbn [mbind option_bind world sensor_write log trace].
  change (negb (BME280_OK =? BME280_OK)) with false. cbv iota.
  cbn [mbind option_bind world sensor_write log trace].
  eexists. eexists. split; [reflexivity|].
  cbn [log trace world].
  rewrite (bus_writes_write _ regs), bus_writes_read.
  rewrite (bus_writes_write _ regs). reflexivity.
Qed.

(** C4, as amended.  On an initialised sleeping device whose sensor stores
    what is written, for every in-range value: a read-compare-write setter
    (pressure or temperature oversampling, stand-by time, filter, 3-wire SPI
    on or off) performs one bus write in the first call if the sensor's field
    differs from the value and none if it already equals it, and no bus
    write in the call repeated right after. *)
Theorem field_setter_writes (c : setter_call) (Dev : BME280_t (gmap Z Z))
  (b : Bus (gmap Z Z)) :
  driver Dev = sensor_driver ->
  initialized Dev <> not_initialized -> mode Dev = sleep_mode ->
  is_rmw c = true -> param_ok c = true -> 0 <= requested_value c ->
  exists b1 b2,
    run_call c Dev b = Some (BME280_OK, Dev, b1) /\
    run_call c Dev b1 = Some (BME280_OK, Dev, b2) /\
    bus_writes b1
    = (bus_writes b
       + (if (requested_value c
              =? rmw_field c (u8 (reg_value (world b) (rmw_addr c))))%Z
          then 0 else 1))%nat /\
    bus_writes b2 = bus_writes b1.
Proof.
  intros Hdrv Hinit Hmode Hrmw Hok Hv.
  pose proof (is_sleep_mode_ok Dev Hinit Hmode) as Hsleep.
  destruct b as [regs tr].
  rewrite (run_call_rmw c Dev _ Hrmw), Hok.
  rewrite (set_field_sensor Dev regs tr _ _ _ _ Hdrv Hsleep). cbn [world].
  set (reg := u8 (reg_value regs (rmw_addr c))).
  destruct (requested_value c =? rmw_field c reg) eqn:Hcmp.
  - eexists. eexists. split; [reflexivity|].
    rewrite (run_call_rmw c Dev _ Hrmw), Hok.
    rewrite (set_field_sensor Dev regs _ _ _ _ _ Hdrv Hsleep).
    fold reg. rewrite Hcmp. split; [reflexivity|].
    rewrite !bus_writes_read. split; lia.
  - eexists. eexists. split; [reflexivity|].
    rewrite (run_call_rmw c Dev _ Hrmw), Hok.
    rewrite (set_field_sensor Dev _ _ _ _ _ _ Hdrv Hsleep).
    rewrite reg_value_insert.
    rewrite (rmw_field_upd c reg Hrmw Hok Hv (u8_range _)), Z.eqb_refl.
    split; [reflexivity|].
    rewrite bus_writes_read, (bus_writes_write _ regs), bus_writes_read.
    split; lia.
Qed.

(** The theorem at [BME280_SetPOvs(3)] on a sensor with all registers 0. *)
Lemma field_setter_writes_witness :
  (driver (ready_dev sleep_mode) = sensor_driver /\
   initialized (ready_dev sleep_mode) <> not_initialized /\
   mode (ready_dev sleep_mode) = sleep_mode /\
   is_rmw (CallSetPOvs 3) = true /\
   param_ok (CallSetPOvs 3) = true /\
   0 <= requested_value (CallSetPOvs 3)) /\
  exists b1 b2,
    run_call (CallSetPOvs 3) (ready_dev sleep_mode) (quiet_bus ∅)
    = Some (BME280_OK, ready_dev sleep_mode, b1) /\
    run_call (CallSetPOvs 3) (ready_dev sleep_mode) b1
    = Some (BME280_OK, ready_dev sleep_mode, b2) /\
    bus_writes b1 = 1%nat /\ bus_writes b2 = 1%nat.
Proof.
  assert (H1 : driver (ready_dev sleep_mode) = sensor_driver) by reflexivity.
  assert (H2 : initialized (ready_dev sleep_mode) <> not_initialized)
    by (vm_compute; lia).
  assert (H3 : mode (ready_dev sleep_mode) = sleep_mode) by reflexivity.
  assert (H4 : is_rmw (CallSetPOvs 3) = true) by reflexivity.
  assert (H5 : param_ok (CallSetPOvs 3) = true) by reflexivity.
  assert (H6 : 0 <= requested_value (CallSetPOvs 3)) by (vm_compute; discriminate).
  split; [exact (conj H1 (conj H2 (conj H3 (conj H4 (conj H5 H6)))))|].
  destruct (field_setter_writes (CallSetPOvs 3) (ready_dev sleep_mode) (quiet_bus ∅)
              H1 H2 H3 H4 H5 H6) as (b1 & b2 & R1 & R2 & C1 & C2).
  exists b1, b2. split; [exact R1|]. split; [exact R2|].
  rewrite C2. split; exact C1.
Defined.

(** [BME280_SetPOvs(0)] on a sensor whose pressure-oversampling field is
    already 0: the first call performs no bus write, not one. *)
Lemma field_setter_writes_counterexample :
  exists b1,
    run_call (CallSetPOvs 0) (ready_dev sleep_mode) (quiet_bus ∅)
    = Some (BME280_OK, ready_dev sleep_mode, b1) /\
    bus_writes (quiet_bus ∅) = 0%nat /\
    bus_writes b1 = 0%nat /\ bus_writes b1 <> 1%nat.
Proof.
  eexists. split; [vm_compute; reflexivity|].
  split; [reflexivity|]. split; [reflexivity|]. discriminate.
Qed.

(** * Further properties *)

(** ** Getters *)

Ltac unfold_getter :=
  unfold BME280_GetMode, BME280_GetPOvs, BME280_GetTOvs, BME280_GetHOvs,
    BME280_GetTStby, BME280_GetTFilter, BME280_Is3WireSPIEnabled.

(** What each getter computes from the register byte is [getter_value]. *)
Lemma getter_decode (g : getter_call) (reg : Z) :
  0 <= reg < 256 ->
  match g with
  | CallGetMode =>
      (if 0x02 =? u8 (Z.land reg 0x03) then BME280_FORCEDMODE
       else u8 (Z.land reg 0x03))
  | CallGetPOvs | CallGetTFilter => u8 (Z.land (Z.shiftr reg 2) 0x07)
  | CallGetTOvs | CallGetTStby => u8 (Z.land (Z.shiftr reg 5) 0x07)
  | CallGetHOvs => u8 (Z.land reg 0x07)
  | CallIs3WireSPIEnabled => u8 (Z.land reg 0x01)
  end = getter_value g reg
  /\ 0 <= getter_value g reg <= 7
  /\ (g = CallGetMode -> getter_value g reg <> 2 /\ getter_value g reg <= 3)
  /\ (g = CallIs3WireSPIEnabled -> getter_value g reg <= 1).
Proof.
  intros Hreg.
  pose (chk := fun (g : getter_call) (reg : Z) =>
    (match g with
     | CallGetMode =>
         (if 0x02 =? u8 (Z.land reg 0x03) then BME280_FORCEDMODE
          else u8 (Z.land reg 0x03))
     | CallGetPOvs | CallGetTFilter => u8 (Z.land (Z.shiftr reg 2) 0x07)
     | CallGetTOvs | CallGetTStby => u8 (Z.land (Z.shiftr reg 5) 0x07)
     | CallGetHOvs => u8 (Z.land reg 0x07)
     | CallIs3WireSPIEnabled => u8 (Z.land reg 0x01)
     end =? getter_value g reg)
    && (0 <=? getter_value g reg) && (getter_value g reg <=? 7)
    && match g with
       | CallGetMode => negb (getter_value g reg =? 2) && (getter_value g reg <=? 3)
       | CallIs3WireSPIEnabled => getter_value g reg <=? 1
       | _ => true
       end).
  assert (Hall : all_below 256 (chk g) = true) by (destruct g; vm_compute; reflexivity).
  pose proof (all_below_spec 256 _ Hall reg ltac:(lia)) as H.
  unfold chk in H.
  apply andb_prop in H as [H H4]. apply andb_prop in H as [H H3].
  apply andb_prop in H as [H1 H2].
  apply Z.eqb_eq in H1. apply Z.leb_le in H2, H3.
  split; [exact H1|]. split; [lia|]. split.
  - intros ->. apply andb_prop in H4 as [Ha Hb].
    apply negb_true_iff, Z.eqb_neq in Ha. apply Z.leb_le in Hb. split; assumption.
  - intros ->. apply Z.leb_le in H4. exact H4.
Qed.

Lemma not_init_check {W : Type} (Dev : BME280_t W) :
  initialized Dev = not_initialized ->
  bme280_is_sleep_mode Dev = BME280_NO_INIT_ERR.
Proof. intros H. unfold bme280_is_sleep_mode. rewrite H. reflexivity. Qed.

Lemma init_check_passes {W : Type} (Dev : BME280_t W) :
  initialized Dev <> not_initialized ->
  (BME280_NO_INIT_ERR =? bme280_is_sleep_mode Dev) = false.
Proof.
  intros H. unfold bme280_is_sleep_mode.
  destruct (Z.eqb_spec not_initialized (initialized Dev)) as [E|_]; [congruence|].
  destruct (negb (sleep_mode =? mode Dev)); reflexivity.
Qed.

Lemma run_getter_cases {W : Type} (g : getter_call) (Dev : BME280_t W)
  (out : Z) (b : Bus W) :
  (initialized Dev = not_initialized ->
   run_getter g Dev out b = Some (BME280_NO_INIT_ERR, out, Dev, b)) /\
  (forall (rd : bme280_readregisters W) (res : Z) (rx : list Z) (w' : W),
      initialized Dev <> not_initialized ->
      read (driver Dev) = Some rd ->
      rd (getter_addr g) 1 (world b) = (res, rx, w') ->
      run_getter g Dev out b
      = if BME280_OK =? res
        then Some (BME280_OK, getter_value g (byte_at rx 0),
                   getter_dev g Dev (getter_value g (byte_at rx 0)),
                   log (EvRead (getter_addr g) 1) w' b)
        else Some (BME280_INTERFACE_ERR, out, Dev,
                   log (EvRead (getter_addr g) 1) w' b)).
Proof.
  split.
  - intros Hinit. pose proof (not_init_check Dev Hinit) as Hc.
    destruct g; cbn [run_getter]; unfold_getter; cbv zeta; rewrite Hc; reflexivity.
  - intros rd res rx w' Hinit Hrd Hcall.
    pose proof (init_check_passes Dev Hinit) as Hc.
    pose proof (getter_decode g (byte_at rx 0) (byte_at_range rx 0)) as [Hdec _].
    destruct g; cbn [run_getter getter_addr] in *; unfold_getter; cbv zeta;
      rewrite Hc; unfold drv_read; rewrite Hrd;
      cbn [mbind option_bind]; rewrite Hcall; cbn [mbind option_bind];
      destruct (Z.eqb_spec BME280_OK res) as [<-|Hne]; cbn [negb];
      try reflexivity; rewrite Hdec; reflexivity.
Qed.

(** X1.  For each of the seven getters ([BME280_GetMode], [BME280_GetPOvs],
    [BME280_GetTOvs], [BME280_GetHOvs], [BME280_GetTStby],
    [BME280_GetTFilter], [BME280_Is3WireSPIEnabled]): on an uninitialised
    device the getter returns NotInitializedError and leaves output, device
    and bus alone.  On an initialised device, in whatever mode, it issues
    exactly one read of one byte at its own register; if the read fails the
    result is InterfaceError and output and device are unchanged, otherwise
    the result is OK and the output is the field decoded from the byte.
    Only [BME280_GetMode] changes the device: it stores the mode it read. *)
Theorem getter_footprint {W : Type} (g : getter_call) (Dev : BME280_t W)
  (out : Z) (b : Bus W) :
  (initialized Dev = not_initialized ->
   run_getter g Dev out b = Some (BME280_NO_INIT_ERR, out, Dev, b)) /\
  (forall (rd : bme280_readregisters W) (res : Z) (rx : list Z) (w' : W),
      initialized Dev <> not_initialized ->
      read (driver Dev) = Some rd ->
      rd (getter_addr g) 1 (world b) = (res, rx, w') ->
      run_getter g Dev out b
      = if BME280_OK =? res
        then Some (BME280_OK, getter_value g (byte_at rx 0),
                   getter_dev g Dev (getter_value g (byte_at rx 0)),
                   log (EvRead (getter_addr g) 1) w' b)
        else Some (BME280_INTERFACE_ERR, out, Dev,
                   log (EvRead (getter_addr g) 1) w' b)).
Proof. exact (run_getter_cases g Dev out b). Qed.

Lemma getter_no_read {W : Type} (g : getter_call) (Dev : BME280_t W) (out : Z)
  (b : Bus W) :
  initialized Dev <> not_initialized -> read (driver Dev) = None ->
  run_getter g Dev out b = None.
Proof.
  intros Hinit Hrd. pose proof (init_check_passes Dev Hinit) as Hc.
  destruct g; cbn [run_getter]; unfold_getter; cbv zeta; rewrite Hc;
    unfold drv_read; rewrite Hrd; reflexivity.
Qed.

(** X2.  Whenever a getter returns OK, the reported value is between
    0 and 7; the 3-wire-SPI flag is 0 or 1; the mode is 0, 1 or 3 (the
    second forced encoding 2 is reported as 1) and is also stored in the
    device; every other getter leaves the device as it was. *)
Theorem getter_result_range {W : Type} (g : getter_call) (Dev Dev' : BME280_t W)
  (out v : Z) (b b' : Bus W) :
  run_getter g Dev out b = Some (BME280_OK, v, Dev', b') ->
  0 <= v <= 7 /\
  (g = CallIs3WireSPIEnabled -> v <= 1) /\
  (g = CallGetMode -> (v = 0 \/ v = 1 \/ v = 3) /\ Dev' = set_mode Dev v) /\
  (g <> CallGetMode -> Dev' = Dev).
Proof.
  intros Hrun.
  destruct (Z.eq_dec (initialized Dev) not_initialized) as [Hinit|Hinit].
  { rewrite (proj1 (run_getter_cases g Dev out b) Hinit) in Hrun. discriminate. }
  destruct (read (driver Dev)) as [rd|] eqn:Hrd.
  2:{ rewrite (getter_no_read g Dev out b Hinit Hrd) in Hrun. discriminate. }
  destruct (rd (getter_addr g) 1 (world b)) as [[res rx] w'] eqn:Hcall.
  rewrite (proj2 (run_getter_cases g Dev out b) rd res rx w' Hinit Hrd Hcall) in Hrun.
  destruct (BME280_OK =? res); [|discriminate].
  injection Hrun as Hv HD _. subst v Dev'.
  destruct (getter_decode g (byte_at rx 0) (byte_at_range rx 0))
    as (_ & Hr & Hmode & Hspi).
  split; [exact Hr|]. split; [exact Hspi|]. split.
  - intros ->. destruct (Hmode eq_refl) as [Hne Hle]. split; [lia|reflexivity].
  - intros Hg. destruct g; try reflexivity. contradiction.
Qed.

Lemma getter_result_range_witness :
  run_getter CallGetMode (ready_dev sleep_mode) 0 (quiet_bus x1_chip)
  = Some (BME280_OK, 0, set_mode (ready_dev sleep_mode) 0,
          log (EvRead BME280_CTRL_MEAS_ADDR 1) x1_chip (quiet_bus x1_chip))
  /\ 0 <= 0 <= 7.
Proof.
  assert (Hrun : run_getter CallGetMode (ready_dev sleep_mode) 0 (quiet_bus x1_chip)
                 = Some (BME280_OK, 0, set_mode (ready_dev sleep_mode) 0,
                         log (EvRead BME280_CTRL_MEAS_ADDR 1) x1_chip
                           (quiet_bus x1_chip))) by (vm_compute; reflexivity).
  split; [exact Hrun|].
  exact (proj1 (getter_result_range CallGetMode _ _ 0 0 _ _ Hrun)).
Defined.

Lemma getter_footprint_witness :
  (initialized (ready_dev normal_mode) <> not_initialized /\
   read (driver (ready_dev normal_mode)) = Some sensor_read /\
   sensor_read (getter_addr CallGetTOvs) 1 (world (quiet_bus x1_chip))
   = (BME280_OK, [0x24], x1_chip)) /\
  run_getter CallGetTOvs (ready_dev normal_mode) 7 (quiet_bus x1_chip)
  = Some (BME280_OK, 1, ready_dev normal_mode,
          log (EvRead BME280_CTRL_MEAS_ADDR 1) x1_chip (quiet_bus x1_chip)).
Proof.
  assert (H1 : initialized (ready_dev normal_mode) <> not_initialized)
    by (vm_compute; lia).
  assert (H2 : read (driver (ready_dev normal_mode)) = Some sensor_read)
    by reflexivity.
  assert (H3 : sensor_read (getter_addr CallGetTOvs) 1 (world (quiet_bus x1_chip))
               = (BME280_OK, [0x24], x1_chip)) by (vm_compute; reflexivity).
  split; [repeat split; assumption|].
  exact (proj2 (getter_footprint CallGetTOvs (ready_dev normal_mode) 7
                  (quiet_bus x1_chip)) sensor_read _ _ _ H1 H2 H3).
Defined.

(** ** Getters on the register-file sensor *)

Lemma run_getter_sensor (g : getter_call) (Dev : BME280_t (gmap Z Z)) (out : Z)
  (regs : gmap Z Z) (tr : list bus_event) :
  driver Dev = sensor_driver -> initialized Dev <> not_initialized ->
  run_getter g Dev out {| world := regs; trace := tr |}
  = Some (BME280_OK, getter_value g (u8 (reg_value regs (getter_addr g))),
          getter_dev g Dev (getter_value g (u8 (reg_value regs (getter_addr g)))),
          {| world := regs; trace := tr ++ [EvRead (getter_addr g) 1] |}).
Proof.
  intros Hdrv Hinit.
  assert (Hrd : read (driver Dev) = Some sensor_read) by (rewrite Hdrv; reflexivity).
  rewrite (proj2 (run_getter_cases g Dev out {| world := regs; trace := tr |})
             sensor_read _ _ _ Hinit Hrd (sensor_read_one regs (getter_addr g))).
  reflexivity.
Qed.

(** ** Bulk configuration *)

Lemma land7_range' (x : Z) : 0 <= Z.land x 0x07 < Z.of_nat 8.
Proof. pose proof (land7_range x). lia. Qed.

Lemma land3_range (x : Z) : 0 <= Z.land x 0x03 < Z.of_nat 4.
Proof.
  change 0x03 with (Z.ones 2). rewrite Z.land_ones by lia.
  pose proof (Z.mod_pos_bound x (2 ^ 2) ltac:(lia)). change (2 ^ 2) with 4 in *. lia.
Qed.

Lemma land1_range (x : Z) : 0 <= Z.land x 0x01 < Z.of_nat 2.
Proof.
  change 0x01 with (Z.ones 1). rewrite Z.land_ones by lia.
  pose proof (Z.mod_pos_bound x (2 ^ 1) ltac:(lia)). change (2 ^ 1) with 2 in *. lia.
Qed.

Lemma field5_mask (x : Z) : Z.land (Z.shiftl x 5) 0xE0 = Z.shiftl (Z.land x 0x07) 5.
Proof. change 0xE0 with (Z.shiftl 0x07 5). rewrite <- Z.shiftl_land. reflexivity. Qed.

Lemma field2_mask (x : Z) : Z.land (Z.shiftl x 2) 0x1C = Z.shiftl (Z.land x 0x07) 2.
Proof. change 0x1C with (Z.shiftl 0x07 2). rewrite <- Z.shiftl_land. reflexivity. Qed.

Lemma all_below3_spec (n m k : nat) (p : Z -> Z -> Z -> bool) :
  all_below n (fun a => all_below m (fun b => all_below k (p a b))) = true ->
  forall a b c, 0 <= a < Z.of_nat n -> 0 <= b < Z.of_nat m -> 0 <= c < Z.of_nat k ->
                p a b c = true.
Proof.
  intros Hall a b c Ha Hb Hc.
  pose proof (all_below_spec n _ Hall a Ha) as H1.
  pose proof (all_below_spec m _ H1 b Hb) as H2.
  exact (all_below_spec k _ H2 c Hc).
Qed.

(** The getters decode the bytes [BME280_ConfigureAll] encodes. *)
Lemma config_decode (g : getter_call) (Cfg : Config.t) :
  getter_value g
    (u8 (match g with
         | CallGetHOvs => config_ctrl_hum Cfg
         | CallGetMode | CallGetPOvs | CallGetTOvs => config_ctrl_meas Cfg
         | _ => config_config Cfg
         end))
  = config_value g Cfg.
Proof.
  pose (pack := fun hi mid lo : Z =>
          u8 (Z.lor (u8 (Z.lor (u8 (Z.lor 0 (Z.shiftl hi 5))) (Z.shiftl mid 2))) lo)).
  assert (Hmeas : config_ctrl_meas Cfg
                  = pack (Z.land (Config.oversampling_t Cfg) 0x07)
                         (Z.land (Config.oversampling_p Cfg) 0x07)
                         (Z.land (Config.mode Cfg) 0x03)).
  { unfold config_ctrl_meas, pack. rewrite field5_mask, field2_mask. reflexivity. }
  assert (Hcfg : config_config Cfg
                 = pack (Z.land (Config.t_stby Cfg) 0x07)
                        (Z.land (Config.filter Cfg) 0x07)
                        (Z.land (Config.spi3w_enable Cfg) 0x01)).
  { unfold config_config, pack. rewrite field5_mask, field2_mask. reflexivity. }
  assert (Hall : all_below 8 (fun hi => all_below 8 (fun mid => all_below 4 (fun lo =>
            (getter_value CallGetTOvs (u8 (pack hi mid lo)) =? hi)
            && (getter_value CallGetPOvs (u8 (pack hi mid lo)) =? mid)
            && (getter_value CallGetMode (u8 (pack hi mid lo))
                =? (if lo =? 0x02 then 0x01 else lo))
            && (getter_value CallGetTStby (u8 (pack hi mid lo)) =? hi)
            && (getter_value CallGetTFilter (u8 (pack hi mid lo)) =? mid)
            && (implb (lo <? 2)
                  (getter_value CallIs3WireSPIEnabled (u8 (pack hi mid lo)) =? lo)))))
          = true) by (vm_compute; reflexivity).
  assert (Hpack : forall hi mid lo,
             0 <= hi < Z.of_nat 8 -> 0 <= mid < Z.of_nat 8 -> 0 <= lo < Z.of_nat 4 ->
             getter_value CallGetTOvs (u8 (pack hi mid lo)) = hi /\
             getter_value CallGetPOvs (u8 (pack hi mid lo)) = mid /\
             getter_value CallGetMode (u8 (pack hi mid lo))
             = (if lo =? 0x02 then 0x01 else lo) /\
             getter_value CallGetTStby (u8 (pack hi mid lo)) = hi /\
             getter_value CallGetTFilter (u8 (pack hi mid lo)) = mid /\
             (lo < 2 -> getter_value CallIs3WireSPIEnabled (u8 (pack hi mid lo)) = lo)).
  { intros hi mid lo Hhi Hmid Hlo.
    pose proof (all_below3_spec 8 8 4 _ Hall hi mid lo Hhi Hmid Hlo) as H.
    cbv beta in H. repeat (apply andb_prop in H as [H ?]).
    repeat split; try (apply Z.eqb_eq; assumption).
    intros Hlt. apply Z.eqb_eq.
    destruct (Z.ltb_spec lo 2); [|lia].
    match goal with Himp : implb true _ = true |- _ => exact Himp end. }
  destruct g; cbn [config_value].
  - rewrite Hmeas. apply Hpack; first [apply land7_range' | apply land3_range].
  - rewrite Hmeas. apply Hpack; first [apply land7_range' | apply land3_range].
  - rewrite Hmeas. apply Hpack; first [apply land7_range' | apply land3_range].
  - unfold config_ctrl_hum.
    pose proof (land7_range (Config.oversampling_h Cfg)) as Hr.
    generalize dependent (Z.land (Config.oversampling_h Cfg) 0x07).
    intros h Hh. apply Z.eqb_eq.
    apply (all_below_spec 8 (fun h => getter_value CallGetHOvs (u8 (u8 h)) =? h));
      [vm_compute; reflexivity|lia].
  - rewrite Hcfg.
    apply (Hpack _ _ (Z.land (Config.spi3w_enable Cfg) 0x01));
      first [apply land7_range' | pose proof (land1_range (Config.spi3w_enable Cfg)); lia].
  - rewrite Hcfg.
    apply (Hpack _ _ (Z.land (Config.spi3w_enable Cfg) 0x01));
      first [apply land7_range' | pose proof (land1_range (Config.spi3w_enable Cfg)); lia].
  - rewrite Hcfg.
    apply (Hpack _ _ (Z.land (Config.spi3w_enable Cfg) 0x01));
      first [apply land7_range' | pose proof (land1_range (Config.spi3w_enable Cfg)); lia].
Qed.

(** The local mode [BME280_ConfigureAll] leaves on success. *)
Lemma configure_mode_update {W : Type} (Dev : BME280_t W) (m : Z) :
  (if BME280_SLEEPMODE =? m then set_mode Dev sleep_mode
   else if BME280_FORCEDMODE =? m then set_mode Dev forced_mode
   else if BME280_NORMALMODE =? m then set_mode Dev normal_mode
   else Dev)
  = if (m =? 0) || (m =? 1) || (m =? 3) then set_mode Dev m else Dev.
Proof.
  unfold BME280_SLEEPMODE, BME280_FORCEDMODE, BME280_NORMALMODE.
  rewrite (Z.eqb_sym 0 m), (Z.eqb_sym 1 m), (Z.eqb_sym 3 m).
  destruct (Z.eqb_spec m 0) as [->|]; [reflexivity|].
  destruct (Z.eqb_spec m 1) as [->|]; [reflexivity|].
  destruct (Z.eqb_spec m 3) as [->|]; reflexivity.
Qed.

(** X3.  On an initialised device in Sleep mode whose driver has a
    write function, [BME280_ConfigureAll] writes the humidity-control byte,
    then the measurement-control byte, then the config byte, and stops at
    the first write that does not return OK: the result is then
    InterfaceError, the device is unchanged and no later write is issued.
    When all three writes return OK the result is OK, and the local mode is
    set to the configured mode when that is 0, 1 or 3 and is left alone
    otherwise. *)
Theorem configure_all_writes {W : Type} (Dev : BME280_t W) (Cfg : Config.t)
  (b : Bus W) (wr : bme280_writeregister W) (r1 r2 r3 : Z) (w1 w2 w3 : W) :
  initialized Dev <> not_initialized -> mode Dev = sleep_mode ->
  write (driver Dev) = Some wr ->
  wr BME280_CTRL_HUM_ADDR (config_ctrl_hum Cfg) (world b) = (r1, w1) ->
  wr BME280_CTRL_MEAS_ADDR (config_ctrl_meas Cfg) w1 = (r2, w2) ->
  wr BME280_CONFIG_ADDR (config_config Cfg) w2 = (r3, w3) ->
  let e1 := EvWrite BME280_CTRL_HUM_ADDR (config_ctrl_hum Cfg) in
  let e2 := EvWrite BME280_CTRL_MEAS_ADDR (config_ctrl_meas Cfg) in
  let e3 := EvWrite BME280_CONFIG_ADDR (config_config Cfg) in
  BME280_ConfigureAll Dev Cfg b
  = if negb (r1 =? BME280_OK)
    then Some (BME280_INTERFACE_ERR, Dev,
               {| world := w1; trace := trace b ++ [e1] |})
    else if negb (r2 =? BME280_OK)
    then Some (BME280_INTERFACE_ERR, Dev,
               {| world := w2; trace := trace b ++ [e1; e2] |})
    else if negb (r3 =? BME280_OK)
    then Some (BME280_INTERFACE_ERR, Dev,
               {| world := w3; trace := trace b ++ [e1; e2; e3] |})
    else Some (BME280_OK,
               (if (Config.mode Cfg =? 0) || (Config.mode Cfg =? 1)
                   || (Config.mode Cfg =? 3)
                then set_mode Dev (Config.mode Cfg) else Dev),
               {| world := w3; trace := trace b ++ [e1; e2; e3] |}).
Proof.
  intros Hinit Hmode Hwr Hw1 Hw2 Hw3 e1 e2 e3.
  pose proof (is_sleep_mode_ok Dev Hinit Hmode) as Hsleep.
  unfold BME280_ConfigureAll, drv_write. cbv zeta. rewrite Hsleep, Hwr.
  change (negb (BME280_OK =? BME280_OK)) with false. cbv iota.
  fold (config_ctrl_hum Cfg). fold (config_ctrl_meas Cfg). fold (config_config Cfg).
  rewrite configure_mode_update.
  cbn [mbind option_bind]. rewrite Hw1.
  cbn [mbind option_bind log world trace].
  rewrite (Z.eqb_sym r1), (Z.eqb_sym r2), (Z.eqb_sym r3).
  destruct (Z.eqb_spec BME280_OK r1) as [<-|H1]; cbn [negb]; [|reflexivity].
  rewrite Hw2. cbn [mbind option_bind log world trace].
  destruct (Z.eqb_spec BME280_OK r2) as [<-|H2]; cbn [negb].
  2:{ unfold log. cbn [trace world]. rewrite <- ?List.app_assoc. reflexivity. }
  rewrite Hw3. cbn [mbind option_bind log world trace].
  destruct (Z.eqb_spec BME280_OK r3) as [<-|H3]; cbn [negb];
    unfold log; cbn [trace world]; rewrite <- ?List.app_assoc; reflexivity.
Qed.

(** The theorem over a bus where every write fails: one write, then
    InterfaceError. *)
Lemma configure_all_writes_witness :
  (initialized (set_driver (ready_dev sleep_mode) broken_driver)
   <> not_initialized /\
   mode (set_driver (ready_dev sleep_mode) broken_driver) = sleep_mode /\
   write (driver (set_driver (ready_dev sleep_mode) broken_driver))
   = Some (fun _ _ regs => (-7, regs))) /\
  BME280_ConfigureAll (set_driver (ready_dev sleep_mode) broken_driver)
    {| Config.oversampling_t := 1; Config.oversampling_p := 1;
       Config.oversampling_h := 1; Config.t_stby := 0; Config.filter := 0;
       Config.spi3w_enable := 0; Config.mode := 3 |} (quiet_bus ∅)
  = Some (BME280_INTERFACE_ERR,
          set_driver (ready_dev sleep_mode) broken_driver,
          {| world := ∅; trace := [EvWrite BME280_CTRL_HUM_ADDR 1] |}).
Proof.
  assert (H1 : initialized (set_driver (ready_dev sleep_mode) broken_driver)
               <> not_initialized) by (vm_compute; lia).
  assert (H2 : mode (set_driver (ready_dev sleep_mode) broken_driver) = sleep_mode)
    by reflexivity.
  assert (H3 : write (driver (set_driver (ready_dev sleep_mode) broken_driver))
               = Some (fun _ _ regs => (-7, regs))) by reflexivity.
  split; [exact (conj H1 (conj H2 H3))|].
  exact (configure_all_writes (set_driver (ready_dev sleep_mode) broken_driver)
           {| Config.oversampling_t := 1; Config.oversampling_p := 1;
              Config.oversampling_h := 1; Config.t_stby := 0; Config.filter := 0;
              Config.spi3w_enable := 0; Config.mode := 3 |} (quiet_bus ∅)
           _ (-7) (-7) (-7) ∅ ∅ ∅ H1 H2 H3 eq_refl eq_refl eq_refl).
Defined.

Lemma reg_value_insert_ne (regs : gmap Z Z) (a a' v : Z) :
  a <> a' -> reg_value (<[a := v]> regs) a' = reg_value regs a'.
Proof. intros H. unfold reg_value. rewrite lookup_insert_ne by exact H. reflexivity. Qed.

Lemma ConfigureAll_sensor (Dev : BME280_t (gmap Z Z)) (Cfg : Config.t)
  (regs : gmap Z Z) (tr : list bus_event) :
  driver Dev = sensor_driver ->
  initialized Dev <> not_initialized -> mode Dev = sleep_mode ->
  BME280_ConfigureAll Dev Cfg {| world := regs; trace := tr |}
  = Some (BME280_OK,
          (if (Config.mode Cfg =? 0) || (Config.mode Cfg =? 1)
              || (Config.mode Cfg =? 3)
           then set_mode Dev (Config.mode Cfg) else Dev),
          {| world :=
               <[BME280_CONFIG_ADDR := config_config Cfg]>
                 (<[BME280_CTRL_MEAS_ADDR := config_ctrl_meas Cfg]>
                    (<[BME280_CTRL_HUM_ADDR := config_ctrl_hum Cfg]> regs));
             trace :=
               ((tr ++ [EvWrite BME280_CTRL_HUM_ADDR (config_ctrl_hum Cfg)])
                ++ [EvWrite BME280_CTRL_MEAS_ADDR (config_ctrl_meas Cfg)])
               ++ [EvWrite BME280_CONFIG_ADDR (config_config Cfg)] |}).
Proof.
  intros Hdrv Hinit Hmode.
  pose proof (is_sleep_mode_ok Dev Hinit Hmode) as Hsleep.
  unfold BME280_ConfigureAll, drv_write. cbv zeta. rewrite Hsleep, Hdrv.
  change (negb (BME280_OK =? BME280_OK)) with false. cbv iota.
  fold (config_ctrl_hum Cfg). fold (config_ctrl_meas Cfg). fold (config_config Cfg).
  rewrite configure_mode_update. reflexivity.
Qed.

(** X4.  On the register-file sensor, after [BME280_ConfigureAll]
    every getter succeeds and reports the corresponding field of the
    configuration, masked to the width of its register field (3 bits, 1
    bit for the 3-wire-SPI flag, 2 bits for the mode with the encoding 2
    reported as 1). *)
Theorem configure_all_roundtrip (g : getter_call) (Dev : BME280_t (gmap Z Z))
  (Cfg : Config.t) (b : Bus (gmap Z Z)) (out : Z) :
  driver Dev = sensor_driver ->
  initialized Dev <> not_initialized -> mode Dev = sleep_mode ->
  exists Dev1 b1 Dev2 b2,
    BME280_ConfigureAll Dev Cfg b = Some (BME280_OK, Dev1, b1) /\
    run_getter g Dev1 out b1 = Some (BME280_OK, config_value g Cfg, Dev2, b2).
Proof.
  intros Hdrv Hinit Hmode. destruct b as [regs tr].
  rewrite (ConfigureAll_sensor Dev Cfg regs tr Hdrv Hinit Hmode).
  set (Dev1 := if (Config.mode Cfg =? 0) || (Config.mode Cfg =? 1)
                  || (Config.mode Cfg =? 3)
               then set_mode Dev (Config.mode Cfg) else Dev).
  assert (Hdrv1 : driver Dev1 = sensor_driver).
  { unfold Dev1. destruct (_ || _); [exact Hdrv|exact Hdrv]. }
  assert (Hinit1 : initialized Dev1 <> not_initialized).
  { unfold Dev1. destruct (_ || _); exact Hinit. }
  eexists _, _, _, _. split; [reflexivity|].
  rewrite (run_getter_sensor g Dev1 out _ _ Hdrv1 Hinit1).
  pose proof (config_decode g Cfg) as Hdec.
  assert (Hreg : reg_value
                   (<[BME280_CONFIG_ADDR := config_config Cfg]>
                      (<[BME280_CTRL_MEAS_ADDR := config_ctrl_meas Cfg]>
                         (<[BME280_CTRL_HUM_ADDR := config_ctrl_hum Cfg]> regs)))
                   (getter_addr g)
                 = match g with
                   | CallGetHOvs => config_ctrl_hum Cfg
                   | CallGetMode | CallGetPOvs | CallGetTOvs => config_ctrl_meas Cfg
                   | _ => config_config Cfg
                   end).
  { destruct g; cbn [getter_addr];
      repeat first [ apply reg_value_insert
                   | rewrite reg_value_insert_ne by discriminate ]. }
  rewrite Hreg, Hdec. reflexivity.
Qed.

Lemma configure_all_roundtrip_witness :
  (driver (ready_dev sleep_mode) = sensor_driver /\
   initialized (ready_dev sleep_mode) <> not_initialized /\
   mode (ready_dev sleep_mode) = sleep_mode) /\
  exists Dev1 b1 Dev2 b2,
    BME280_ConfigureAll (ready_dev sleep_mode)
      {| Config.oversampling_t := 2; Config.oversampling_p := 5;
         Config.oversampling_h := 1; Config.t_stby := 4; Config.filter := 3;
         Config.spi3w_enable := 0; Config.mode := 3 |} (quiet_bus ∅)
    = Some (BME280_OK, Dev1, b1) /\
    run_getter CallGetPOvs Dev1 0 b1 = Some (BME280_OK, 5, Dev2, b2).
Proof.
  assert (H1 : driver (ready_dev sleep_mode) = sensor_driver) by reflexivity.
  assert (H2 : initialized (ready_dev sleep_mode) <> not_initialized)
    by (vm_compute; lia).
  assert (H3 : mode (ready_dev sleep_mode) = sleep_mode) by reflexivity.
  split; [repeat split; assumption|].
  exact (configure_all_roundtrip CallGetPOvs (ready_dev sleep_mode)
           {| Config.oversampling_t := 2; Config.oversampling_p := 5;
              Config.oversampling_h := 1; Config.t_stby := 4; Config.filter := 3;
              Config.spi3w_enable := 0; Config.mode := 3 |} (quiet_bus ∅) 0
           H1 H2 H3).
Defined.

(** ** Setters seen through the getters *)

Lemma rmw_getter_effect (c : setter_call) (g : getter_call) (reg : Z) :
  is_rmw c = true -> param_ok c = true -> 0 <= requested_value c ->
  0 <= reg < 256 ->
  (getter_addr g = rmw_addr c ->
   getter_value g (u8 (rmw_upd c reg))
   = if reports g c then requested_value c else getter_value g reg) /\
  (requested_value c = rmw_field c reg -> reports g c = true ->
   getter_value g reg = requested_value c).
Proof.
  intros Hrmw Hok Hv Hreg.
  pose (chk := fun (c : setter_call) (g : getter_call) (reg : Z) =>
    implb (param_ok c)
      (implb (getter_addr g =? rmw_addr c)
             (getter_value g (u8 (rmw_upd c reg))
              =? (if reports g c then requested_value c else getter_value g reg))
       && implb ((requested_value c =? rmw_field c reg) && reports g c)
                (getter_value g reg =? requested_value c))).
  assert (Hall : forall k : Z -> setter_call,
             all_below 8 (fun v => all_below 256 (chk (k v) g)) = true ->
             forall v, 0 <= v < 8 -> chk (k v) g reg = true).
  { intros k Hk v Hv8.
    exact (all_below2_spec 8 256 _ Hk v reg ltac:(lia) ltac:(lia)). }
  assert (Hchk : chk c g reg = true).
  { destruct c as [v|v|v|v|v| | |Cfg]; cbn [is_rmw] in Hrmw; try discriminate;
      cbn [requested_value] in Hv; cbn [param_ok] in Hok.
    - apply (Hall CallSetPOvs); [destruct g; vm_compute; reflexivity|].
      unfold BME280_OVERSAMPLING_X16 in Hok. lia.
    - apply (Hall CallSetTOvs); [destruct g; vm_compute; reflexivity|].
      unfold BME280_OVERSAMPLING_X16 in Hok. lia.
    - apply (Hall CallSetTStby); [destruct g; vm_compute; reflexivity|].
      unfold BME280_STBY_20MS in Hok. lia.
    - apply (Hall CallSetFilter); [destruct g; vm_compute; reflexivity|].
      unfold BME280_FILTER_16 in Hok. lia.
    - apply (Hall (fun _ => CallEnable3WireSPI)) with (v := 0);
        [destruct g; vm_compute; reflexivity|lia].
    - apply (Hall (fun _ => CallDisable3WireSPI)) with (v := 0);
        [destruct g; vm_compute; reflexivity|lia]. }
  unfold chk in Hchk. rewrite Hok in Hchk. cbn [implb] in Hchk.
  apply andb_prop in Hchk as [Ha Hb]. split.
  - intros Haddr. rewrite Haddr, Z.eqb_refl in Ha. cbn [implb] in Ha.
    apply Z.eqb_eq. exact Ha.
  - intros Hfield Hrep. apply Z.eqb_eq in Hfield.
    rewrite Hfield, Hrep in Hb. cbn [implb andb] in Hb.
    apply Z.eqb_eq. exact Hb.
Qed.

Lemma SetHOvs_sensor_explicit (Dev : BME280_t (gmap Z Z)) (regs : gmap Z Z)
  (tr : list bus_event) (v : Z) :
  driver Dev = sensor_driver -> bme280_is_sleep_mode Dev = BME280_OK ->
  param_ok (CallSetHOvs v) = true ->
  BME280_SetHOvs Dev v {| world := regs; trace := tr |}
  = Some (BME280_OK, Dev,
          {| world :=
               <[BME280_CTRL_MEAS_ADDR := u8 (reg_value regs BME280_CTRL_MEAS_ADDR)]>
                 (<[BME280_CTRL_HUM_ADDR := v]> regs);
             trace :=
               ((tr ++ [EvWrite BME280_CTRL_HUM_ADDR v])
                ++ [EvRead BME280_CTRL_MEAS_ADDR 1])
               ++ [EvWrite BME280_CTRL_MEAS_ADDR
                     (u8 (reg_value regs BME280_CTRL_MEAS_ADDR))] |}).
Proof.
  intros Hdrv Hsleep Hok. cbn [param_ok] in Hok.
  unfold BME280_SetHOvs, drv_read, drv_write. cbv zeta.
  destruct (BME280_OVERSAMPLING_X16 <? v); [discriminate|].
  rewrite Hsleep, Hdrv.
  change (negb (BME280_OK =? BME280_OK)) with false. cbv iota.
  cbn [read write sensor_driver mbind option_bind world sensor_write log trace].
  change (negb (BME280_OK =? BME280_OK)) with false. cbv iota.
  rewrite sensor_read_one.
  cbn [mbind option_bind world sensor_write log trace].
  change (negb (BME280_OK =? BME280_OK)) with false. cbv iota.
  cbn [mbind option_bind world sensor_write log trace].
  rewrite (reg_value_insert_ne regs BME280_CTRL_HUM_ADDR BME280_CTRL_MEAS_ADDR v)
    by discriminate.
  reflexivity.
Qed.

(** X5.  On the register-file sensor, for an initialised device in
    Sleep mode and an in-range argument, a per-field setter succeeds,
    leaves the device structure unchanged, and afterwards its own getter
    reports the value just set while every other getter reports what it
    reported before the call. *)
Theorem setter_getter_roundtrip (c : setter_call) (g : getter_call)
  (Dev : BME280_t (gmap Z Z)) (b : Bus (gmap Z Z)) (out : Z) :
  driver Dev = sensor_driver ->
  initialized Dev <> not_initialized -> mode Dev = sleep_mode ->
  is_per_field c = true -> param_ok c = true -> 0 <= requested_value c ->
  exists b1 before after D0 D1 b0' b1',
    run_call c Dev b = Some (BME280_OK, Dev, b1) /\
    run_getter g Dev out b = Some (BME280_OK, before, D0, b0') /\
    run_getter g Dev out b1 = Some (BME280_OK, after, D1, b1') /\
    after = (if reports g c then requested_value c else before).
Proof.
  intros Hdrv Hinit Hmode Hfield Hok Hv.
  pose proof (is_sleep_mode_ok Dev Hinit Hmode) as Hsleep.
  destruct b as [regs tr].
  rewrite (run_getter_sensor g Dev out regs tr Hdrv Hinit).
  destruct (is_rmw c) eqn:Hrmw.
  - rewrite (run_call_rmw c Dev _ Hrmw), Hok.
    rewrite (set_field_sensor Dev regs tr _ _ _ _ Hdrv Hsleep).
    set (reg := u8 (reg_value regs (rmw_addr c))).
    assert (Hreg : 0 <= reg < 256) by apply u8_range.
    destruct (rmw_getter_effect c g reg Hrmw Hok Hv Hreg) as [Hupd Hsame].
    destruct (Z.eqb_spec (requested_value c) (rmw_field c reg)) as [Heq|Hne].
    + eexists _, _, _, _, _, _, _. split; [reflexivity|]. split; [reflexivity|].
      rewrite (run_getter_sensor g Dev out regs _ Hdrv Hinit).
      split; [reflexivity|].
      destruct (reports g c) eqn:Hrep; [|reflexivity].
      assert (Haddr : getter_addr g = rmw_addr c).
      { destruct g, c; try discriminate; reflexivity. }
      rewrite Haddr. fold reg. exact (Hsame Heq eq_refl).
    + eexists _, _, _, _, _, _, _. split; [reflexivity|]. split; [reflexivity|].
      rewrite (run_getter_sensor g Dev out _ _ Hdrv Hinit).
      split; [reflexivity|].
      destruct (Z.eq_dec (getter_addr g) (rmw_addr c)) as [Haddr|Haddr].
      * rewrite Haddr, reg_value_insert. fold reg.
        exact (Hupd Haddr).
      * rewrite reg_value_insert_ne by congruence.
        destruct (reports g c) eqn:Hrep; [|reflexivity].
        exfalso. apply Haddr. destruct g, c; try discriminate; reflexivity.
  - destruct c as [v|v|v|v|v| | |Cfg]; try discriminate. cbn [run_call].
    rewrite (SetHOvs_sensor_explicit Dev regs tr v Hdrv Hsleep Hok).
    eexists _, _, _, _, _, _, _. split; [reflexivity|]. split; [reflexivity|].
    rewrite (run_getter_sensor g Dev out _ _ Hdrv Hinit).
    split; [reflexivity|].
    cbn [requested_value] in Hv. cbn [param_ok] in Hok.
    assert (Hv5 : 0 <= v < Z.of_nat 8).
    { unfold BME280_OVERSAMPLING_X16 in Hok. lia. }
    destruct g; cbn [getter_addr reports];
      repeat first [ rewrite reg_value_insert
                   | rewrite reg_value_insert_ne by discriminate ];
      try reflexivity;
      try (unfold u8 at 1; rewrite Z.mod_small by apply u8_range; reflexivity).
    apply Z.eqb_eq.
    apply (all_below_spec 8 (fun v => getter_value CallGetHOvs (u8 v) =? v));
      [vm_compute; reflexivity|exact Hv5].
Qed.

Lemma setter_getter_roundtrip_witness :
  (driver (ready_dev sleep_mode) = sensor_driver /\
   initialized (ready_dev sleep_mode) <> not_initialized /\
   mode (ready_dev sleep_mode) = sleep_mode /\
   is_per_field (CallSetFilter 4) = true /\
   param_ok (CallSetFilter 4) = true /\
   0 <= requested_value (CallSetFilter 4)) /\
  exists b1 before after D0 D1 b0' b1',
    run_call (CallSetFilter 4) (ready_dev sleep_mode) (quiet_bus x1_chip)
    = Some (BME280_OK, ready_dev sleep_mode, b1) /\
    run_getter CallGetTFilter (ready_dev sleep_mode) 0 (quiet_bus x1_chip)
    = Some (BME280_OK, before, D0, b0') /\
    run_getter CallGetTFilter (ready_dev sleep_mode) 0 b1
    = Some (BME280_OK, after, D1, b1') /\
    after = (if reports CallGetTFilter (CallSetFilter 4)
             then requested_value (CallSetFilter 4) else before).
Proof.
  assert (H1 : driver (ready_dev sleep_mode) = sensor_driver) by reflexivity.
  assert (H2 : initialized (ready_dev sleep_mode) <> not_initialized)
    by (vm_compute; lia).
  assert (H3 : mode (ready_dev sleep_mode) = sleep_mode) by reflexivity.
  assert (H4 : is_per_field (CallSetFilter 4) = true) by reflexivity.
  assert (H5 : param_ok (CallSetFilter 4) = true) by reflexivity.
  assert (H6 : 0 <= requested_value (CallSetFilter 4)) by (vm_compute; discriminate).
  split; [repeat split; assumption|].
  exact (setter_getter_roundtrip (CallSetFilter 4) CallGetTFilter
           (ready_dev sleep_mode) (quiet_bus x1_chip) 0 H1 H2 H3 H4 H5 H6).
Defined.

(** ** Mode changes *)

Lemma SetMode_sensor (Dev : BME280_t (gmap Z Z)) (Mode : Z) (regs : gmap Z Z)
  (tr : list bus_event) :
  driver Dev = sensor_driver -> initialized Dev <> not_initialized ->
  Mode <= BME280_NORMALMODE ->
  BME280_SetMode Dev Mode {| world := regs; trace := tr |}
  = let reg := u8 (reg_value regs BME280_CTRL_MEAS_ADDR) in
    if Mode =? getter_value CallGetMode reg
    then Some (BME280_OK, Dev,
               {| world := regs; trace := tr ++ [EvRead BME280_CTRL_MEAS_ADDR 1] |})
    else Some (BME280_OK, set_mode Dev Mode,
               {| world :=
                    <[BME280_CTRL_MEAS_ADDR := u8 (Z.lor (u8 (Z.land reg 0xFC)) Mode)]>
                      regs;
                  trace :=
                    (tr ++ [EvRead BME280_CTRL_MEAS_ADDR 1])
                    ++ [EvWrite BME280_CTRL_MEAS_ADDR
                          (u8 (Z.lor (u8 (Z.land reg 0xFC)) Mode))] |}).
Proof.
  intros Hdrv Hinit Hle. unfold BME280_SetMode, drv_read, drv_write. cbv zeta.
  destruct (Z.ltb_spec BME280_NORMALMODE Mode) as [Hgt|_]; [lia|].
  rewrite (init_check_passes Dev Hinit), Hdrv.
  cbn [read write sensor_driver mbind option_bind world].
  rewrite sensor_read_one.
  cbn [mbind option_bind log world trace].
  change (negb (BME280_OK =? BME280_OK)) with false. cbv iota.
  change (byte_at [reg_value regs BME280_CTRL_MEAS_ADDR] 0)
    with (u8 (reg_value regs BME280_CTRL_MEAS_ADDR)).
  cbn [getter_value]. rewrite (Z.eqb_sym 2).
  destruct (Mode =? _); reflexivity.
Qed.

Lemma set_mode_decode (g : getter_call) (reg Mode : Z) :
  0 <= reg < 256 -> 0 <= Mode <= 3 ->
  getter_addr g = BME280_CTRL_MEAS_ADDR ->
  getter_value g (u8 (u8 (Z.lor (u8 (Z.land reg 0xFC)) Mode)))
  = match g with
    | CallGetMode => if Mode =? 2 then 1 else Mode
    | _ => getter_value g reg
    end
  /\ (Mode = getter_value CallGetMode reg -> (Mode =? 2) = false).
Proof.
  intros Hreg HMode Haddr.
  pose (chk := fun (g : getter_call) (Mode reg : Z) =>
    implb (getter_addr g =? BME280_CTRL_MEAS_ADDR)
      (getter_value g (u8 (u8 (Z.lor (u8 (Z.land reg 0xFC)) Mode)))
       =? match g with
          | CallGetMode => if Mode =? 2 then 1 else Mode
          | _ => getter_value g reg
          end)
    && implb (Mode =? getter_value CallGetMode reg) (negb (Mode =? 2))).
  assert (Hall : all_below 4 (fun m => all_below 256 (chk g m)) = true)
    by (destruct g; vm_compute; reflexivity).
  pose proof (all_below2_spec 4 256 _ Hall Mode reg ltac:(lia) ltac:(lia)) as H.
  unfold chk in H. apply andb_prop in H as [Ha Hb].
  rewrite Haddr, Z.eqb_refl in Ha. cbn [implb] in Ha. apply Z.eqb_eq in Ha.
  split; [exact Ha|].
  intros Heq. apply Z.eqb_eq in Heq. rewrite Heq in Hb. cbn [implb] in Hb.
  apply negb_true_iff in Hb. exact Hb.
Qed.

(** X6.  On the register-file sensor, for an initialised device in
    any local mode and a mode argument between 0 and 3, [BME280_SetMode]
    succeeds with one bus read; when the mode bits in the sensor already
    encode the requested mode it performs no write and does not touch the
    local mode field, otherwise it performs one write and stores the
    requested mode in the device. *)
Theorem set_mode_effect (Dev : BME280_t (gmap Z Z)) (Mode : Z)
  (b : Bus (gmap Z Z)) :
  driver Dev = sensor_driver -> initialized Dev <> not_initialized ->
  0 <= Mode <= 3 ->
  let current :=
    getter_value CallGetMode (u8 (reg_value (world b) BME280_CTRL_MEAS_ADDR)) in
  exists b1,
    BME280_SetMode Dev Mode b
    = Some (BME280_OK, (if Mode =? current then Dev else set_mode Dev Mode), b1) /\
    bus_reads b1 = S (bus_reads b) /\
    bus_writes b1 = (bus_writes b + (if (Mode =? current)%Z then 0 else 1))%nat.
Proof.
  intros Hdrv Hinit HMode current. destruct b as [regs tr].
  rewrite (SetMode_sensor Dev Mode regs tr Hdrv Hinit) by (unfold BME280_NORMALMODE; lia).
  cbv zeta. cbn [world] in current. fold current.
  destruct (Mode =? current).
  - eexists. split; [reflexivity|]. split.
    + unfold bus_reads. cbn [trace]. rewrite List.filter_app, List.length_app.
      cbn. lia.
    + rewrite bus_writes_read. lia.
  - eexists. split; [reflexivity|]. split.
    + unfold bus_reads. cbn [trace]. rewrite !List.filter_app, !List.length_app.
      cbn. lia.
    + rewrite (bus_writes_write _ regs), bus_writes_read. lia.
Qed.

Lemma set_mode_effect_witness :
  (driver (ready_dev sleep_mode) = sensor_driver /\
   initialized (ready_dev sleep_mode) <> not_initialized /\ 0 <= 3 <= 3) /\
  exists b1,
    BME280_SetMode (ready_dev sleep_mode) 3 (quiet_bus x1_chip)
    = Some (BME280_OK, set_mode (ready_dev sleep_mode) 3, b1) /\
    bus_writes b1 = 1%nat.
Proof.
  assert (H1 : driver (ready_dev sleep_mode) = sensor_driver) by reflexivity.
  assert (H2 : initialized (ready_dev sleep_mode) <> not_initialized) by discriminate.
  assert (H3 : 0 <= 3 <= 3) by lia.
  split; [exact (conj H1 (conj H2 H3))|].
  destruct (set_mode_effect (ready_dev sleep_mode) 3 (quiet_bus x1_chip) H1 H2 H3)
    as (b1 & Hrun & _ & Hw).
  exists b1. split; [exact Hrun|exact Hw].
Defined.

(** X7.  On the register-file sensor, after [BME280_SetMode] with
    a mode between 0 and 3, [BME280_GetMode] reports that mode (1 for the
    second forced encoding 2) and every other getter reports what it
    reported before: the oversampling bits that share the register are
    preserved. *)
Theorem set_mode_getter_roundtrip (g : getter_call) (Dev : BME280_t (gmap Z Z))
  (Mode out : Z) (b : Bus (gmap Z Z)) :
  driver Dev = sensor_driver -> initialized Dev <> not_initialized ->
  0 <= Mode <= 3 ->
  exists Dev1 b1 before after D0 D1 b0' b1',
    BME280_SetMode Dev Mode b = Some (BME280_OK, Dev1, b1) /\
    run_getter g Dev out b = Some (BME280_OK, before, D0, b0') /\
    run_getter g Dev1 out b1 = Some (BME280_OK, after, D1, b1') /\
    after = match g with
            | CallGetMode => if Mode =? 2 then 1 else Mode
            | _ => before
            end.
Proof.
  intros Hdrv Hinit HMode. destruct b as [regs tr].
  rewrite (SetMode_sensor Dev Mode regs tr Hdrv Hinit) by (unfold BME280_NORMALMODE; lia).
  cbv zeta. set (reg := u8 (reg_value regs BME280_CTRL_MEAS_ADDR)).
  assert (Hreg : 0 <= reg < 256) by apply u8_range.
  rewrite (run_getter_sensor g Dev out regs tr Hdrv Hinit).
  destruct (Z.eqb_spec Mode (getter_value CallGetMode reg)) as [Heq|Hne].
  - eexists _, _, _, _, _, _, _, _. split; [reflexivity|]. split; [reflexivity|].
    rewrite (run_getter_sensor g Dev out regs _ Hdrv Hinit).
    split; [reflexivity|].
    destruct g; try reflexivity. cbn [getter_addr]. fold reg.
    destruct (set_mode_decode CallGetMode reg Mode Hreg HMode eq_refl) as [_ H2].
    rewrite (H2 Heq). symmetry. exact Heq.
  - assert (Hdrv1 : driver (set_mode Dev Mode) = sensor_driver) by exact Hdrv.
    assert (Hinit1 : initialized (set_mode Dev Mode) <> not_initialized) by exact Hinit.
    eexists _, _, _, _, _, _, _, _. split; [reflexivity|]. split; [reflexivity|].
    rewrite (run_getter_sensor g (set_mode Dev Mode) out _ _ Hdrv1 Hinit1).
    split; [reflexivity|].
    destruct (Z.eq_dec (getter_addr g) BME280_CTRL_MEAS_ADDR) as [Haddr|Haddr].
    + rewrite Haddr, reg_value_insert.
      destruct (set_mode_decode g reg Mode Hreg HMode Haddr) as [H1 _].
      rewrite H1. destruct g; try reflexivity; rewrite Haddr; reflexivity.
    + rewrite reg_value_insert_ne by congruence.
      destruct g; try reflexivity. contradiction Haddr. reflexivity.
Qed.

Lemma set_mode_getter_roundtrip_witness :
  (driver (ready_dev sleep_mode) = sensor_driver /\
   initialized (ready_dev sleep_mode) <> not_initialized /\ 0 <= 2 <= 3) /\
  exists Dev1 b1 before after D0 D1 b0' b1',
    BME280_SetMode (ready_dev sleep_mode) 2 (quiet_bus x1_chip)
    = Some (BME280_OK, Dev1, b1) /\
    run_getter CallGetMode (ready_dev sleep_mode) 0 (quiet_bus x1_chip)
    = Some (BME280_OK, before, D0, b0') /\
    run_getter CallGetMode Dev1 0 b1 = Some (BME280_OK, after, D1, b1') /\
    after = 1.
Proof.
  assert (H1 : driver (ready_dev sleep_mode) = sensor_driver) by reflexivity.
  assert (H2 : initialized (ready_dev sleep_mode) <> not_initialized) by discriminate.
  assert (H3 : 0 <= 2 <= 3) by lia.
  split; [exact (conj H1 (conj H2 H3))|].
  exact (set_mode_getter_roundtrip CallGetMode (ready_dev sleep_mode) 2 0
           (quiet_bus x1_chip) H1 H2 H3).
Defined.

(** ** Raw ADC words *)

Lemma lor_shiftl_add (hi lo n : Z) :
  0 <= n -> 0 <= lo < 2 ^ n -> Z.lor (Z.shiftl hi n) lo = hi * 2 ^ n + lo.
Proof.
  intros Hn Hlo.
  assert (Hdisj : Z.land (Z.shiftl hi n) lo = 0).
  { apply Z.bits_inj'. intros i Hi. rewrite Z.land_spec, Z.bits_0.
    destruct (Z.lt_ge_cases i n) as [Hlt|Hge].
    - rewrite Z.shiftl_spec_low by exact Hlt. reflexivity.
    - destruct (Z.eq_dec lo 0) as [->|Hne].
      + rewrite Z.bits_0. apply andb_false_r.
      + rewrite (Z.bits_above_log2 lo i); [apply andb_false_r|lia|].
        apply Z.log2_lt_pow2; [lia|].
        apply Z.lt_le_trans with (2 ^ n); [lia|].
        apply Z.pow_le_mono_r; lia. }
  rewrite <- Z.lxor_lor by exact Hdisj.
  rewrite <- Z.add_nocarry_lxor by exact Hdisj.
  rewrite Z.shiftl_mul_pow2 by exact Hn. reflexivity.
Qed.

(** X8.  The raw pressure or temperature word is
    [msb * 4096 + lsb * 16 + xlsb / 16], the 20-bit big-endian value of the
    three bytes with the low nibble of the third dropped; it lies in
    [[0, 2^20)]. *)
Theorem parse_press_temp_value (raw : list Z) :
  bme280_parse_press_temp_s32t raw
  = byte_at raw 0 * 4096 + byte_at raw 1 * 16 + byte_at raw 2 / 16
  /\ 0 <= bme280_parse_press_temp_s32t raw < 1048576.
Proof.
  pose proof (byte_at_range raw 0) as H0.
  pose proof (byte_at_range raw 1) as H1.
  pose proof (byte_at_range raw 2) as H2.
  unfold bme280_parse_press_temp_s32t, shl32, sar32. cbv zeta.
  set (b0 := byte_at raw 0) in *. set (b1 := byte_at raw 1) in *.
  set (b2 := byte_at raw 2) in *. clearbody b0 b1 b2.
  assert (Hc : 0 <= b2 / 16 < 16).
  { split; [apply Z.div_pos; lia|apply Z.div_lt_upper_bound; lia]. }
  rewrite (Z.shiftl_mul_pow2 b0 12), (Z.shiftl_mul_pow2 b1 4) by lia.
  rewrite (Z.shiftr_div_pow2 b2 4) by lia.
  change (2 ^ 12) with 4096. change (2 ^ 4) with 16.
  generalize dependent (b2 / 16). intros c Hc.
  rewrite !s32_small by lia.
  rewrite <- Z.lor_assoc.
  replace (b1 * 16) with (Z.shiftl b1 4)
    by (rewrite Z.shiftl_mul_pow2 by lia; reflexivity).
  rewrite (lor_shiftl_add b1 c 4) by (change (2 ^ 4) with 16; lia).
  change (2 ^ 4) with 16.
  replace (b0 * 4096) with (Z.shiftl b0 12)
    by (rewrite Z.shiftl_mul_pow2 by lia; reflexivity).
  rewrite (lor_shiftl_add b0 (b1 * 16 + c) 12)
    by (change (2 ^ 12) with 4096; lia).
  change (2 ^ 12) with 4096.
  change 0xFFFFF with (Z.ones 20). rewrite Z.land_ones by lia.
  change (2 ^ 20) with 1048576.
  rewrite Z.mod_small by lia.
  rewrite ?Z.shiftl_mul_pow2 by lia. change (2 ^ 12) with 4096.
  change (2 ^ 4) with 16. lia.
Qed.

(** X9.  The raw humidity word is [msb * 256 + lsb], the 16-bit
    big-endian value of the two bytes; it lies in [[0, 2^16)]. *)
Theorem parse_hum_value (raw : list Z) :
  bme280_parse_hum_s32t raw = byte_at raw 0 * 256 + byte_at raw 1
  /\ 0 <= bme280_parse_hum_s32t raw < 65536.
Proof.
  pose proof (byte_at_range raw 0) as H0.
  pose proof (byte_at_range raw 1) as H1.
  unfold bme280_parse_hum_s32t, shl32. cbv zeta.
  set (b0 := byte_at raw 0) in *. set (b1 := byte_at raw 1) in *.
  clearbody b0 b1.
  rewrite (Z.shiftl_mul_pow2 b0 8) by lia. change (2 ^ 8) with 256.
  rewrite s32_small by lia.
  replace (b0 * 256) with (Z.shiftl b0 8)
    by (rewrite Z.shiftl_mul_pow2 by lia; reflexivity).
  rewrite (lor_shiftl_add b0 b1 8) by (change (2 ^ 8) with 256; lia).
  change (2 ^ 8) with 256.
  change 0xFFFF with (Z.ones 16). rewrite Z.land_ones by lia.
  change (2 ^ 16) with 65536.
  rewrite Z.mod_small by lia.
  rewrite ?Z.shiftl_mul_pow2 by lia. change (2 ^ 8) with 256. lia.
Qed.

(** ** Integer display values *)

(** X10.  For a temperature in hundredths of a degree strictly
    between -128.00 and 128.00, [bme280_convert_t_S32_struct] stores the
    quotient truncated towards zero in [temp_int] without loss.  The
    remainder goes into the unsigned byte [temp_fract]: for a temperature
    that is not negative [temp_int * 100 + temp_fract] is the temperature,
    while a negative remainder wraps to [rem + 256], a value above 156. *)
Theorem temperature_display (temp : Z) (data : BME280_Data_t) :
  -12800 < temp < 12800 ->
  let d := bme280_convert_t_S32_struct temp data in
  temp_int d = Z.quot temp 100 /\
  temp_fract d = (if 0 <=? Z.rem temp 100 then Z.rem temp 100
                  else Z.rem temp 100 + 256) /\
  (0 <= temp -> temp_int d * 100 + temp_fract d = temp) /\
  (temp < 0 -> Z.rem temp 100 <> 0 -> 156 < temp_fract d).
Proof.
  intros Ht d. unfold d, bme280_convert_t_S32_struct. cbn [temp_int temp_fract].
  assert (Hr : -100 < Z.rem temp 100 < 100)
    by (Z.to_euclidean_division_equations; lia).
  assert (Hsign : 0 <= temp -> 0 <= Z.rem temp 100)
    by (Z.to_euclidean_division_equations; lia).
  assert (Hsign' : temp < 0 -> Z.rem temp 100 <= 0)
    by (Z.to_euclidean_division_equations; lia).
  assert (Hq : -128 <= Z.quot temp 100 < 128)
    by (Z.to_euclidean_division_equations; lia).
  assert (Hqr : temp = 100 * Z.quot temp 100 + Z.rem temp 100)
    by apply Z.quot_rem'.
  assert (Es : s8 (Z.quot temp 100) = Z.quot temp 100).
  { unfold s8. rewrite Z.mod_small; lia. }
  assert (Eu : u8 (Z.rem temp 100)
               = if 0 <=? Z.rem temp 100 then Z.rem temp 100
                 else Z.rem temp 100 + 256).
  { unfold u8. destruct (Z.leb_spec 0 (Z.rem temp 100)).
    - apply Z.mod_small. lia.
    - rewrite <- (Z.mod_add _ 1 256) by lia. apply Z.mod_small. lia. }
  rewrite Es, Eu. split; [reflexivity|]. split; [reflexivity|]. split.
  - intros H. destruct (Z.leb_spec 0 (Z.rem temp 100)); [lia|].
    specialize (Hsign H). lia.
  - intros H Hne. destruct (Z.leb_spec 0 (Z.rem temp 100)); [|lia].
    specialize (Hsign' H). lia.
Qed.

Lemma temperature_display_witness :
  -12800 < -50 < 12800 /\
  temp_int (bme280_convert_t_S32_struct (-50) blank_data) = 0 /\
  temp_fract (bme280_convert_t_S32_struct (-50) blank_data) = 206.
Proof.
  assert (H : -12800 < -50 < 12800) by lia.
  split; [exact H|].
  destruct (temperature_display (-50) blank_data H) as (H1 & H2 & _).
  split; [exact H1|exact H2].
Defined.

Lemma compensate_h_bound {W : Type} (Dev : BME280_t W) (adc_H : Z) :
  0 <= bme280_compensate_h_u32t Dev adc_H <= 102400.
Proof.
  pose proof (h_var5_clamped_range Dev adc_H) as Hr.
  assert (Hq : 0 <= Z.quot (h_var5_clamped Dev adc_H) 4096 <= 102400).
  { rewrite Z.quot_div_nonneg by lia. split.
    - apply Z.div_pos; lia.
    - apply Z.div_le_upper_bound; lia. }
  unfold bme280_compensate_h_u32t. rewrite s32_small by lia.
  rewrite u32_small by lia. exact Hq.
Qed.

(** X11.  For every compensated humidity the integer and fractional
    parts stored by [bme280_convert_h_U32_struct] recombine exactly:
    [humidity_int * 1000 + humidity_fract] is the humidity, the integer
    part is at most 102 and the fraction below 1000, so neither field
    wraps. *)
Theorem humidity_display {W : Type} (Dev : BME280_t W) (adc_H : Z)
  (data : BME280_Data_t) :
  let hum := bme280_compensate_h_u32t Dev adc_H in
  let d := bme280_convert_h_U32_struct hum data in
  humidity_int d * 1000 + humidity_fract d = hum /\
  0 <= humidity_int d <= 102 /\ 0 <= humidity_fract d < 1000.
Proof.
  intros hum d. pose proof (compensate_h_bound Dev adc_H) as Hb. fold hum in Hb.
  unfold d, bme280_convert_h_U32_struct. cbn [humidity_int humidity_fract].
  clear d. clearbody hum.
  pose proof (Z.div_mod hum 1000 ltac:(lia)) as Hdm.
  pose proof (Z.mod_pos_bound hum 1000 ltac:(lia)) as Hm.
  assert (Hd : 0 <= hum / 1000 <= 102).
  { split; [apply Z.div_pos; lia|].
    assert (hum / 1000 < 103) by (apply Z.div_lt_upper_bound; lia). lia. }
  unfold u8, u16.
  rewrite (Z.mod_small (hum / 1000) 256), (Z.mod_small (hum mod 1000) 65536) by lia.
  lia.
Qed.

(** X12.  With 64-bit compensation, for a pressure below 655360000
    the stored parts satisfy [pressure_int * 10000 + pressure_fract * 10 +
    press mod 10 = press] with the fraction below 1000 (the last decimal
    digit is dropped); with 32-bit compensation, for a pressure below
    6553600, [pressure_int * 100 + pressure_fract = press] with the
    fraction below 100. *)
Theorem pressure_display (press : Z) (data : BME280_Data_t) :
  0 <= press ->
  (press < 655360000 ->
   let d := bme280_convert_p_U32_struct true press data in
   pressure_int d * 10000 + pressure_fract d * 10 + press mod 10 = press /\
   0 <= pressure_fract d < 1000) /\
  (press < 6553600 ->
   let d := bme280_convert_p_U32_struct false press data in
   pressure_int d * 100 + pressure_fract d = press /\
   0 <= pressure_fract d < 100).
Proof.
  intros Hp. split; intros Hlt d; unfold d, bme280_convert_p_U32_struct;
    cbn [pressure_int pressure_fract].
  - pose proof (Z.div_mod press 10000 ltac:(lia)) as Hdm.
    pose proof (Z.mod_pos_bound press 10000 ltac:(lia)) as Hm.
    pose proof (Z.div_mod (press mod 10000) 10 ltac:(lia)) as Hdm2.
    pose proof (Z.mod_pos_bound (press mod 10000) 10 ltac:(lia)) as Hm2.
    assert (Hmm : (press mod 10000) mod 10 = press mod 10).
    { apply (Z.mod_unique press 10 (1000 * (press / 10000) + press mod 10000 / 10));
        [left; lia|lia]. }
    assert (Hd : 0 <= press / 10000 < 65536).
    { split; [apply Z.div_pos; lia|apply Z.div_lt_upper_bound; lia]. }
    assert (Hf : 0 <= (press mod 10000) / 10 < 1000).
    { split; [apply Z.div_pos; lia|apply Z.div_lt_upper_bound; lia]. }
    unfold u16.
    rewrite (Z.mod_small (press / 10000) 65536),
      (Z.mod_small (press mod 10000 / 10) 65536) by lia.
    lia.
  - pose proof (Z.div_mod press 100 ltac:(lia)) as Hdm.
    pose proof (Z.mod_pos_bound press 100 ltac:(lia)) as Hm.
    assert (Hd : 0 <= press / 100 < 65536).
    { split; [apply Z.div_pos; lia|apply Z.div_lt_upper_bound; lia]. }
    unfold u16.
    rewrite (Z.mod_small (press / 100) 65536),
      (Z.mod_small (press mod 100) 65536) by lia.
    lia.
Qed.

Lemma pressure_display_witness :
  (0 <= 9638620 /\ 9638620 < 655360000) /\
  pressure_int (bme280_convert_p_U32_struct true 9638620 blank_data) * 10000
  + pressure_fract (bme280_convert_p_U32_struct true 9638620 blank_data) * 10
  + 9638620 mod 10 = 9638620.
Proof.
  assert (H : 0 <= 9638620) by lia.
  assert (H' : 9638620 < 655360000) by lia.
  split; [split; assumption|].
  exact (proj1 (proj1 (pressure_display 9638620 blank_data H) H')).
Defined.

(** ** Busy flag and forced mode *)

Lemma status_mask (status : Z) :
  0 <= status < 256 ->
  (0 =? u8 (Z.land status 0x09))
  = negb (Z.testbit status 0 || Z.testbit status 3).
Proof.
  intros H. apply eqb_prop.
  apply (all_below_spec 256
           (fun s => Bool.eqb (0 =? u8 (Z.land s 0x09))
                              (negb (Z.testbit s 0 || Z.testbit s 3))));
    [vm_compute; reflexivity|lia].
Qed.

Lemma busy_check_cases {W : Type} (Dev : BME280_t W) (b : Bus W)
  (rd : bme280_readregisters W) (res : Z) (rx : list Z) (w' : W) :
  read (driver Dev) = Some rd ->
  rd BME280_STATUS_ADDR 1 (world b) = (res, rx, w') ->
  bme280_busy_check Dev b
  = Some (if BME280_OK =? res
          then if Z.testbit (byte_at rx 0) 0 || Z.testbit (byte_at rx 0) 3
               then BME280_BUSY_ERR else BME280_OK
          else BME280_INTERFACE_ERR,
          log (EvRead BME280_STATUS_ADDR 1) w' b).
Proof.
  intros Hrd Hcall. unfold bme280_busy_check, drv_read. cbv zeta.
  rewrite Hrd. cbn [mbind option_bind]. rewrite Hcall. cbn [mbind option_bind].
  destruct (Z.eqb_spec BME280_OK res) as [<-|Hne]; cbn [negb]; [|reflexivity].
  rewrite (status_mask _ (byte_at_range rx 0)).
  destruct (Z.testbit (byte_at rx 0) 0 || Z.testbit (byte_at rx 0) 3); reflexivity.
Qed.

(** X13.  [bme280_busy_check] reads one byte of the status register;
    it returns InterfaceError if the read fails, BusyError if bit 0
    (measuring) or bit 3 (im_update) of the byte is set, and OK otherwise,
    whatever the other six bits are. *)
Theorem busy_check_result {W : Type} (Dev : BME280_t W) (b : Bus W)
  (rd : bme280_readregisters W) (res : Z) (rx : list Z) (w' : W) :
  read (driver Dev) = Some rd ->
  rd BME280_STATUS_ADDR 1 (world b) = (res, rx, w') ->
  bme280_busy_check Dev b
  = Some (if BME280_OK =? res
          then if Z.testbit (byte_at rx 0) 0 || Z.testbit (byte_at rx 0) 3
               then BME280_BUSY_ERR else BME280_OK
          else BME280_INTERFACE_ERR,
          log (EvRead BME280_STATUS_ADDR 1) w' b).
Proof. exact (busy_check_cases Dev b rd res rx w'). Qed.

Lemma busy_check_result_witness :
  (read (driver (ready_dev sleep_mode)) = Some sensor_read /\
   sensor_read BME280_STATUS_ADDR 1 (world (quiet_bus {[ BME280_STATUS_ADDR := 0x08 ]}))
   = (BME280_OK, [0x08], {[ BME280_STATUS_ADDR := 0x08 ]})) /\
  bme280_busy_check (ready_dev sleep_mode) (quiet_bus {[ BME280_STATUS_ADDR := 0x08 ]})
  = Some (BME280_BUSY_ERR,
          log (EvRead BME280_STATUS_ADDR 1) {[ BME280_STATUS_ADDR := 0x08 ]}
            (quiet_bus {[ BME280_STATUS_ADDR := 0x08 ]})).
Proof.
  assert (H1 : read (driver (ready_dev sleep_mode)) = Some sensor_read) by reflexivity.
  assert (H2 : sensor_read BME280_STATUS_ADDR 1
                 (world (quiet_bus {[ BME280_STATUS_ADDR := 0x08 ]}))
               = (BME280_OK, [0x08], {[ BME280_STATUS_ADDR := 0x08 ]}))
    by (vm_compute; reflexivity).
  split; [split; assumption|].
  exact (busy_check_result (ready_dev sleep_mode) _ sensor_read _ _ _ H1 H2).
Defined.

Lemma forced_ctrl_meas_sleep (meas : Z) :
  0 <= meas < 256 -> Z.land meas 0x03 = 0 ->
  forced_ctrl_meas meas = meas + 1.
Proof.
  intros Hr Hs. apply Z.eqb_eq in Hs.
  pose proof (all_below_spec 256
                (fun m => implb (Z.land m 0x03 =? 0) (forced_ctrl_meas m =? m + 1))
                ltac:(vm_compute; reflexivity) meas ltac:(lia)) as H.
  cbv beta in H. rewrite Hs in H. apply Z.eqb_eq. exact H.
Qed.

Lemma set_forced_mode_cases {W : Type} (Dev : BME280_t W) (delay0 : Z)
  (b : Bus W) (rd : bme280_readregisters W) (buff : list Z) (w1 : W) :
  read (driver Dev) = Some rd ->
  rd BME280_CTRL_HUM_ADDR 3 (world b) = (BME280_OK, buff, w1) ->
  let status := byte_at buff 1 in
  let meas := byte_at buff 2 in
  let b1 := log (EvRead BME280_CTRL_HUM_ADDR 3) w1 b in
  (Z.testbit status 0 || Z.testbit status 3 = true ->
   bme280_set_forced_mode Dev delay0 b = Some (BME280_BUSY_ERR, delay0, b1)) /\
  (Z.testbit status 0 || Z.testbit status 3 = false -> Z.land meas 0x03 <> 0 ->
   bme280_set_forced_mode Dev delay0 b = Some (BME280_CONDITION_ERR, delay0, b1)) /\
  (Z.testbit status 0 || Z.testbit status 3 = false -> Z.land meas 0x03 = 0 ->
   forall (wr : bme280_writeregister W) (r2 : Z) (w2 : W),
     write (driver Dev) = Some wr ->
     wr BME280_CTRL_MEAS_ADDR (meas + 1) w1 = (r2, w2) ->
     exists delay',
       bme280_set_forced_mode Dev delay0 b
       = Some (if BME280_OK =? r2 then BME280_OK else BME280_INTERFACE_ERR,
               delay', log (EvWrite BME280_CTRL_MEAS_ADDR (meas + 1)) w2 b1)
       /\ 3 <= delay' <= 113).
Proof.
  intros Hrd Hcall status meas b1.
  pose proof (status_mask status (byte_at_range buff 1)) as Hmask.
  assert (Hstart :
    bme280_set_forced_mode Dev delay0 b
    = if negb (0 =? u8 (Z.land status 0x09)) then Some (BME280_BUSY_ERR, delay0, b1)
      else if negb (BME280_SLEEPMODE =? Z.land meas 0x03)
           then Some (BME280_CONDITION_ERR, delay0, b1)
           else
             let delay' :=
               forced_delay
                 (bme280_osrs_to_oversampling (Z.land (Z.shiftr meas 5) 0x07))
                 (bme280_osrs_to_oversampling (Z.land (Z.shiftr meas 2) 0x07))
                 (bme280_osrs_to_oversampling (Z.land (byte_at buff 0) 0x07)) in
             '(res, b2) ← drv_write Dev BME280_CTRL_MEAS_ADDR (forced_ctrl_meas meas) b1;
             if negb (BME280_OK =? res) then Some (BME280_INTERFACE_ERR, delay', b2)
             else Some (res, delay', b2)).
  { unfold bme280_set_forced_mode, drv_read. cbv zeta. rewrite Hrd.
    cbn [mbind option_bind]. rewrite Hcall. cbn [mbind option_bind].
    change (negb (BME280_OK =? BME280_OK)) with false. cbv iota. reflexivity. }
  rewrite Hstart, Hmask. clear Hstart. split; [|split].
  - intros ->. reflexivity.
  - intros -> Hmode. cbn [negb].
    destruct (Z.eqb_spec BME280_SLEEPMODE (Z.land meas 0x03)) as [E|_];
      [unfold BME280_SLEEPMODE in E; congruence|reflexivity].
  - intros -> Hmode wr r2 w2 Hwr Hw. cbn [negb]. rewrite Hmode.
    change (negb (BME280_SLEEPMODE =? 0)) with false. cbv iota zeta.
    rewrite (forced_ctrl_meas_sleep meas (byte_at_range buff 2) Hmode).
    unfold drv_write. rewrite Hwr. cbn [mbind option_bind].
    unfold b1 at 1. cbn [world log]. rewrite Hw. cbn [mbind option_bind].
    eexists. split.
    + destruct (Z.eqb_spec BME280_OK r2) as [<-|Hne]; cbn [negb]; reflexivity.
    + rewrite !osrs_to_oversampling_table.
      destruct (forced_delay_codes _ _ _ (land7_range (Z.shiftr meas 5))
                  (land7_range (Z.shiftr meas 2)) (land7_range (byte_at buff 0)))
        as [-> _].
      pose proof (land7_range (Z.shiftr meas 5)) as Ht.
      pose proof (land7_range (Z.shiftr meas 2)) as Hp.
      pose proof (land7_range (byte_at buff 0)) as Hh.
      generalize dependent (Z.land (Z.shiftr meas 5) 0x07).
      generalize dependent (Z.land (Z.shiftr meas 2) 0x07).
      generalize dependent (Z.land (byte_at buff 0) 0x07).
      intros h Hh p Hp t Ht.
      pose proof (all_below3_spec 8 8 8
                    (fun t p h => (3 <=? floor_forced_delay t p h)
                                  && (floor_forced_delay t p h <=? 113))
                    ltac:(vm_compute; reflexivity) t p h
                    ltac:(lia) ltac:(lia) ltac:(lia)) as H.
      cbv beta in H. apply andb_prop in H as [Ha Hb].
      apply Z.leb_le in Ha, Hb. lia.
Qed.

(** X14.  After a successful read of the three bytes at
    the humidity-control register, [bme280_set_forced_mode] returns
    BusyError without writing if bit 0 or bit 3 of the status byte is set,
    ConditionError without writing if the mode bits of the
    measurement-control byte are not Sleep, and otherwise writes that byte
    plus one (mode bits 01, oversampling bits kept) to the
    measurement-control register.  The delay it stores is between 3 and
    113 milliseconds, so it fits the 8-bit output; it is stored even when
    the write fails, in which case the result is InterfaceError. *)
Theorem set_forced_mode_steps {W : Type} (Dev : BME280_t W) (delay0 : Z)
  (b : Bus W) (rd : bme280_readregisters W) (buff : list Z) (w1 : W) :
  read (driver Dev) = Some rd ->
  rd BME280_CTRL_HUM_ADDR 3 (world b) = (BME280_OK, buff, w1) ->
  let status := byte_at buff 1 in
  let meas := byte_at buff 2 in
  let b1 := log (EvRead BME280_CTRL_HUM_ADDR 3) w1 b in
  (Z.testbit status 0 || Z.testbit status 3 = true ->
   bme280_set_forced_mode Dev delay0 b = Some (BME280_BUSY_ERR, delay0, b1)) /\
  (Z.testbit status 0 || Z.testbit status 3 = false -> Z.land meas 0x03 <> 0 ->
   bme280_set_forced_mode Dev delay0 b = Some (BME280_CONDITION_ERR, delay0, b1)) /\
  (Z.testbit status 0 || Z.testbit status 3 = false -> Z.land meas 0x03 = 0 ->
   forall (wr : bme280_writeregister W) (r2 : Z) (w2 : W),
     write (driver Dev) = Some wr ->
     wr BME280_CTRL_MEAS_ADDR (meas + 1) w1 = (r2, w2) ->
     exists delay',
       bme280_set_forced_mode Dev delay0 b
       = Some (if BME280_OK =? r2 then BME280_OK else BME280_INTERFACE_ERR,
               delay', log (EvWrite BME280_CTRL_MEAS_ADDR (meas + 1)) w2 b1)
       /\ 3 <= delay' <= 113).
Proof. exact (set_forced_mode_cases Dev delay0 b rd buff w1). Qed.

Lemma set_forced_mode_steps_witness :
  (read (driver (ready_dev sleep_mode)) = Some sensor_read /\
   sensor_read BME280_CTRL_HUM_ADDR 3 (world (quiet_bus x1_chip))
   = (BME280_OK, [0x01; 0x00; 0x24], x1_chip) /\
   write (driver (ready_dev sleep_mode)) = Some sensor_write /\
   sensor_write BME280_CTRL_MEAS_ADDR 0x25 x1_chip
   = (BME280_OK, <[BME280_CTRL_MEAS_ADDR := 0x25]> x1_chip)) /\
  exists delay',
    bme280_set_forced_mode (ready_dev sleep_mode) 0 (quiet_bus x1_chip)
    = Some (BME280_OK, delay',
            log (EvWrite BME280_CTRL_MEAS_ADDR 0x25)
              (<[BME280_CTRL_MEAS_ADDR := 0x25]> x1_chip)
              (log (EvRead BME280_CTRL_HUM_ADDR 3) x1_chip (quiet_bus x1_chip)))
    /\ 3 <= delay' <= 113.
Proof.
  assert (H1 : read (driver (ready_dev sleep_mode)) = Some sensor_read) by reflexivity.
  assert (H2 : sensor_read BME280_CTRL_HUM_ADDR 3 (world (quiet_bus x1_chip))
               = (BME280_OK, [0x01; 0x00; 0x24], x1_chip))
    by (vm_compute; reflexivity).
  assert (H3 : write (driver (ready_dev sleep_mode)) = Some sensor_write)
    by reflexivity.
  assert (H4 : sensor_write BME280_CTRL_MEAS_ADDR 0x25 x1_chip
               = (BME280_OK, <[BME280_CTRL_MEAS_ADDR := 0x25]> x1_chip))
    by reflexivity.
  split; [exact (conj H1 (conj H2 (conj H3 H4)))|].
  destruct (set_forced_mode_steps (ready_dev sleep_mode) 0 (quiet_bus x1_chip)
              sensor_read [0x01; 0x00; 0x24] x1_chip H1 H2) as (_ & _ & Hgo).
  exact (Hgo eq_refl eq_refl sensor_write BME280_OK
           (<[BME280_CTRL_MEAS_ADDR := 0x25]> x1_chip) H3 H4).
Defined.

(** ** Reading and compensating *)

Lemma byte_at_skipn (n i : nat) (l : list Z) :
  byte_at (skipn n l) i = byte_at l (n + i).
Proof.
  unfold byte_at. f_equal. revert l.
  induction n as [|n IH]; intros l; [reflexivity|].
  destruct l as [|x l]; [destruct i; reflexivity|]. cbn. apply IH.
Qed.

Lemma parse_press_temp_ext (l1 l2 : list Z) :
  byte_at l1 0 = byte_at l2 0 -> byte_at l1 1 = byte_at l2 1 ->
  byte_at l1 2 = byte_at l2 2 ->
  bme280_parse_press_temp_s32t l1 = bme280_parse_press_temp_s32t l2.
Proof. intros H0 H1 H2. unfold bme280_parse_press_temp_s32t. rewrite H0, H1, H2. reflexivity. Qed.

Lemma parse_hum_ext (l1 l2 : list Z) :
  byte_at l1 0 = byte_at l2 0 -> byte_at l1 1 = byte_at l2 1 ->
  bme280_parse_hum_s32t l1 = bme280_parse_hum_s32t l2.
Proof. intros H0 H1. unfold bme280_parse_hum_s32t. rewrite H0, H1. reflexivity. Qed.

Lemma valid_read_type_cases (rt : Z) :
  valid_read_type rt = true ->
  rt = read_all \/ rt = read_temp \/ rt = read_press \/ rt = read_hum.
Proof.
  unfold valid_read_type. intros H.
  repeat (apply orb_prop in H as [H|H]); apply Z.eqb_eq in H; auto.
Qed.

(** The words [bme280_read_compensate] parses out of [struct adc_regs] are
    the ones at the documented positions of the bytes received. *)
Lemma adc_words (rt : Z) (rx : list Z) :
  valid_read_type rt = true ->
  let adc_raw :=
    adc_regs_fill (adc_read_offset rt) (adc_read_len rt) rx in
  bme280_parse_press_temp_s32t (temp_raw adc_raw)
  = bme280_parse_press_temp_s32t (adc_temp_bytes rt rx) /\
  (wants_press rt = true ->
   bme280_parse_press_temp_s32t (press_raw adc_raw)
   = bme280_parse_press_temp_s32t rx) /\
  (wants_hum rt = true ->
   bme280_parse_hum_s32t (hum_raw adc_raw)
   = bme280_parse_hum_s32t (adc_hum_bytes rt rx)).
Proof.
  intros Hv. destruct (valid_read_type_cases rt Hv) as [-> | [-> | [-> | ->]]];
    cbv [adc_temp_bytes adc_hum_bytes adc_read_offset adc_read_len wants_press
         wants_hum read_all read_temp read_press read_hum Z.eqb Pos.eqb orb];
    (split; [|split]); try (intros; discriminate); intros;
    first [ apply parse_press_temp_ext | apply parse_hum_ext ];
    unfold temp_raw, hum_raw, press_raw; rewrite ?byte_at_skipn; reflexivity.
Qed.

Lemma compensate_p_defined {W : Type} (USE_64BIT : bool) (Dev : BME280_t W)
  (adc_P : Z) :
  exists p, bme280_compensate_p_u32t USE_64BIT Dev adc_P = Some p.
Proof.
  destruct USE_64BIT; cbn [bme280_compensate_p_u32t].
  - unfold bme280_compensate_p_u32t_64. cbv zeta.
    destruct (p64_var1_defined Dev) as [v ->]. cbn [mbind option_bind].
    destruct (Z.eqb_spec v 0) as [->|Hv]; cbn [negb]; [eauto|].
    rewrite (div64_nonzero _ v) by exact Hv. cbn [mbind option_bind].
    unfold div64. cbn [Z.eqb mbind option_bind]. eauto.
  - unfold bme280_compensate_p_u32t_32. cbv zeta.
    destruct (Z.eqb_spec (p32_var1 Dev) 0) as [E|Hv]; [eauto|].
    assert (Hu : u32 (p32_var1 Dev) <> 0).
    { intros Hz. apply Hv. pose proof (p32_var1_range Dev) as Hr.
      rewrite <- (s32_small _ Hr) in Hz |- *. apply u32_s32_zero. exact Hz. }
    match goal with |- context [if ?c then _ else _] => destruct c end;
      rewrite (udiv32_nonzero _ _ Hu); cbn [mbind option_bind]; eauto.
Qed.

Lemma read_compensate_shape {W : Type} (USE_64BIT : bool) (rt : Z)
  (Dev : BME280_t W) (temp press hum : Z) (b : Bus W) :
  valid_read_type rt = true ->
  bme280_read_compensate USE_64BIT rt Dev temp press hum b
  = '(res, rx, b1) ← drv_read Dev (adc_read_addr rt) (adc_read_len rt) b;
    if negb (BME280_OK =? res)
    then Some (BME280_INTERFACE_ERR, (temp, press, hum), Dev, b1)
    else
      let adc_raw := adc_regs_fill (adc_read_offset rt) (adc_read_len rt) rx in
      let adc_T := bme280_parse_press_temp_s32t (temp_raw adc_raw) in
      let '(temp', Dev1) := bme280_compensate_t_s32t Dev adc_T in
      press' ←
        (if wants_press rt
         then bme280_compensate_p_u32t USE_64BIT Dev1
                (bme280_parse_press_temp_s32t (press_raw adc_raw))
         else Some press);
      Some (res,
            (temp', press',
             if wants_hum rt
             then bme280_compensate_h_u32t Dev1 (bme280_parse_hum_s32t (hum_raw adc_raw))
             else hum),
            Dev1, b1).
Proof.
  intros Hv.
  destruct (valid_read_type_cases rt Hv) as [-> | [-> | [-> | ->]]];
    unfold bme280_read_compensate, drv_read; cbv zeta;
    (destruct (read (driver Dev)) as [f|];
     [|cbn [mbind option_bind];
       repeat match goal with
              | |- context [if ?c then _ else _] =>
                  let v := eval vm_compute in c in
                  change c with v; cbv iota
              end; reflexivity]);
    cbn [mbind option_bind].
  - change (read_all =? read_temp) with false.
    change (read_all =? read_press) with false.
    change (read_all =? read_hum) with false.
    change (read_all =? read_all) with true.
    cbv iota.
    change (adc_read_addr read_all) with BME280_PRESS_ADC_ADDR.
    change (adc_read_len read_all) with (BME280_PRESS_ADC_LEN + BME280_TEMP_ADC_LEN + BME280_HUM_ADC_LEN).
    change (adc_read_offset read_all) with 0%nat.
    change (wants_press read_all) with true.
    change (wants_hum read_all) with true.
    change ((read_press =? read_all) || (read_all =? read_all)) with true.
    change ((read_hum =? read_all) || (read_all =? read_all)) with true.
    cbv iota.
    destruct (f BME280_PRESS_ADC_ADDR (BME280_PRESS_ADC_LEN + BME280_TEMP_ADC_LEN + BME280_HUM_ADC_LEN) (world b)) as [[res rx] w']; reflexivity.
  - change (read_temp =? read_temp) with true.
    cbv iota.
    change (adc_read_addr read_temp) with BME280_TEMP_ADC_ADDR.
    change (adc_read_len read_temp) with (BME280_TEMP_ADC_LEN).
    change (adc_read_offset read_temp) with 3%nat.
    change (wants_press read_temp) with false.
    change (wants_hum read_temp) with false.
    change ((read_press =? read_temp) || (read_all =? read_temp)) with false.
    change ((read_hum =? read_temp) || (read_all =? read_temp)) with false.
    cbv iota.
    destruct (f BME280_TEMP_ADC_ADDR (BME280_TEMP_ADC_LEN) (world b)) as [[res rx] w']; reflexivity.
  - change (read_press =? read_temp) with false.
    change (read_press =? read_press) with true.
    cbv iota.
    change (adc_read_addr read_press) with BME280_PRESS_ADC_ADDR.
    change (adc_read_len read_press) with (BME280_PRESS_ADC_LEN + BME280_TEMP_ADC_LEN).
    change (adc_read_offset read_press) with 0%nat.
    change (wants_press read_press) with true.
    change (wants_hum read_press) with false.
    change ((read_press =? read_press) || (read_all =? read_press)) with true.
    change ((read_hum =? read_press) || (read_all =? read_press)) with false.
    cbv iota.
    destruct (f BME280_PRESS_ADC_ADDR (BME280_PRESS_ADC_LEN + BME280_TEMP_ADC_LEN) (world b)) as [[res rx] w']; reflexivity.
  - change (read_hum =? read_temp) with false.
    change (read_hum =? read_press) with false.
    change (read_hum =? read_hum) with true.
    cbv iota.
    change (adc_read_addr read_hum) with BME280_TEMP_ADC_ADDR.
    change (adc_read_len read_hum) with (BME280_TEMP_ADC_LEN + BME280_HUM_ADC_LEN).
    change (adc_read_offset read_hum) with 3%nat.
    change (wants_press read_hum) with false.
    change (wants_hum read_hum) with true.
    change ((read_press =? read_hum) || (read_all =? read_hum)) with false.
    change ((read_hum =? read_hum) || (read_all =? read_hum)) with true.
    cbv iota.
    destruct (f BME280_TEMP_ADC_ADDR (BME280_TEMP_ADC_LEN + BME280_HUM_ADC_LEN) (world b)) as [[res rx] w']; reflexivity.
Qed.

Lemma read_compensate_invalid {W : Type} (USE_64BIT : bool) (rt : Z)
  (Dev : BME280_t W) (temp press hum : Z) (b : Bus W) :
  valid_read_type rt = false ->
  bme280_read_compensate USE_64BIT rt Dev temp press hum b
  = Some (BME280_PARAM_ERR, (temp, press, hum), Dev, b).
Proof.
  unfold valid_read_type. intros H.
  apply orb_false_elim in H as [H H3]. apply orb_false_elim in H as [H H2].
  apply orb_false_elim in H as [H0 H1].
  unfold bme280_read_compensate. cbv zeta. rewrite H0, H1, H2, H3. reflexivity.
Qed.

(** X15.  [bme280_read_compensate] returns ParameterError for
    a read type other than the four known ones without touching the bus,
    and InterfaceError when the ADC read fails; in both cases the three
    output values and the device, including the fine temperature, are
    unchanged. *)
Theorem read_compensate_failure {W : Type} (USE_64BIT : bool) (rt : Z)
  (Dev : BME280_t W) (temp press hum : Z) (b : Bus W) :
  (valid_read_type rt = false ->
   bme280_read_compensate USE_64BIT rt Dev temp press hum b
   = Some (BME280_PARAM_ERR, (temp, press, hum), Dev, b)) /\
  (forall (rd : bme280_readregisters W) (res : Z) (rx : list Z) (w' : W),
      valid_read_type rt = true ->
      read (driver Dev) = Some rd ->
      rd (adc_read_addr rt) (adc_read_len rt) (world b) = (res, rx, w') ->
      res <> BME280_OK ->
      bme280_read_compensate USE_64BIT rt Dev temp press hum b
      = Some (BME280_INTERFACE_ERR, (temp, press, hum), Dev,
              log (EvRead (adc_read_addr rt) (adc_read_len rt)) w' b)).
Proof.
  split; [apply read_compensate_invalid|].
  intros rd res rx w' Hv Hrd Hcall Hne.
  rewrite (read_compensate_shape USE_64BIT rt Dev temp press hum b Hv).
  unfold drv_read. rewrite Hrd. cbn [mbind option_bind]. rewrite Hcall.
  cbn [mbind option_bind].
  destruct (Z.eqb_spec BME280_OK res) as [E|_]; [congruence|reflexivity].
Qed.

Lemma read_compensate_failure_witness :
  (valid_read_type read_all = true /\
   read (driver (set_driver (ready_dev normal_mode) broken_driver))
   = Some (fun _ _ regs => (-7, [], regs)) /\
   -7 <> BME280_OK) /\
  bme280_read_compensate true read_all
    (set_driver (ready_dev normal_mode) broken_driver) 1 2 3 (quiet_bus x1_chip)
  = Some (BME280_INTERFACE_ERR, (1, 2, 3),
          set_driver (ready_dev normal_mode) broken_driver,
          log (EvRead BME280_PRESS_ADC_ADDR 8) x1_chip (quiet_bus x1_chip)).
Proof.
  assert (H1 : valid_read_type read_all = true) by reflexivity.
  assert (H2 : read (driver (set_driver (ready_dev normal_mode) broken_driver))
               = Some (fun _ _ regs => (-7, [], regs))) by reflexivity.
  assert (H3 : -7 <> BME280_OK) by discriminate.
  split; [exact (conj H1 (conj H2 H3))|].
  exact (proj2 (read_compensate_failure true read_all
                  (set_driver (ready_dev normal_mode) broken_driver) 1 2 3
                  (quiet_bus x1_chip))
           _ (-7) [] x1_chip H1 H2 eq_refl H3).
Defined.

Lemma compensate_t_frame {W : Type} (Dev : BME280_t W) (adc_T : Z) :
  snd (bme280_compensate_t_s32t Dev adc_T)
  = set_t_fine Dev (t_fine (snd (bme280_compensate_t_s32t Dev adc_T))).
Proof. unfold bme280_compensate_t_s32t. cbv zeta. cbn [snd]. reflexivity. Qed.

Lemma read_compensate_ok {W : Type} (USE_64BIT : bool) (rt : Z)
  (Dev : BME280_t W) (temp press hum : Z) (b : Bus W)
  (rd : bme280_readregisters W) (rx : list Z) (w' : W) :
  valid_read_type rt = true ->
  read (driver Dev) = Some rd ->
  rd (adc_read_addr rt) (adc_read_len rt) (world b) = (BME280_OK, rx, w') ->
  let adc_T := bme280_parse_press_temp_s32t (adc_temp_bytes rt rx) in
  let Dev1 := snd (bme280_compensate_t_s32t Dev adc_T) in
  exists p,
    bme280_compensate_p_u32t USE_64BIT Dev1 (bme280_parse_press_temp_s32t rx)
    = Some p /\
    bme280_read_compensate USE_64BIT rt Dev temp press hum b
    = Some (BME280_OK,
            (fst (bme280_compensate_t_s32t Dev adc_T),
             (if wants_press rt then p else press),
             (if wants_hum rt
              then bme280_compensate_h_u32t Dev1
                     (bme280_parse_hum_s32t (adc_hum_bytes rt rx))
              else hum)),
            Dev1,
            log (EvRead (adc_read_addr rt) (adc_read_len rt)) w' b) /\
    Dev1 = set_t_fine Dev (t_fine Dev1).
Proof.
  intros Hv Hrd Hcall adc_T Dev1.
  destruct (compensate_p_defined USE_64BIT Dev1 (bme280_parse_press_temp_s32t rx))
    as [p Hp].
  exists p. split; [exact Hp|]. split; [|apply compensate_t_frame].
  rewrite (read_compensate_shape USE_64BIT rt Dev temp press hum b Hv).
  unfold drv_read. rewrite Hrd. cbn [mbind option_bind]. rewrite Hcall.
  cbn [mbind option_bind]. change (negb (BME280_OK =? BME280_OK)) with false.
  cbv iota zeta.
  destruct (adc_words rt rx Hv) as (Ht & HP & HH). cbv zeta in Ht, HP, HH.
  rewrite Ht. fold adc_T.
  destruct (bme280_compensate_t_s32t Dev adc_T) as [t D1] eqn:Hct.
  cbn [fst snd] in *. subst Dev1.
  destruct (wants_press rt) eqn:Hwp.
  - rewrite (HP eq_refl), Hp. cbn [mbind option_bind].
    destruct (wants_hum rt) eqn:Hwh; [rewrite (HH eq_refl)|]; reflexivity.
  - cbn [mbind option_bind].
    destruct (wants_hum rt) eqn:Hwh; [rewrite (HH eq_refl)|]; reflexivity.
Qed.

(** X16.  When the ADC read succeeds,
    [bme280_read_compensate] returns OK.  The temperature is always
    compensated, from the bytes at 0xFA..0xFC wherever the burst started,
    and only the fine temperature of the device changes.  Pressure is
    compensated and stored only for the pressure and the all read types,
    humidity only for the humidity and the all read types, both with the
    fine temperature just computed; an output that was not asked for keeps
    its value. *)
Theorem read_compensate_success {W : Type} (USE_64BIT : bool) (rt : Z)
  (Dev : BME280_t W) (temp press hum : Z) (b : Bus W)
  (rd : bme280_readregisters W) (rx : list Z) (w' : W) :
  valid_read_type rt = true ->
  read (driver Dev) = Some rd ->
  rd (adc_read_addr rt) (adc_read_len rt) (world b) = (BME280_OK, rx, w') ->
  let adc_T := bme280_parse_press_temp_s32t (adc_temp_bytes rt rx) in
  let Dev1 := snd (bme280_compensate_t_s32t Dev adc_T) in
  exists p,
    bme280_compensate_p_u32t USE_64BIT Dev1 (bme280_parse_press_temp_s32t rx)
    = Some p /\
    bme280_read_compensate USE_64BIT rt Dev temp press hum b
    = Some (BME280_OK,
            (fst (bme280_compensate_t_s32t Dev adc_T),
             (if wants_press rt then p else press),
             (if wants_hum rt
              then bme280_compensate_h_u32t Dev1
                     (bme280_parse_hum_s32t (adc_hum_bytes rt rx))
              else hum)),
            Dev1,
            log (EvRead (adc_read_addr rt) (adc_read_len rt)) w' b) /\
    Dev1 = set_t_fine Dev (t_fine Dev1).
Proof. exact (read_compensate_ok USE_64BIT rt Dev temp press hum b rd rx w'). Qed.

Lemma read_compensate_success_witness :
  (valid_read_type read_temp = true /\
   read (driver (ready_dev normal_mode)) = Some sensor_read /\
   sensor_read (adc_read_addr read_temp) (adc_read_len read_temp)
     (world (quiet_bus x1_chip))
   = (BME280_OK, [0; 0; 0], x1_chip)) /\
  exists t Dev1,
    bme280_read_compensate true read_temp (ready_dev normal_mode) 1 2 3
      (quiet_bus x1_chip)
    = Some (BME280_OK, (t, 2, 3), Dev1,
            log (EvRead BME280_TEMP_ADC_ADDR 3) x1_chip (quiet_bus x1_chip)).
Proof.
  assert (H1 : valid_read_type read_temp = true) by reflexivity.
  assert (H2 : read (driver (ready_dev normal_mode)) = Some sensor_read)
    by reflexivity.
  assert (H3 : sensor_read (adc_read_addr read_temp) (adc_read_len read_temp)
                 (world (quiet_bus x1_chip))
               = (BME280_OK, [0; 0; 0], x1_chip)) by (vm_compute; reflexivity).
  split; [exact (conj H1 (conj H2 H3))|].
  destruct (read_compensate_success true read_temp (ready_dev normal_mode) 1 2 3
              (quiet_bus x1_chip) sensor_read [0; 0; 0] x1_chip H1 H2 H3)
    as (p & _ & Hrun & _).
  eexists. eexists. exact Hrun.
Defined.

(** ** Successful initialisation *)

Lemma Init_runs {W : Type} (Dev : BME280_t W)
  (Driver : BME280_Driver_t W) (b : Bus W)
  (rd : bme280_readregisters W) (wr : bme280_writeregister W)
  (dl : bme280_delayms W) (w1 w2 w3 w4 : W) (id rx1 rx2 : list Z) :
  read Driver = Some rd -> write Driver = Some wr -> delay Driver = Some dl ->
  wr BME280_RESET_ADDR BME280_RESET_VALUE (world b) = (BME280_OK, w1) ->
  rd BME280_ID_ADDR 1 (dl 4 w1) = (BME280_OK, id, w2) ->
  rd BME280_CALIB_DATA1_ADDR BME280_CALIB_DATA1_LEN w2 = (BME280_OK, rx1, w3) ->
  rd BME280_CALIB_DATA2_ADDR BME280_CALIB_DATA2_LEN w3 = (BME280_OK, rx2, w4) ->
  let Dev' :=
    {| driver_ptr := Some Driver; mode := sleep_mode;
       initialized := initialized_flag;
       trimm := parse_compensation_parameters (calib_buffer rx1 rx2);
       t_fine := t_fine Dev |} in
  BME280_Init Dev Driver b
  = Some (BME280_OK, Dev',
          {| world := w4;
             trace := trace b ++
                      [EvWrite BME280_RESET_ADDR BME280_RESET_VALUE; EvDelay 4;
                       EvRead BME280_ID_ADDR 1;
                       EvRead BME280_CALIB_DATA1_ADDR BME280_CALIB_DATA1_LEN;
                       EvRead BME280_CALIB_DATA2_ADDR BME280_CALIB_DATA2_LEN] |})
  /\ bme280_is_sleep_mode Dev' = BME280_OK.
Proof.
  intros Erd Ewr Edl Hreset Hid H1 H2 Dev'. split; [|reflexivity].
  unfold BME280_Init. rewrite Erd, Ewr, Edl. cbn [IS_NULL orb].
  unfold BME280_Reset, drv_write, drv_delay, drv_read. cbv zeta.
  bind_step. rewrite Ewr. bind_step. rewrite Hreset. bind_step.
  rewrite Edl. bind_step. rewrite Erd. bind_step. rewrite Hid. bind_step.
  change (BME280_OK =? BME280_OK) with true. cbn [negb].
  unfold bme280_read_compensation_parameters, drv_read.
  bind_step. rewrite Erd. bind_step. rewrite H1. bind_step.
  change (BME280_OK =? BME280_OK) with true. cbn [negb].
  rewrite H2. bind_step.
  change (BME280_OK =? BME280_OK) with true. cbv iota.
  unfold Dev', log. cbn [trace world]. rewrite <- !List.app_assoc.
  reflexivity.
Qed.

(** X17.  When the reset write, the identity read and both calibration
    reads succeed, [BME280_Init] returns OK with exactly five bus
    operations in this order: the reset write, a delay of 4 ms, the
    identity read, the 25-byte and the 7-byte calibration reads.  The
    device then has the driver attached, mode Sleep, the initialised flag
    set, the trims parsed from the 32 calibration bytes and its fine
    temperature unchanged, and it passes the sleep-mode check the setters
    start with. *)
Theorem init_success {W : Type} (Dev : BME280_t W)
  (Driver : BME280_Driver_t W) (b : Bus W)
  (rd : bme280_readregisters W) (wr : bme280_writeregister W)
  (dl : bme280_delayms W) (w1 w2 w3 w4 : W) (id rx1 rx2 : list Z) :
  read Driver = Some rd -> write Driver = Some wr -> delay Driver = Some dl ->
  wr BME280_RESET_ADDR BME280_RESET_VALUE (world b) = (BME280_OK, w1) ->
  rd BME280_ID_ADDR 1 (dl 4 w1) = (BME280_OK, id, w2) ->
  rd BME280_CALIB_DATA1_ADDR BME280_CALIB_DATA1_LEN w2 = (BME280_OK, rx1, w3) ->
  rd BME280_CALIB_DATA2_ADDR BME280_CALIB_DATA2_LEN w3 = (BME280_OK, rx2, w4) ->
  let Dev' :=
    {| driver_ptr := Some Driver; mode := sleep_mode;
       initialized := initialized_flag;
       trimm := parse_compensation_parameters (calib_buffer rx1 rx2);
       t_fine := t_fine Dev |} in
  BME280_Init Dev Driver b
  = Some (BME280_OK, Dev',
          {| world := w4;
             trace := trace b ++
                      [EvWrite BME280_RESET_ADDR BME280_RESET_VALUE; EvDelay 4;
                       EvRead BME280_ID_ADDR 1;
                       EvRead BME280_CALIB_DATA1_ADDR BME280_CALIB_DATA1_LEN;
                       EvRead BME280_CALIB_DATA2_ADDR BME280_CALIB_DATA2_LEN] |})
  /\ bme280_is_sleep_mode Dev' = BME280_OK.
Proof. exact (Init_runs Dev Driver b rd wr dl w1 w2 w3 w4 id rx1 rx2). Qed.

Lemma init_success_witness :
  (read sensor_driver = Some sensor_read /\
   write sensor_driver = Some sensor_write /\
   delay sensor_driver = Some sensor_delay /\
   sensor_write BME280_RESET_ADDR BME280_RESET_VALUE (world (quiet_bus x1_chip))
   = (BME280_OK, <[BME280_RESET_ADDR := BME280_RESET_VALUE]> x1_chip) /\
   sensor_read BME280_ID_ADDR 1
     (sensor_delay 4 (<[BME280_RESET_ADDR := BME280_RESET_VALUE]> x1_chip))
   = (BME280_OK, [0], <[BME280_RESET_ADDR := BME280_RESET_VALUE]> x1_chip) /\
   sensor_read BME280_CALIB_DATA1_ADDR BME280_CALIB_DATA1_LEN
     (<[BME280_RESET_ADDR := BME280_RESET_VALUE]> x1_chip)
   = (BME280_OK, repeat 0 25, <[BME280_RESET_ADDR := BME280_RESET_VALUE]> x1_chip) /\
   sensor_read BME280_CALIB_DATA2_ADDR BME280_CALIB_DATA2_LEN
     (<[BME280_RESET_ADDR := BME280_RESET_VALUE]> x1_chip)
   = (BME280_OK, repeat 0 7,
      <[BME280_RESET_ADDR := BME280_RESET_VALUE]> x1_chip)) /\
  exists Dev' b',
    BME280_Init (fresh_dev null_driver) sensor_driver (quiet_bus x1_chip)
    = Some (BME280_OK, Dev', b') /\
    initialized Dev' = initialized_flag /\
    length (trace b') = 5%nat.
Proof.
  assert (H1 : read sensor_driver = Some sensor_read) by reflexivity.
  assert (H2 : write sensor_driver = Some sensor_write) by reflexivity.
  assert (H3 : delay sensor_driver = Some sensor_delay) by reflexivity.
  assert (H4 : sensor_write BME280_RESET_ADDR BME280_RESET_VALUE
                 (world (quiet_bus x1_chip))
               = (BME280_OK, <[BME280_RESET_ADDR := BME280_RESET_VALUE]> x1_chip))
    by reflexivity.
  assert (H5 : sensor_read BME280_ID_ADDR 1
                 (sensor_delay 4
                    (<[BME280_RESET_ADDR := BME280_RESET_VALUE]> x1_chip))
               = (BME280_OK, [0],
                  <[BME280_RESET_ADDR := BME280_RESET_VALUE]> x1_chip))
    by (vm_compute; reflexivity).
  assert (H6 : sensor_read BME280_CALIB_DATA1_ADDR BME280_CALIB_DATA1_LEN
                 (<[BME280_RESET_ADDR := BME280_RESET_VALUE]> x1_chip)
               = (BME280_OK, repeat 0 25,
                  <[BME280_RESET_ADDR := BME280_RESET_VALUE]> x1_chip))
    by (vm_compute; reflexivity).
  assert (H7 : sensor_read BME280_CALIB_DATA2_ADDR BME280_CALIB_DATA2_LEN
                 (<[BME280_RESET_ADDR := BME280_RESET_VALUE]> x1_chip)
               = (BME280_OK, repeat 0 7,
                  <[BME280_RESET_ADDR := BME280_RESET_VALUE]> x1_chip))
    by (vm_compute; reflexivity).
  split; [repeat split; assumption|].
  destruct (init_success (fresh_dev null_driver) sensor_driver
              (quiet_bus x1_chip) sensor_read sensor_write sensor_delay
              _ _ _ _ [0] _ _ H1 H2 H3 H4 H5 H6 H7) as [Hinit _].
  eexists. eexists. split; [exact Hinit|]. split; reflexivity.
Defined.

(** ** Preconditions of the readers *)

Lemma is_normal_mode_fail {W : Type} (Dev : BME280_t W) :
  initialized Dev = not_initialized \/ mode Dev <> normal_mode ->
  bme280_is_normal_mode Dev
  = (if initialized Dev =? not_initialized then BME280_NO_INIT_ERR
     else BME280_CONDITION_ERR)
  /\ negb (BME280_OK =? bme280_is_normal_mode Dev) = true.
Proof.
  intros H. unfold bme280_is_normal_mode.
  rewrite (Z.eqb_sym not_initialized).
  destruct (Z.eqb_spec (initialized Dev) not_initialized) as [E|E].
  - split; reflexivity.
  - destruct H as [H|H]; [contradiction|].
    destruct (Z.eqb_spec normal_mode (mode Dev)) as [E'|E']; [congruence|].
    split; reflexivity.
Qed.

(** X18.  On a device that is not initialised or whose local mode
    is not Normal, the four last-value readers ([BME280_ReadAllLast],
    [BME280_ReadTempLast], [BME280_ReadPressLast], [BME280_ReadHumLast])
    return NotInitializedError or ConditionError respectively, perform no
    bus operation and leave outputs and device unchanged. *)
Theorem last_readers_precondition {W : Type} (USE_64BIT : bool)
  (Dev : BME280_t W) (Data : BME280_Data_t) (out1 out2 : Z) (b : Bus W) :
  initialized Dev = not_initialized \/ mode Dev <> normal_mode ->
  let err := if initialized Dev =? not_initialized then BME280_NO_INIT_ERR
             else BME280_CONDITION_ERR in
  BME280_ReadAllLast USE_64BIT Dev Data b = Some (err, Data, Dev, b) /\
  BME280_ReadTempLast USE_64BIT Dev out1 out2 b = Some (err, (out1, out2), Dev, b) /\
  BME280_ReadPressLast USE_64BIT Dev out1 out2 b = Some (err, (out1, out2), Dev, b) /\
  BME280_ReadHumLast USE_64BIT Dev out1 out2 b = Some (err, (out1, out2), Dev, b).
Proof.
  intros H err. destruct (is_normal_mode_fail Dev H) as [He Hn].
  unfold BME280_ReadAllLast, BME280_ReadTempLast, BME280_ReadPressLast,
    BME280_ReadHumLast. cbv zeta. rewrite Hn, He. repeat split; reflexivity.
Qed.

Lemma last_readers_precondition_witness :
  (initialized (ready_dev sleep_mode) = not_initialized
   \/ mode (ready_dev sleep_mode) <> normal_mode) /\
  BME280_ReadAllLast true (ready_dev sleep_mode) blank_data (quiet_bus x1_chip)
  = Some (BME280_CONDITION_ERR, blank_data, ready_dev sleep_mode, quiet_bus x1_chip).
Proof.
  assert (H : initialized (ready_dev sleep_mode) = not_initialized
              \/ mode (ready_dev sleep_mode) <> normal_mode)
    by (right; discriminate).
  split; [exact H|].
  exact (proj1 (last_readers_precondition true (ready_dev sleep_mode) blank_data
                  0 0 (quiet_bus x1_chip) H)).
Defined.

(** X19.  On a device that is not initialised or whose local mode
    is not Sleep, the four forced-measurement readers
    ([BME280_ReadAllForce], [BME280_ReadTempForce], [BME280_ReadPressForce],
    [BME280_ReadHumForce]) return NotInitializedError or ConditionError
    respectively, perform no bus operation and leave outputs and device
    unchanged. *)
Theorem force_readers_precondition {W : Type} (USE_64BIT : bool)
  (Dev : BME280_t W) (Data : BME280_Data_t) (out1 out2 : Z) (b : Bus W) :
  initialized Dev = not_initialized \/ mode Dev <> sleep_mode ->
  let err := if initialized Dev =? not_initialized then BME280_NO_INIT_ERR
             else BME280_CONDITION_ERR in
  BME280_ReadAllForce USE_64BIT Dev Data b = Some (err, Data, Dev, b) /\
  BME280_ReadTempForce USE_64BIT Dev out1 out2 b = Some (err, (out1, out2), Dev, b) /\
  BME280_ReadPressForce USE_64BIT Dev out1 out2 b = Some (err, (out1, out2), Dev, b) /\
  BME280_ReadHumForce USE_64BIT Dev out1 out2 b = Some (err, (out1, out2), Dev, b).
Proof.
  intros H err. destruct (is_sleep_mode_fail Dev H) as [He Hn].
  apply sleep_check_fails in Hn.
  unfold BME280_ReadAllForce, BME280_ReadTempForce, BME280_ReadPressForce,
    BME280_ReadHumForce. cbv zeta. rewrite Hn, He. repeat split; reflexivity.
Qed.

Lemma force_readers_precondition_witness :
  (initialized (ready_dev normal_mode) = not_initialized
   \/ mode (ready_dev normal_mode) <> sleep_mode) /\
  BME280_ReadAllForce true (ready_dev normal_mode) blank_data (quiet_bus x1_chip)
  = Some (BME280_CONDITION_ERR, blank_data, ready_dev normal_mode, quiet_bus x1_chip).
Proof.
  assert (H : initialized (ready_dev normal_mode) = not_initialized
              \/ mode (ready_dev normal_mode) <> sleep_mode)
    by (right; discriminate).
  split; [exact H|].
  exact (proj1 (force_readers_precondition true (ready_dev normal_mode) blank_data
                  0 0 (quiet_bus x1_chip) H)).
Defined.

(** ** The readers on the register-file sensor *)

Lemma sensor_adc_words (rt : Z) (regs : gmap Z Z) :
  valid_read_type rt = true ->
  let rx := snd (fst (sensor_read (adc_read_addr rt) (adc_read_len rt) regs)) in
  bme280_parse_press_temp_s32t (adc_temp_bytes rt rx) = sensor_adc_T regs /\
  (wants_press rt = true -> bme280_parse_press_temp_s32t rx = sensor_adc_P regs) /\
  (wants_hum rt = true ->
   bme280_parse_hum_s32t (adc_hum_bytes rt rx) = sensor_adc_H regs).
Proof.
  intros Hv.
  destruct (valid_read_type_cases rt Hv) as [-> | [-> | [-> | ->]]];
    (split; [|split]); try (intros; discriminate); intros;
    first [ apply parse_press_temp_ext | apply parse_hum_ext ]; reflexivity.
Qed.

Lemma read_compensate_sensor (USE_64BIT : bool) (rt : Z)
  (Dev : BME280_t (gmap Z Z)) (temp press hum : Z) (regs : gmap Z Z)
  (tr : list bus_event) (p : Z) :
  valid_read_type rt = true ->
  driver Dev = sensor_driver ->
  let T := fst (bme280_compensate_t_s32t Dev (sensor_adc_T regs)) in
  let Dev1 := snd (bme280_compensate_t_s32t Dev (sensor_adc_T regs)) in
  bme280_compensate_p_u32t USE_64BIT Dev1 (sensor_adc_P regs) = Some p ->
  bme280_read_compensate USE_64BIT rt Dev temp press hum
    {| world := regs; trace := tr |}
  = Some (BME280_OK,
          (T, (if wants_press rt then p else press),
           (if wants_hum rt
            then bme280_compensate_h_u32t Dev1 (sensor_adc_H regs) else hum)),
          Dev1,
          {| world := regs;
             trace := tr ++ [EvRead (adc_read_addr rt) (adc_read_len rt)] |}).
Proof.
  intros Hv Hdrv T Dev1 Hp.
  assert (Hrd : read (driver Dev) = Some sensor_read) by (rewrite Hdrv; reflexivity).
  destruct (sensor_adc_words rt regs Hv) as (HT & HP & HH). cbv zeta in HT, HP, HH.
  destruct (read_compensate_ok USE_64BIT rt Dev temp press hum
              {| world := regs; trace := tr |} sensor_read
              (snd (fst (sensor_read (adc_read_addr rt) (adc_read_len rt) regs)))
              regs Hv Hrd eq_refl) as (p' & Hp' & Hrun & _).
  rewrite HT in Hp', Hrun. fold T Dev1 in Hp', Hrun. rewrite Hrun.
  destruct (wants_press rt) eqn:Hwp.
  - rewrite (HP eq_refl) in Hp'. assert (p' = p) by congruence. subst p'.
    destruct (wants_hum rt) eqn:Hwh; [rewrite (HH eq_refl)|]; reflexivity.
  - destruct (wants_hum rt) eqn:Hwh; [rewrite (HH eq_refl)|]; reflexivity.
Qed.

Lemma sensor_measurement_defined (USE_64BIT : bool) (Dev : BME280_t (gmap Z Z))
  (regs : gmap Z Z) :
  let T := fst (bme280_compensate_t_s32t Dev (sensor_adc_T regs)) in
  let Dev1 := snd (bme280_compensate_t_s32t Dev (sensor_adc_T regs)) in
  exists p,
    bme280_compensate_p_u32t USE_64BIT Dev1 (sensor_adc_P regs) = Some p /\
    sensor_measurement USE_64BIT Dev regs
    = Some (bme280_convert_h_U32_struct
              (bme280_compensate_h_u32t Dev1 (sensor_adc_H regs))
              (bme280_convert_p_U32_struct USE_64BIT p
                 (bme280_convert_t_S32_struct T blank_data)),
            Dev1).
Proof.
  intros T Dev1.
  destruct (compensate_p_defined USE_64BIT Dev1 (sensor_adc_P regs)) as [p Hp].
  exists p. split; [exact Hp|].
  unfold sensor_measurement. subst T Dev1.
  destruct (bme280_compensate_t_s32t Dev (sensor_adc_T regs)) as [t D1].
  cbn [fst snd] in *. rewrite Hp. reflexivity.
Qed.

Lemma is_normal_mode_ok {W : Type} (Dev : BME280_t W) :
  initialized Dev <> not_initialized -> mode Dev = normal_mode ->
  bme280_is_normal_mode Dev = BME280_OK.
Proof.
  intros Hi Hm. unfold bme280_is_normal_mode.
  destruct (Z.eqb_spec not_initialized (initialized Dev)) as [E|_]; [congruence|].
  rewrite Hm. reflexivity.
Qed.

Lemma s8_idem (x : Z) : s8 (s8 x) = s8 x.
Proof. unfold s8. rewrite Z.sub_add, Z.mod_mod by lia. reflexivity. Qed.

Lemma u8_idem (x : Z) : u8 (u8 x) = u8 x.
Proof. unfold u8. apply Z.mod_mod. lia. Qed.

Lemma u16_idem (x : Z) : u16 (u16 x) = u16 x.
Proof. unfold u16. apply Z.mod_mod. lia. Qed.

(** Storing a converted value in [BME280_Data_t] and copying the fields out
    through the typed output pointers loses nothing. *)
Lemma convert_t_out (temp : Z) (data : BME280_Data_t) :
  s8 (temp_int (bme280_convert_t_S32_struct temp data))
  = temp_int (bme280_convert_t_S32_struct temp data) /\
  u8 (temp_fract (bme280_convert_t_S32_struct temp data))
  = temp_fract (bme280_convert_t_S32_struct temp data).
Proof. cbn [bme280_convert_t_S32_struct temp_int temp_fract]. split; [apply s8_idem|apply u8_idem]. Qed.

Lemma convert_p_out (USE_64BIT : bool) (press : Z) (data : BME280_Data_t) :
  u16 (pressure_int (bme280_convert_p_U32_struct USE_64BIT press data))
  = pressure_int (bme280_convert_p_U32_struct USE_64BIT press data) /\
  u16 (pressure_fract (bme280_convert_p_U32_struct USE_64BIT press data))
  = pressure_fract (bme280_convert_p_U32_struct USE_64BIT press data).
Proof.
  cbn [bme280_convert_p_U32_struct pressure_int pressure_fract].
  destruct USE_64BIT; split; apply u16_idem.
Qed.

Lemma convert_h_out (hum : Z) (data : BME280_Data_t) :
  u8 (humidity_int (bme280_convert_h_U32_struct hum data))
  = humidity_int (bme280_convert_h_U32_struct hum data) /\
  u16 (humidity_fract (bme280_convert_h_U32_struct hum data))
  = humidity_fract (bme280_convert_h_U32_struct hum data).
Proof.
  cbn [bme280_convert_h_U32_struct humidity_int humidity_fract].
  split; [apply u8_idem|apply u16_idem].
Qed.

(** What the four readers do with a successful [bme280_read_compensate]. *)
Lemma readers_store (USE_64BIT : bool) (T P H : Z)
  (Data : BME280_Data_t) :
  let D := bme280_convert_h_U32_struct H
             (bme280_convert_p_U32_struct USE_64BIT P
                (bme280_convert_t_S32_struct T blank_data)) in
  bme280_convert_h_U32_struct H
    (bme280_convert_p_U32_struct USE_64BIT P
       (bme280_convert_t_S32_struct T Data)) = D /\
  (s8 (temp_int (bme280_convert_t_S32_struct T blank_data)),
   u8 (temp_fract (bme280_convert_t_S32_struct T blank_data)))
  = (temp_int D, temp_fract D) /\
  (u16 (pressure_int (bme280_convert_p_U32_struct USE_64BIT P blank_data)),
   u16 (pressure_fract (bme280_convert_p_U32_struct USE_64BIT P blank_data)))
  = (pressure_int D, pressure_fract D) /\
  (u8 (humidity_int (bme280_convert_h_U32_struct H blank_data)),
   u16 (humidity_fract (bme280_convert_h_U32_struct H blank_data)))
  = (humidity_int D, humidity_fract D).
Proof.
  intros D.
  destruct (convert_t_out T blank_data) as [-> ->].
  destruct (convert_p_out USE_64BIT P blank_data) as [-> ->].
  destruct (convert_h_out H blank_data) as [-> ->].
  repeat split; reflexivity.
Qed.

Lemma ReadAllLast_run {W : Type} (USE_64BIT : bool) (Dev Dev1 : BME280_t W)
  (b b1 : Bus W) (T P H : Z)
  (Data : BME280_Data_t) :
  bme280_is_normal_mode Dev = BME280_OK ->
  bme280_read_compensate USE_64BIT read_all Dev 0 0 0 b
  = Some (BME280_OK, (T, P, H), Dev1, b1) ->
  BME280_ReadAllLast USE_64BIT Dev Data b
  = Some (BME280_OK,
          bme280_convert_h_U32_struct H
            (bme280_convert_p_U32_struct USE_64BIT P
               (bme280_convert_t_S32_struct T blank_data)),
          Dev1, b1).
Proof.
  intros Hnormal Hrun. unfold BME280_ReadAllLast. cbv zeta. rewrite Hnormal, Hrun.
  reflexivity.
Qed.

Lemma ReadTempLast_run {W : Type} (USE_64BIT : bool) (Dev Dev1 : BME280_t W)
  (b b1 : Bus W) (T P H : Z)
  (out1 out2 p h : Z) :
  bme280_is_normal_mode Dev = BME280_OK ->
  bme280_read_compensate USE_64BIT read_temp Dev 0 0 0 b
  = Some (BME280_OK, (T, p, h), Dev1, b1) ->
  let D := bme280_convert_h_U32_struct H
             (bme280_convert_p_U32_struct USE_64BIT P
                (bme280_convert_t_S32_struct T blank_data)) in
  BME280_ReadTempLast USE_64BIT Dev out1 out2 b
  = Some (BME280_OK, (temp_int D, temp_fract D), Dev1, b1).
Proof.
  intros Hnormal Hrun D. unfold BME280_ReadTempLast. cbv zeta. rewrite Hnormal, Hrun. cbn [mbind option_bind].
  change (negb (BME280_OK =? BME280_OK)) with false. cbv iota.
  destruct (convert_t_out T blank_data) as [-> ->]. reflexivity.
Qed.

Lemma ReadPressLast_run {W : Type} (USE_64BIT : bool) (Dev Dev1 : BME280_t W)
  (b b1 : Bus W) (T P H : Z)
  (out1 out2 h : Z) :
  bme280_is_normal_mode Dev = BME280_OK ->
  bme280_read_compensate USE_64BIT read_press Dev 0 0 0 b
  = Some (BME280_OK, (T, P, h), Dev1, b1) ->
  let D := bme280_convert_h_U32_struct H
             (bme280_convert_p_U32_struct USE_64BIT P
                (bme280_convert_t_S32_struct T blank_data)) in
  BME280_ReadPressLast USE_64BIT Dev out1 out2 b
  = Some (BME280_OK, (pressure_int D, pressure_fract D), Dev1, b1).
Proof.
  intros Hnormal Hrun D. unfold BME280_ReadPressLast. cbv zeta. rewrite Hnormal, Hrun. cbn [mbind option_bind].
  change (negb (BME280_OK =? BME280_OK)) with false. cbv iota.
  destruct (convert_p_out USE_64BIT P blank_data) as [-> ->]. reflexivity.
Qed.

Lemma ReadHumLast_run {W : Type} (USE_64BIT : bool) (Dev Dev1 : BME280_t W)
  (b b1 : Bus W) (T P H : Z)
  (out1 out2 p : Z) :
  bme280_is_normal_mode Dev = BME280_OK ->
  bme280_read_compensate USE_64BIT read_hum Dev 0 0 0 b
  = Some (BME280_OK, (T, p, H), Dev1, b1) ->
  let D := bme280_convert_h_U32_struct H
             (bme280_convert_p_U32_struct USE_64BIT P
                (bme280_convert_t_S32_struct T blank_data)) in
  BME280_ReadHumLast USE_64BIT Dev out1 out2 b
  = Some (BME280_OK, (humidity_int D, humidity_fract D), Dev1, b1).
Proof.
  intros Hnormal Hrun D. unfold BME280_ReadHumLast. cbv zeta. rewrite Hnormal, Hrun. cbn [mbind option_bind].
  change (negb (BME280_OK =? BME280_OK)) with false. cbv iota.
  destruct (convert_h_out H blank_data) as [-> ->]. reflexivity.
Qed.

Lemma last_readers_run {W : Type} (USE_64BIT : bool) (Dev Dev1 : BME280_t W)
  (b : Bus W) (after : Z -> Bus W) (T P H : Z) (Data : BME280_Data_t)
  (out1 out2 : Z) :
  bme280_is_normal_mode Dev = BME280_OK ->
  (forall rt, valid_read_type rt = true ->
     bme280_read_compensate USE_64BIT rt Dev 0 0 0 b
     = Some (BME280_OK,
             (T, (if wants_press rt then P else 0), (if wants_hum rt then H else 0)),
             Dev1, after rt)) ->
  let D := bme280_convert_h_U32_struct H
             (bme280_convert_p_U32_struct USE_64BIT P
                (bme280_convert_t_S32_struct T blank_data)) in
  BME280_ReadAllLast USE_64BIT Dev Data b
  = Some (BME280_OK, D, Dev1, after read_all) /\
  BME280_ReadTempLast USE_64BIT Dev out1 out2 b
  = Some (BME280_OK, (temp_int D, temp_fract D), Dev1, after read_temp) /\
  BME280_ReadPressLast USE_64BIT Dev out1 out2 b
  = Some (BME280_OK, (pressure_int D, pressure_fract D), Dev1, after read_press) /\
  BME280_ReadHumLast USE_64BIT Dev out1 out2 b
  = Some (BME280_OK, (humidity_int D, humidity_fract D), Dev1, after read_hum).
Proof.
  intros Hn Hrun D.
  split; [exact (ReadAllLast_run USE_64BIT Dev _ b _ _ _ _ Data Hn
                   (Hrun read_all eq_refl))|].
  split; [exact (ReadTempLast_run USE_64BIT Dev _ b _ _ P H out1 out2 _ _ Hn
                   (Hrun read_temp eq_refl))|].
  split; [exact (ReadPressLast_run USE_64BIT Dev _ b _ _ _ H out1 out2 _ Hn
                   (Hrun read_press eq_refl))|].
  exact (ReadHumLast_run USE_64BIT Dev _ b _ _ P _ out1 out2 _ Hn
           (Hrun read_hum eq_refl)).
Qed.

(** X20.  On the register-file sensor, for an initialised device in
    Normal mode, the four last-value readers succeed with one burst read
    each (8 bytes at 0xF7, 3 at 0xFA, 6 at 0xF7, 5 at 0xFA).  The
    single-quantity readers report exactly the fields that
    [BME280_ReadAllLast] stores, all four leave the same device, and that
    device differs from the one passed in only in its fine temperature. *)
Theorem last_readers_agree (USE_64BIT : bool) (Dev : BME280_t (gmap Z Z))
  (regs : gmap Z Z) (tr : list bus_event) (Data : BME280_Data_t)
  (out1 out2 : Z) :
  driver Dev = sensor_driver ->
  initialized Dev <> not_initialized -> mode Dev = normal_mode ->
  let after rt :=
    {| world := regs;
       trace := tr ++ [EvRead (adc_read_addr rt) (adc_read_len rt)] |} in
  let b := {| world := regs; trace := tr |} in
  exists D Dev1,
    sensor_measurement USE_64BIT Dev regs = Some (D, Dev1) /\
    Dev1 = set_t_fine Dev (t_fine Dev1) /\
    BME280_ReadAllLast USE_64BIT Dev Data b
    = Some (BME280_OK, D, Dev1, after read_all) /\
    BME280_ReadTempLast USE_64BIT Dev out1 out2 b
    = Some (BME280_OK, (temp_int D, temp_fract D), Dev1, after read_temp) /\
    BME280_ReadPressLast USE_64BIT Dev out1 out2 b
    = Some (BME280_OK, (pressure_int D, pressure_fract D), Dev1, after read_press) /\
    BME280_ReadHumLast USE_64BIT Dev out1 out2 b
    = Some (BME280_OK, (humidity_int D, humidity_fract D), Dev1, after read_hum).
Proof.
  intros Hdrv Hinit Hmode after b.
  pose proof (is_normal_mode_ok Dev Hinit Hmode) as Hn.
  destruct (sensor_measurement_defined USE_64BIT Dev regs) as (p & Hp & Hm).
  pose proof (fun rt Hv => read_compensate_sensor USE_64BIT rt Dev 0 0 0 regs tr
                             p Hv Hdrv Hp) as Hrun.
  eexists. eexists. split; [exact Hm|].
  split; [apply compensate_t_frame|].
  exact (last_readers_run USE_64BIT Dev _ b after _ _ _ Data out1 out2 Hn Hrun).
Qed.

Lemma last_readers_agree_witness :
  (driver (ready_dev normal_mode) = sensor_driver /\
   initialized (ready_dev normal_mode) <> not_initialized /\
   mode (ready_dev normal_mode) = normal_mode) /\
  exists D Dev1,
    BME280_ReadAllLast true (ready_dev normal_mode) blank_data (quiet_bus x1_chip)
    = Some (BME280_OK, D, Dev1,
            {| world := x1_chip; trace := [EvRead BME280_PRESS_ADC_ADDR 8] |}) /\
    BME280_ReadHumLast true (ready_dev normal_mode) 0 0 (quiet_bus x1_chip)
    = Some (BME280_OK, (humidity_int D, humidity_fract D), Dev1,
            {| world := x1_chip; trace := [EvRead BME280_TEMP_ADC_ADDR 5] |}).
Proof.
  assert (H1 : driver (ready_dev normal_mode) = sensor_driver) by reflexivity.
  assert (H2 : initialized (ready_dev normal_mode) <> not_initialized)
    by discriminate.
  assert (H3 : mode (ready_dev normal_mode) = normal_mode) by reflexivity.
  split; [exact (conj H1 (conj H2 H3))|].
  destruct (last_readers_agree true (ready_dev normal_mode) x1_chip [] blank_data
              0 0 H1 H2 H3) as (D & Dev1 & _ & _ & Hall & _ & _ & Hhum).
  exists D, Dev1. split; [exact Hall|exact Hhum].
Defined.

(** ** Forced measurements *)

Lemma ReadAllForce_run {W : Type} (USE_64BIT : bool) (Dev Dev1 : BME280_t W)
  (b b1 b2 b3 b4 : Bus W) (d T P H : Z)
  (Data : BME280_Data_t) :
  bme280_is_sleep_mode Dev = BME280_OK ->
  bme280_set_forced_mode Dev 0 b = Some (BME280_OK, d, b1) ->
  drv_delay Dev d b1 = Some b2 ->
  bme280_busy_check Dev b2 = Some (BME280_OK, b3) ->
  bme280_read_compensate USE_64BIT read_all Dev 0 0 0 b3
  = Some (BME280_OK, (T, P, H), Dev1, b4) ->
  BME280_ReadAllForce USE_64BIT Dev Data b
  = Some (BME280_OK,
          bme280_convert_h_U32_struct H
            (bme280_convert_p_U32_struct USE_64BIT P
               (bme280_convert_t_S32_struct T blank_data)),
          Dev1, b4).
Proof.
  intros Hsleep Hforce Hdelay Hbusy Hrun. unfold BME280_ReadAllForce. cbv zeta.
  rewrite Hsleep, Hforce. cbn [mbind option_bind].
  change (negb (BME280_OK =? BME280_OK)) with false. cbv iota.
  rewrite Hdelay. cbn [mbind option_bind]. rewrite Hbusy. cbn [mbind option_bind].
  change (negb (BME280_OK =? BME280_OK)) with false. cbv iota.
  rewrite Hrun.
  reflexivity.
Qed.

Lemma ReadTempForce_run {W : Type} (USE_64BIT : bool) (Dev Dev1 : BME280_t W)
  (b b1 b2 b3 b4 : Bus W) (d T P H : Z)
  (out1 out2 p h : Z) :
  bme280_is_sleep_mode Dev = BME280_OK ->
  bme280_set_forced_mode Dev 0 b = Some (BME280_OK, d, b1) ->
  drv_delay Dev d b1 = Some b2 ->
  bme280_busy_check Dev b2 = Some (BME280_OK, b3) ->
  bme280_read_compensate USE_64BIT read_temp Dev 0 0 0 b3
  = Some (BME280_OK, (T, p, h), Dev1, b4) ->
  let D := bme280_convert_h_U32_struct H
             (bme280_convert_p_U32_struct USE_64BIT P
                (bme280_convert_t_S32_struct T blank_data)) in
  BME280_ReadTempForce USE_64BIT Dev out1 out2 b
  = Some (BME280_OK, (temp_int D, temp_fract D), Dev1, b4).
Proof.
  intros Hsleep Hforce Hdelay Hbusy Hrun D. unfold BME280_ReadTempForce. cbv zeta.
  rewrite Hsleep, Hforce. cbn [mbind option_bind].
  change (negb (BME280_OK =? BME280_OK)) with false. cbv iota.
  rewrite Hdelay. cbn [mbind option_bind]. rewrite Hbusy. cbn [mbind option_bind].
  change (negb (BME280_OK =? BME280_OK)) with false. cbv iota.
  rewrite Hrun. cbn [mbind option_bind].
  change (negb (BME280_OK =? BME280_OK)) with false. cbv iota.
  destruct (convert_t_out T blank_data) as [-> ->]. reflexivity.
Qed.

Lemma ReadPressForce_run {W : Type} (USE_64BIT : bool) (Dev Dev1 : BME280_t W)
  (b b1 b2 b3 b4 : Bus W) (d T P H : Z)
  (out1 out2 h : Z) :
  bme280_is_sleep_mode Dev = BME280_OK ->
  bme280_set_forced_mode Dev 0 b = Some (BME280_OK, d, b1) ->
  drv_delay Dev d b1 = Some b2 ->
  bme280_busy_check Dev b2 = Some (BME280_OK, b3) ->
  bme280_read_compensate USE_64BIT read_press Dev 0 0 0 b3
  = Some (BME280_OK, (T, P, h), Dev1, b4) ->
  let D := bme280_convert_h_U32_struct H
             (bme280_convert_p_U32_struct USE_64BIT P
                (bme280_convert_t_S32_struct T blank_data)) in
  BME280_ReadPressForce USE_64BIT Dev out1 out2 b
  = Some (BME280_OK, (pressure_int D, pressure_fract D), Dev1, b4).
Proof.
  intros Hsleep Hforce Hdelay Hbusy Hrun D. unfold BME280_ReadPressForce. cbv zeta.
  rewrite Hsleep, Hforce. cbn [mbind option_bind].
  change (negb (BME280_OK =? BME280_OK)) with false. cbv iota.
  rewrite Hdelay. cbn [mbind option_bind]. rewrite Hbusy. cbn [mbind option_bind].
  change (negb (BME280_OK =? BME280_OK)) with false. cbv iota.
  rewrite Hrun. cbn [mbind option_bind].
  change (negb (BME280_OK =? BME280_OK)) with false. cbv iota.
  destruct (convert_p_out USE_64BIT P blank_data) as [-> ->]. reflexivity.
Qed.

Lemma ReadHumForce_run {W : Type} (USE_64BIT : bool) (Dev Dev1 : BME280_t W)
  (b b1 b2 b3 b4 : Bus W) (d T P H : Z)
  (out1 out2 p : Z) :
  bme280_is_sleep_mode Dev = BME280_OK ->
  bme280_set_forced_mode Dev 0 b = Some (BME280_OK, d, b1) ->
  drv_delay Dev d b1 = Some b2 ->
  bme280_busy_check Dev b2 = Some (BME280_OK, b3) ->
  bme280_read_compensate USE_64BIT read_hum Dev 0 0 0 b3
  = Some (BME280_OK, (T, p, H), Dev1, b4) ->
  let D := bme280_convert_h_U32_struct H
             (bme280_convert_p_U32_struct USE_64BIT P
                (bme280_convert_t_S32_struct T blank_data)) in
  BME280_ReadHumForce USE_64BIT Dev out1 out2 b
  = Some (BME280_OK, (humidity_int D, humidity_fract D), Dev1, b4).
Proof.
  intros Hsleep Hforce Hdelay Hbusy Hrun D. unfold BME280_ReadHumForce. cbv zeta.
  rewrite Hsleep, Hforce. cbn [mbind option_bind].
  change (negb (BME280_OK =? BME280_OK)) with false. cbv iota.
  rewrite Hdelay. cbn [mbind option_bind]. rewrite Hbusy. cbn [mbind option_bind].
  change (negb (BME280_OK =? BME280_OK)) with false. cbv iota.
  rewrite Hrun. cbn [mbind option_bind].
  change (negb (BME280_OK =? BME280_OK)) with false. cbv iota.
  destruct (convert_h_out H blank_data) as [-> ->]. reflexivity.
Qed.

Lemma force_readers_run {W : Type} (USE_64BIT : bool) (Dev Dev1 : BME280_t W)
  (b b1 b2 b3 : Bus W) (after : Z -> Bus W) (d T P H : Z)
  (Data : BME280_Data_t) (out1 out2 : Z) :
  bme280_is_sleep_mode Dev = BME280_OK ->
  bme280_set_forced_mode Dev 0 b = Some (BME280_OK, d, b1) ->
  drv_delay Dev d b1 = Some b2 ->
  bme280_busy_check Dev b2 = Some (BME280_OK, b3) ->
  (forall rt, valid_read_type rt = true ->
     bme280_read_compensate USE_64BIT rt Dev 0 0 0 b3
     = Some (BME280_OK,
             (T, (if wants_press rt then P else 0), (if wants_hum rt then H else 0)),
             Dev1, after rt)) ->
  let D := bme280_convert_h_U32_struct H
             (bme280_convert_p_U32_struct USE_64BIT P
                (bme280_convert_t_S32_struct T blank_data)) in
  BME280_ReadAllForce USE_64BIT Dev Data b
  = Some (BME280_OK, D, Dev1, after read_all) /\
  BME280_ReadTempForce USE_64BIT Dev out1 out2 b
  = Some (BME280_OK, (temp_int D, temp_fract D), Dev1, after read_temp) /\
  BME280_ReadPressForce USE_64BIT Dev out1 out2 b
  = Some (BME280_OK, (pressure_int D, pressure_fract D), Dev1, after read_press) /\
  BME280_ReadHumForce USE_64BIT Dev out1 out2 b
  = Some (BME280_OK, (humidity_int D, humidity_fract D), Dev1, after read_hum).
Proof.
  intros Hs Hf Hd Hb Hrun D.
  split; [exact (ReadAllForce_run USE_64BIT Dev _ b b1 b2 b3 _ d _ _ _ Data Hs Hf Hd Hb
                   (Hrun read_all eq_refl))|].
  split; [exact (ReadTempForce_run USE_64BIT Dev _ b b1 b2 b3 _ d _ P H out1 out2 _ _
                   Hs Hf Hd Hb (Hrun read_temp eq_refl))|].
  split; [exact (ReadPressForce_run USE_64BIT Dev _ b b1 b2 b3 _ d _ _ H out1 out2 _
                   Hs Hf Hd Hb (Hrun read_press eq_refl))|].
  exact (ReadHumForce_run USE_64BIT Dev _ b b1 b2 b3 _ d _ P _ out1 out2 _
           Hs Hf Hd Hb (Hrun read_hum eq_refl)).
Qed.

(** Writing the measurement-control register leaves the ADC registers
    alone. *)
Lemma sensor_measurement_ctrl_meas (USE_64BIT : bool) (Dev : BME280_t (gmap Z Z))
  (regs : gmap Z Z) (v : Z) :
  sensor_adc_T (<[BME280_CTRL_MEAS_ADDR := v]> regs) = sensor_adc_T regs /\
  sensor_adc_P (<[BME280_CTRL_MEAS_ADDR := v]> regs) = sensor_adc_P regs /\
  sensor_adc_H (<[BME280_CTRL_MEAS_ADDR := v]> regs) = sensor_adc_H regs /\
  sensor_measurement USE_64BIT Dev (<[BME280_CTRL_MEAS_ADDR := v]> regs)
  = sensor_measurement USE_64BIT Dev regs.
Proof.
  assert (HT : sensor_adc_T (<[BME280_CTRL_MEAS_ADDR := v]> regs) = sensor_adc_T regs).
  { unfold sensor_adc_T. rewrite !reg_value_insert_ne by discriminate. reflexivity. }
  assert (HP : sensor_adc_P (<[BME280_CTRL_MEAS_ADDR := v]> regs) = sensor_adc_P regs).
  { unfold sensor_adc_P. rewrite !reg_value_insert_ne by discriminate. reflexivity. }
  assert (HH : sensor_adc_H (<[BME280_CTRL_MEAS_ADDR := v]> regs) = sensor_adc_H regs).
  { unfold sensor_adc_H. rewrite !reg_value_insert_ne by discriminate. reflexivity. }
  repeat split; try assumption.
  unfold sensor_measurement. rewrite HT, HP, HH. reflexivity.
Qed.

Lemma sensor_read_three (regs : gmap Z Z) (a : Z) :
  sensor_read a 3 regs
  = (BME280_OK, [reg_value regs a; reg_value regs (a + 1); reg_value regs (a + 2)],
     regs).
Proof.
  unfold sensor_read. change (Z.to_nat 3) with 3%nat.
  cbn [seq List.map map Z.of_nat Pos.of_succ_nat Pos.succ]. rewrite Z.add_0_r.
  reflexivity.
Qed.

(** The forced-measurement prefix on an idle, sleeping register-file
    sensor. *)
Lemma forced_prefix_sensor (Dev : BME280_t (gmap Z Z)) (regs : gmap Z Z)
  (tr : list bus_event) :
  driver Dev = sensor_driver ->
  let status := u8 (reg_value regs BME280_STATUS_ADDR) in
  let meas := u8 (reg_value regs BME280_CTRL_MEAS_ADDR) in
  Z.testbit status 0 || Z.testbit status 3 = false ->
  Z.land meas 0x03 = 0 ->
  let regs' := <[BME280_CTRL_MEAS_ADDR := meas + 1]> regs in
  exists d, 3 <= d <= 113 /\
    bme280_set_forced_mode Dev 0 {| world := regs; trace := tr |}
    = Some (BME280_OK, d,
            {| world := regs';
               trace := tr ++ [EvRead BME280_CTRL_HUM_ADDR 3;
                               EvWrite BME280_CTRL_MEAS_ADDR (meas + 1)] |}) /\
    drv_delay Dev d
      {| world := regs';
         trace := tr ++ [EvRead BME280_CTRL_HUM_ADDR 3;
                         EvWrite BME280_CTRL_MEAS_ADDR (meas + 1)] |}
    = Some {| world := regs';
              trace := tr ++ [EvRead BME280_CTRL_HUM_ADDR 3;
                              EvWrite BME280_CTRL_MEAS_ADDR (meas + 1);
                              EvDelay d] |} /\
    bme280_busy_check Dev
      {| world := regs';
         trace := tr ++ [EvRead BME280_CTRL_HUM_ADDR 3;
                         EvWrite BME280_CTRL_MEAS_ADDR (meas + 1);
                         EvDelay d] |}
    = Some (BME280_OK,
            {| world := regs';
               trace := tr ++ [EvRead BME280_CTRL_HUM_ADDR 3;
                               EvWrite BME280_CTRL_MEAS_ADDR (meas + 1);
                               EvDelay d; EvRead BME280_STATUS_ADDR 1] |}).
Proof.
  intros Hdrv status meas Hidle Hmode regs'.
  assert (Hrd : read (driver Dev) = Some sensor_read) by (rewrite Hdrv; reflexivity).
  assert (Hwr : write (driver Dev) = Some sensor_write) by (rewrite Hdrv; reflexivity).
  destruct (set_forced_mode_cases Dev 0 {| world := regs; trace := tr |}
              sensor_read _ regs Hrd (sensor_read_three regs BME280_CTRL_HUM_ADDR))
    as (_ & _ & Hgo).
  cbv zeta in Hgo.
  change (byte_at _ 1) with status in Hgo.
  change (byte_at _ 2) with meas in Hgo.
  destruct (Hgo Hidle Hmode sensor_write BME280_OK regs' Hwr eq_refl)
    as (d & Hforce & Hd).
  exists d. split; [exact Hd|]. split.
  - rewrite Hforce. unfold log. cbn [trace world].
    rewrite <- List.app_assoc. reflexivity.
  - split.
    + unfold drv_delay. rewrite Hdrv. cbn [delay sensor_driver mbind option_bind].
      unfold log, sensor_delay. cbn [trace world].
      rewrite <- List.app_assoc. reflexivity.
    + rewrite (busy_check_cases Dev
                 {| world := regs';
                    trace := tr ++ [EvRead BME280_CTRL_HUM_ADDR 3;
                                    EvWrite BME280_CTRL_MEAS_ADDR (meas + 1);
                                    EvDelay d] |}
                 sensor_read _ _ _ Hrd
                 (sensor_read_one regs' BME280_STATUS_ADDR)).
      change (BME280_OK =? BME280_OK) with true. cbv iota.
      unfold regs' at 1 2. rewrite reg_value_insert_ne by discriminate.
      change (byte_at [reg_value regs BME280_STATUS_ADDR] 0) with status.
      rewrite Hidle. unfold log. cbn [trace world].
      rewrite <- List.app_assoc. reflexivity.
Qed.

(** X21.  On the register-file sensor, idle and with mode bits
    Sleep, for an initialised device in Sleep mode each forced-measurement
    reader succeeds with this bus traffic, in this order: read three bytes
    at the humidity-control register, write the measurement-control byte
    plus one, delay between 3 and 113 ms, read the status byte, read the
    ADC burst of its read type.  The values reported are the measurement
    held in the ADC registers, the single-quantity readers agree with
    [BME280_ReadAllForce], and the device changes only in its fine
    temperature: its local mode stays Sleep. *)
Theorem force_readers_sequence (USE_64BIT : bool) (Dev : BME280_t (gmap Z Z))
  (regs : gmap Z Z) (tr : list bus_event) (Data : BME280_Data_t)
  (out1 out2 : Z) :
  driver Dev = sensor_driver ->
  initialized Dev <> not_initialized -> mode Dev = sleep_mode ->
  let status := u8 (reg_value regs BME280_STATUS_ADDR) in
  let meas := u8 (reg_value regs BME280_CTRL_MEAS_ADDR) in
  Z.testbit status 0 || Z.testbit status 3 = false ->
  Z.land meas 0x03 = 0 ->
  let b := {| world := regs; trace := tr |} in
  exists d D Dev1,
    3 <= d <= 113 /\
    sensor_measurement USE_64BIT Dev regs = Some (D, Dev1) /\
    Dev1 = set_t_fine Dev (t_fine Dev1) /\
    let after rt :=
      {| world := <[BME280_CTRL_MEAS_ADDR := meas + 1]> regs;
         trace := tr ++ [EvRead BME280_CTRL_HUM_ADDR 3;
                         EvWrite BME280_CTRL_MEAS_ADDR (meas + 1);
                         EvDelay d; EvRead BME280_STATUS_ADDR 1;
                         EvRead (adc_read_addr rt) (adc_read_len rt)] |} in
    BME280_ReadAllForce USE_64BIT Dev Data b
    = Some (BME280_OK, D, Dev1, after read_all) /\
    BME280_ReadTempForce USE_64BIT Dev out1 out2 b
    = Some (BME280_OK, (temp_int D, temp_fract D), Dev1, after read_temp) /\
    BME280_ReadPressForce USE_64BIT Dev out1 out2 b
    = Some (BME280_OK, (pressure_int D, pressure_fract D), Dev1, after read_press) /\
    BME280_ReadHumForce USE_64BIT Dev out1 out2 b
    = Some (BME280_OK, (humidity_int D, humidity_fract D), Dev1, after read_hum).
Proof.
  intros Hdrv Hinit Hmode status meas Hidle Hsleep b.
  pose proof (is_sleep_mode_ok Dev Hinit Hmode) as Hs.
  destruct (forced_prefix_sensor Dev regs tr Hdrv Hidle Hsleep)
    as (d & Hd & Hforce & Hdelay & Hbusy).
  fold meas in Hforce, Hdelay, Hbusy.
  destruct (sensor_measurement_ctrl_meas USE_64BIT Dev regs (meas + 1))
    as (HT & HP & HH & HM).
  destruct (sensor_measurement_defined USE_64BIT Dev
              (<[BME280_CTRL_MEAS_ADDR := meas + 1]> regs)) as (p & Hp & Hm).
  pose proof (fun rt Hv =>
                read_compensate_sensor USE_64BIT rt Dev 0 0 0
                  (<[BME280_CTRL_MEAS_ADDR := meas + 1]> regs)
                  (tr ++ [EvRead BME280_CTRL_HUM_ADDR 3;
                          EvWrite BME280_CTRL_MEAS_ADDR (meas + 1);
                          EvDelay d; EvRead BME280_STATUS_ADDR 1])
                  p Hv Hdrv Hp) as Hrun.
  cbv zeta in Hrun. clear Hp.
  rewrite HM in Hm. rewrite HT, HH in Hm, Hrun.
  exists d. eexists. eexists. split; [exact Hd|]. split; [exact Hm|].
  split; [apply compensate_t_frame|].
  intros after.
  refine (force_readers_run USE_64BIT Dev _ b _ _ _ after d _ _ _ Data out1 out2
            Hs Hforce Hdelay Hbusy _).
  intros rt Hv. rewrite (Hrun rt Hv). unfold after.
  rewrite <- List.app_assoc. reflexivity.
Qed.

Lemma force_readers_sequence_witness :
  (driver (ready_dev sleep_mode) = sensor_driver /\
   initialized (ready_dev sleep_mode) <> not_initialized /\
   mode (ready_dev sleep_mode) = sleep_mode /\
   Z.testbit (u8 (reg_value x1_chip BME280_STATUS_ADDR)) 0
   || Z.testbit (u8 (reg_value x1_chip BME280_STATUS_ADDR)) 3 = false /\
   Z.land (u8 (reg_value x1_chip BME280_CTRL_MEAS_ADDR)) 0x03 = 0) /\
  exists d D Dev1,
    3 <= d <= 113 /\
    BME280_ReadAllForce true (ready_dev sleep_mode) blank_data (quiet_bus x1_chip)
    = Some (BME280_OK, D, Dev1,
            {| world := <[BME280_CTRL_MEAS_ADDR := 0x25]> x1_chip;
               trace := [EvRead BME280_CTRL_HUM_ADDR 3;
                         EvWrite BME280_CTRL_MEAS_ADDR 0x25;
                         EvDelay d; EvRead BME280_STATUS_ADDR 1;
                         EvRead BME280_PRESS_ADC_ADDR 8] |}).
Proof.
  assert (H1 : driver (ready_dev sleep_mode) = sensor_driver) by reflexivity.
  assert (H2 : initialized (ready_dev sleep_mode) <> not_initialized)
    by discriminate.
  assert (H3 : mode (ready_dev sleep_mode) = sleep_mode) by reflexivity.
  assert (H4 : Z.testbit (u8 (reg_value x1_chip BME280_STATUS_ADDR)) 0
               || Z.testbit (u8 (reg_value x1_chip BME280_STATUS_ADDR)) 3 = false)
    by (vm_compute; reflexivity).
  assert (H5 : Z.land (u8 (reg_value x1_chip BME280_CTRL_MEAS_ADDR)) 0x03 = 0)
    by (vm_compute; reflexivity).
  split; [exact (conj H1 (conj H2 (conj H3 (conj H4 H5))))|].
  destruct (force_readers_sequence true (ready_dev sleep_mode) x1_chip []
              blank_data 0 0 H1 H2 H3 H4 H5)
    as (d & D & Dev1 & Hd & _ & _ & Hall & _).
  exists d, D, Dev1. split; [exact Hd|exact Hall].
Defined.

(** ** Failures leave the outputs alone *)

Lemma read_compensate_untouched {W : Type} (USE_64BIT : bool) (rt : Z)
  (Dev : BME280_t W) (temp press hum : Z) (b : Bus W) :
  untouched_on_failure Dev (temp, press, hum)
    (bme280_read_compensate USE_64BIT rt Dev temp press hum b).
Proof.
  intros res out' Dev' b' Hrun Hne.
  destruct (valid_read_type rt) eqn:Hv.
  - rewrite (read_compensate_shape USE_64BIT rt Dev temp press hum b Hv) in Hrun.
    destruct (drv_read Dev (adc_read_addr rt) (adc_read_len rt) b)
      as [[[r rx] b1]|]; [|discriminate].
    cbn [mbind option_bind] in Hrun.
    destruct (negb (BME280_OK =? r)) eqn:Hr.
    + injection Hrun as <- <- <- <-. split; reflexivity.
    + exfalso. apply negb_false_iff, Z.eqb_eq in Hr. subst r.
      cbv zeta in Hrun.
      destruct (bme280_compensate_t_s32t Dev _) as [t D1].
      match type of Hrun with
      | context [mbind _ ?m] => destruct m as [p|]
      end; cbn [mbind option_bind] in Hrun; [|discriminate].
      injection Hrun as <- _ _ _. apply Hne. reflexivity.
  - rewrite (read_compensate_invalid USE_64BIT rt Dev temp press hum b Hv) in Hrun.
    injection Hrun as <- <- <- <-. split; reflexivity.
Qed.

Lemma last_tail_untouched {W A : Type} (USE_64BIT : bool) (rt : Z)
  (Dev : BME280_t W) (b : Bus W) (out : A)
  (store : Z -> Z -> Z -> A) :
  untouched_on_failure Dev out
    ('(res, (temp, press, hum), Dev', b) ←
       bme280_read_compensate USE_64BIT rt Dev 0 0 0 b;
     if negb (BME280_OK =? res) then Some (res, out, Dev', b)
     else Some (res, store temp press hum, Dev', b)).
Proof.
  intros res out' Dev' b' Hrun Hne.
  destruct (bme280_read_compensate USE_64BIT rt Dev 0 0 0 b)
    as [[[[r [[t p] h]] D1] b1]|] eqn:Hrc; [|discriminate Hrun].
  cbn [mbind option_bind] in Hrun.
  destruct (Z.eqb_spec BME280_OK r) as [E|E]; cbn [negb] in Hrun.
  - injection Hrun as <- _ _ _. congruence.
  - injection Hrun as <- <- <- <-.
    destruct (read_compensate_untouched USE_64BIT rt Dev 0 0 0 b _ _ _ _ Hrc Hne)
      as [_ ->]. split; reflexivity.
Qed.

Lemma force_tail_untouched {W A : Type} (USE_64BIT : bool) (rt : Z)
  (Dev : BME280_t W) (b : Bus W) (out : A)
  (store : Z -> Z -> Z -> A) :
  untouched_on_failure Dev out
    ('(res, delay', b) ← bme280_set_forced_mode Dev 0 b;
     if negb (BME280_OK =? res) then Some (res, out, Dev, b)
     else
       b ← drv_delay Dev delay' b;
       '(res, b) ← bme280_busy_check Dev b;
       if negb (BME280_OK =? res) then Some (res, out, Dev, b)
       else
         '(res, (temp, press, hum), Dev', b) ←
           bme280_read_compensate USE_64BIT rt Dev 0 0 0 b;
         if negb (BME280_OK =? res) then Some (res, out, Dev', b)
         else Some (res, store temp press hum, Dev', b)).
Proof.
  intros res out' Dev' b' Hrun Hne.
  destruct (bme280_set_forced_mode Dev 0 b) as [[[r d] b1]|]; [|discriminate Hrun].
  cbn [mbind option_bind] in Hrun.
  destruct (Z.eqb_spec BME280_OK r) as [E|E]; cbn [negb] in Hrun;
    [|injection Hrun as <- <- <- <-; split; reflexivity].
  destruct (drv_delay Dev d b1) as [b2|]; [|discriminate Hrun].
  cbn [mbind option_bind] in Hrun.
  destruct (bme280_busy_check Dev b2) as [[r2 b3]|]; [|discriminate Hrun].
  cbn [mbind option_bind] in Hrun.
  destruct (Z.eqb_spec BME280_OK r2) as [E2|E2]; cbn [negb] in Hrun;
    [|injection Hrun as <- <- <- <-; split; reflexivity].
  exact (last_tail_untouched USE_64BIT rt Dev b3 out store _ _ _ _ Hrun Hne).
Qed.

(** X22.  Whenever one of the eight integer readers returns a result
    other than OK, whatever the step that failed (mode check, forcing the
    measurement, busy check after the wait, ADC read), the caller's outputs
    hold what they held before the call and the device structure,
    including the fine temperature, is unchanged. *)
Theorem readers_untouched_on_failure {W : Type} (USE_64BIT : bool)
  (Dev : BME280_t W) (Data : BME280_Data_t) (out1 out2 : Z) (b : Bus W) :
  untouched_on_failure Dev Data (BME280_ReadAllLast USE_64BIT Dev Data b) /\
  untouched_on_failure Dev (out1, out2)
    (BME280_ReadTempLast USE_64BIT Dev out1 out2 b) /\
  untouched_on_failure Dev (out1, out2)
    (BME280_ReadPressLast USE_64BIT Dev out1 out2 b) /\
  untouched_on_failure Dev (out1, out2)
    (BME280_ReadHumLast USE_64BIT Dev out1 out2 b) /\
  untouched_on_failure Dev Data (BME280_ReadAllForce USE_64BIT Dev Data b) /\
  untouched_on_failure Dev (out1, out2)
    (BME280_ReadTempForce USE_64BIT Dev out1 out2 b) /\
  untouched_on_failure Dev (out1, out2)
    (BME280_ReadPressForce USE_64BIT Dev out1 out2 b) /\
  untouched_on_failure Dev (out1, out2)
    (BME280_ReadHumForce USE_64BIT Dev out1 out2 b).
Proof.
  repeat match goal with |- _ /\ _ => split end;
    intros res out' Dev' b' Hrun Hne;
    unfold BME280_ReadAllLast, BME280_ReadTempLast, BME280_ReadPressLast,
      BME280_ReadHumLast, BME280_ReadAllForce, BME280_ReadTempForce,
      BME280_ReadPressForce, BME280_ReadHumForce in Hrun; cbv zeta in Hrun;
    match type of Hrun with
    | (if negb (BME280_OK =? ?r) then _ else _) = _ =>
        destruct (Z.eqb_spec BME280_OK r) as [E|E]; cbn [negb] in Hrun;
        [|injection Hrun as <- <- <- <-; split; reflexivity]
    end.
  - exact (last_tail_untouched USE_64BIT read_all Dev b Data
             (fun t p h => bme280_convert_h_U32_struct h
                             (bme280_convert_p_U32_struct USE_64BIT p
                                (bme280_convert_t_S32_struct t Data)))
             _ _ _ _ Hrun Hne).
  - exact (last_tail_untouched USE_64BIT read_temp Dev b (out1, out2)
             (fun t p h =>
                (s8 (temp_int (bme280_convert_t_S32_struct t blank_data)),
                 u8 (temp_fract (bme280_convert_t_S32_struct t blank_data))))
             _ _ _ _ Hrun Hne).
  - exact (last_tail_untouched USE_64BIT read_press Dev b (out1, out2)
             (fun t p h =>
                (u16 (pressure_int (bme280_convert_p_U32_struct USE_64BIT p blank_data)),
                 u16 (pressure_fract (bme280_convert_p_U32_struct USE_64BIT p blank_data))))
             _ _ _ _ Hrun Hne).
  - exact (last_tail_untouched USE_64BIT read_hum Dev b (out1, out2)
             (fun t p h =>
                (u8 (humidity_int (bme280_convert_h_U32_struct h blank_data)),
                 u16 (humidity_fract (bme280_convert_h_U32_struct h blank_data))))
             _ _ _ _ Hrun Hne).
  - exact (force_tail_untouched USE_64BIT read_all Dev b Data
             (fun t p h => bme280_convert_h_U32_struct h
                             (bme280_convert_p_U32_struct USE_64BIT p
                                (bme280_convert_t_S32_struct t Data)))
             _ _ _ _ Hrun Hne).
  - exact (force_tail_untouched USE_64BIT read_temp Dev b (out1, out2)
             (fun t p h =>
                (s8 (temp_int (bme280_convert_t_S32_struct t blank_data)),
                 u8 (temp_fract (bme280_convert_t_S32_struct t blank_data))))
             _ _ _ _ Hrun Hne).
  - exact (force_tail_untouched USE_64BIT read_press Dev b (out1, out2)
             (fun t p h =>
                (u16 (pressure_int (bme280_convert_p_U32_struct USE_64BIT p blank_data)),
                 u16 (pressure_fract (bme280_convert_p_U32_struct USE_64BIT p blank_data))))
             _ _ _ _ Hrun Hne).
  - exact (force_tail_untouched USE_64BIT read_hum Dev b (out1, out2)
             (fun t p h =>
                (u8 (humidity_int (bme280_convert_h_U32_struct h blank_data)),
                 u16 (humidity_fract (bme280_convert_h_U32_struct h blank_data))))
             _ _ _ _ Hrun Hne).
Qed.

(** ** Failures of the mode setter *)

(** X23.  [BME280_SetMode] checks its argument first: a mode above 3
    gives ParameterError, also on an uninitialised device, and nothing is
    read or written.  With a valid mode an uninitialised device gives
    NotInitializedError without bus traffic.  On an initialised device a
    failed read of the measurement-control register gives InterfaceError
    after that one read, and a failed write gives InterfaceError after the
    read and the write; in both cases the local mode field keeps its old
    value. *)
Theorem set_mode_failures {W : Type} (Dev : BME280_t W) (Mode : Z) (b : Bus W) :
  (BME280_NORMALMODE < Mode ->
   BME280_SetMode Dev Mode b = Some (BME280_PARAM_ERR, Dev, b)) /\
  (Mode <= BME280_NORMALMODE -> initialized Dev = not_initialized ->
   BME280_SetMode Dev Mode b = Some (BME280_NO_INIT_ERR, Dev, b)) /\
  (forall (rd : bme280_readregisters W) (res : Z) (rx : list Z) (w1 : W),
      Mode <= BME280_NORMALMODE -> initialized Dev <> not_initialized ->
      read (driver Dev) = Some rd ->
      rd BME280_CTRL_MEAS_ADDR 1 (world b) = (res, rx, w1) ->
      let b1 := log (EvRead BME280_CTRL_MEAS_ADDR 1) w1 b in
      (res <> BME280_OK ->
       BME280_SetMode Dev Mode b = Some (BME280_INTERFACE_ERR, Dev, b1)) /\
      (forall (wr : bme280_writeregister W) (res2 : Z) (w2 : W),
          res = BME280_OK ->
          Mode <> getter_value CallGetMode (byte_at rx 0) ->
          write (driver Dev) = Some wr ->
          wr BME280_CTRL_MEAS_ADDR
             (u8 (Z.lor (u8 (Z.land (byte_at rx 0) 0xFC)) Mode)) w1 = (res2, w2) ->
          res2 <> BME280_OK ->
          BME280_SetMode Dev Mode b
          = Some (BME280_INTERFACE_ERR, Dev,
                  log (EvWrite BME280_CTRL_MEAS_ADDR
                         (u8 (Z.lor (u8 (Z.land (byte_at rx 0) 0xFC)) Mode)))
                      w2 b1))).
Proof.
  split; [|split].
  - intros H. unfold BME280_SetMode.
    destruct (Z.ltb_spec BME280_NORMALMODE Mode); [reflexivity|lia].
  - intros H Hinit. unfold BME280_SetMode. cbv zeta.
    destruct (Z.ltb_spec BME280_NORMALMODE Mode); [lia|].
    rewrite (not_init_check Dev Hinit). reflexivity.
  - intros rd res rx w1 H Hinit Hrd Hcall b1.
    assert (Hstart :
      BME280_SetMode Dev Mode b
      = if negb (BME280_OK =? res) then Some (BME280_INTERFACE_ERR, Dev, b1)
        else if Mode =? getter_value CallGetMode (byte_at rx 0)
             then Some (BME280_OK, Dev, b1)
             else
               '(res, b) ← drv_write Dev BME280_CTRL_MEAS_ADDR
                             (u8 (Z.lor (u8 (Z.land (byte_at rx 0) 0xFC)) Mode)) b1;
               if negb (BME280_OK =? res) then Some (BME280_INTERFACE_ERR, Dev, b)
               else Some (res, set_mode Dev Mode, b)).
    { unfold BME280_SetMode, drv_read. cbv zeta.
      destruct (Z.ltb_spec BME280_NORMALMODE Mode); [lia|].
      rewrite (init_check_passes Dev Hinit), Hrd. cbn [mbind option_bind].
      rewrite Hcall. cbn [mbind option_bind getter_value].
      rewrite (Z.eqb_sym 2). reflexivity. }
    rewrite Hstart. clear Hstart. split.
    + intros Hne. destruct (Z.eqb_spec BME280_OK res); [congruence|reflexivity].
    + intros wr res2 w2 -> Hdiff Hwr Hw Hne.
      change (negb (BME280_OK =? BME280_OK)) with false. cbv iota.
      destruct (Z.eqb_spec Mode (getter_value CallGetMode (byte_at rx 0)));
        [contradiction|].
      unfold drv_write. rewrite Hwr. cbn [mbind option_bind].
      unfold b1 at 1. cbn [world log]. rewrite Hw. cbn [mbind option_bind].
      destruct (Z.eqb_spec BME280_OK res2); [congruence|reflexivity].
Qed.

Lemma set_mode_failures_witness :
  BME280_NORMALMODE < 4 /\
  BME280_SetMode (fresh_dev null_driver) 4 (quiet_bus x1_chip)
  = Some (BME280_PARAM_ERR, fresh_dev null_driver, quiet_bus x1_chip).
Proof.
  assert (H : BME280_NORMALMODE < 4) by (vm_compute; reflexivity).
  split; [exact H|].
  exact (proj1 (set_mode_failures (fresh_dev null_driver) 4 (quiet_bus x1_chip)) H).
Defined.

(** ** From initialisation to the first reading *)

Lemma Init_sensor (Dev : BME280_t (gmap Z Z)) (regs : gmap Z Z)
  (tr : list bus_event) :
  exists Dev1 tr1,
    BME280_Init Dev sensor_driver {| world := regs; trace := tr |}
    = Some (BME280_OK, Dev1,
            {| world := <[BME280_RESET_ADDR := BME280_RESET_VALUE]> regs;
               trace := tr1 |}) /\
    driver Dev1 = sensor_driver /\ initialized Dev1 = initialized_flag /\
    mode Dev1 = sleep_mode /\ length tr1 = (length tr + 5)%nat.
Proof.
  destruct (Init_runs Dev sensor_driver {| world := regs; trace := tr |}
              sensor_read sensor_write sensor_delay
              (<[BME280_RESET_ADDR := BME280_RESET_VALUE]> regs) _ _ _ _ _ _
              eq_refl eq_refl eq_refl eq_refl
              (sensor_read_one _ BME280_ID_ADDR) eq_refl eq_refl) as [Hinit _].
  eexists. eexists. split; [exact Hinit|].
  split; [reflexivity|]. split; [reflexivity|]. split; [reflexivity|].
  cbn [trace]. rewrite List.length_app. reflexivity.
Qed.

(** The mode bits of the measurement-control byte [BME280_ConfigureAll]
    sends are the low two bits of the configured mode. *)
Lemma config_ctrl_meas_mode (Cfg : Config.t) :
  Z.land (u8 (config_ctrl_meas Cfg)) 0x03 = Z.land (Config.mode Cfg) 0x03.
Proof.
  unfold config_ctrl_meas. rewrite field5_mask, field2_mask.
  pose proof (land7_range (Config.oversampling_t Cfg)) as Ht.
  pose proof (land7_range (Config.oversampling_p Cfg)) as Hp.
  pose proof (land3_range (Config.mode Cfg)) as Hm.
  generalize dependent (Z.land (Config.oversampling_t Cfg) 0x07).
  generalize dependent (Z.land (Config.oversampling_p Cfg) 0x07).
  generalize dependent (Z.land (Config.mode Cfg) 0x03).
  intros m Hm p Hp t Ht.
  pose proof (all_below3_spec 8 8 4
                (fun t p m =>
                   Z.land (u8 (u8 (Z.lor (u8 (Z.lor (u8 (Z.lor 0 (Z.shiftl t 5)))
                                                    (Z.shiftl p 2))) m))) 0x03
                   =? m)
                ltac:(vm_compute; reflexivity) t p m
                ltac:(lia) ltac:(lia) ltac:(lia)) as H.
  cbv beta in H. apply Z.eqb_eq in H. exact H.
Qed.

Lemma ReadAllLast_sensor (USE_64BIT : bool) (Dev : BME280_t (gmap Z Z))
  (regs : gmap Z Z) (tr : list bus_event) (Data : BME280_Data_t) :
  driver Dev = sensor_driver ->
  initialized Dev <> not_initialized -> mode Dev = normal_mode ->
  exists D Dev1 b1,
    BME280_ReadAllLast USE_64BIT Dev Data {| world := regs; trace := tr |}
    = Some (BME280_OK, D, Dev1, b1).
Proof.
  intros Hdrv Hinit Hmode.
  pose proof (is_normal_mode_ok Dev Hinit Hmode) as Hn.
  destruct (sensor_measurement_defined USE_64BIT Dev regs) as (p & Hp & _).
  pose proof (fun rt Hv => read_compensate_sensor USE_64BIT rt Dev 0 0 0 regs tr
                             p Hv Hdrv Hp) as Hrun.
  destruct (last_readers_run USE_64BIT Dev _ {| world := regs; trace := tr |}
              (fun rt => {| world := regs;
                            trace := tr ++ [EvRead (adc_read_addr rt)
                                              (adc_read_len rt)] |})
              _ _ _ Data 0 0 Hn Hrun) as [Hall _].
  eexists. eexists. eexists. exact Hall.
Qed.

Lemma ReadAllForce_sensor (USE_64BIT : bool) (Dev : BME280_t (gmap Z Z))
  (regs : gmap Z Z) (tr : list bus_event) (Data : BME280_Data_t) :
  driver Dev = sensor_driver ->
  initialized Dev <> not_initialized -> mode Dev = sleep_mode ->
  Z.testbit (u8 (reg_value regs BME280_STATUS_ADDR)) 0
  || Z.testbit (u8 (reg_value regs BME280_STATUS_ADDR)) 3 = false ->
  Z.land (u8 (reg_value regs BME280_CTRL_MEAS_ADDR)) 0x03 = 0 ->
  exists D Dev1 b1,
    BME280_ReadAllForce USE_64BIT Dev Data {| world := regs; trace := tr |}
    = Some (BME280_OK, D, Dev1, b1).
Proof.
  intros Hdrv Hinit Hmode Hidle Hsleep.
  pose proof (is_sleep_mode_ok Dev Hinit Hmode) as Hs.
  destruct (forced_prefix_sensor Dev regs tr Hdrv Hidle Hsleep)
    as (d & _ & Hforce & Hdelay & Hbusy).
  destruct (sensor_measurement_defined USE_64BIT Dev
              (<[BME280_CTRL_MEAS_ADDR :=
                   u8 (reg_value regs BME280_CTRL_MEAS_ADDR) + 1]> regs))
    as (p & Hp & _).
  pose proof (fun rt Hv =>
                read_compensate_sensor USE_64BIT rt Dev 0 0 0
                  (<[BME280_CTRL_MEAS_ADDR :=
                       u8 (reg_value regs BME280_CTRL_MEAS_ADDR) + 1]> regs)
                  (tr ++ [EvRead BME280_CTRL_HUM_ADDR 3;
                          EvWrite BME280_CTRL_MEAS_ADDR
                            (u8 (reg_value regs BME280_CTRL_MEAS_ADDR) + 1);
                          EvDelay d; EvRead BME280_STATUS_ADDR 1])
                  p Hv Hdrv Hp) as Hrun.
  destruct (force_readers_run USE_64BIT Dev _ _ _ _ _
              (fun rt => {| world := <[BME280_CTRL_MEAS_ADDR :=
                                         u8 (reg_value regs BME280_CTRL_MEAS_ADDR) + 1]> regs;
                            trace := (tr ++ [EvRead BME280_CTRL_HUM_ADDR 3;
                                             EvWrite BME280_CTRL_MEAS_ADDR
                                               (u8 (reg_value regs BME280_CTRL_MEAS_ADDR) + 1);
                                             EvDelay d; EvRead BME280_STATUS_ADDR 1])
                                     ++ [EvRead (adc_read_addr rt) (adc_read_len rt)] |})
              d _ _ _ Data 0 0 Hs Hforce Hdelay Hbusy Hrun) as [Hall _].
  eexists. eexists. eexists. exact Hall.
Qed.

(** X24.  On the register-file sensor, starting from any device
    structure, [BME280_Init] followed by [BME280_ConfigureAll] succeeds with
    eight bus operations in all.  If the configured mode is Normal,
    [BME280_ReadAllLast] then succeeds and [BME280_ReadAllForce] is refused
    with ConditionError without bus traffic; if the configured mode is
    Sleep, [BME280_ReadAllLast] is refused with ConditionError and
    [BME280_ReadAllForce] succeeds provided the status register shows the
    sensor idle. *)
Theorem init_configure_read (USE_64BIT : bool) (Dev0 : BME280_t (gmap Z Z))
  (regs : gmap Z Z) (Cfg : Config.t) (Data : BME280_Data_t) :
  exists Dev1 b1 Dev2 b2,
    BME280_Init Dev0 sensor_driver (quiet_bus regs) = Some (BME280_OK, Dev1, b1) /\
    BME280_ConfigureAll Dev1 Cfg b1 = Some (BME280_OK, Dev2, b2) /\
    length (trace b2) = 8%nat /\
    (Config.mode Cfg = BME280_NORMALMODE ->
     (exists D Dev3 b3,
        BME280_ReadAllLast USE_64BIT Dev2 Data b2 = Some (BME280_OK, D, Dev3, b3)) /\
     BME280_ReadAllForce USE_64BIT Dev2 Data b2
     = Some (BME280_CONDITION_ERR, Data, Dev2, b2)) /\
    (Config.mode Cfg = BME280_SLEEPMODE ->
     BME280_ReadAllLast USE_64BIT Dev2 Data b2
     = Some (BME280_CONDITION_ERR, Data, Dev2, b2) /\
     (Z.testbit (u8 (reg_value regs BME280_STATUS_ADDR)) 0
      || Z.testbit (u8 (reg_value regs BME280_STATUS_ADDR)) 3 = false ->
      exists D Dev3 b3,
        BME280_ReadAllForce USE_64BIT Dev2 Data b2 = Some (BME280_OK, D, Dev3, b3))).
Proof.
  destruct (Init_sensor Dev0 regs []) as (Dev1 & tr1 & Hinit & Hdrv & Hi & Hm & Hlen).
  assert (Hi' : initialized Dev1 <> not_initialized) by (rewrite Hi; discriminate).
  pose proof (ConfigureAll_sensor Dev1 Cfg
                (<[BME280_RESET_ADDR := BME280_RESET_VALUE]> regs) tr1 Hdrv Hi' Hm)
    as Hcfg.
  eexists. eexists. eexists. eexists.
  split; [exact Hinit|]. split; [exact Hcfg|]. split.
  { cbn [trace]. rewrite !List.length_app, Hlen. reflexivity. }
  split.
  - intros Hmode. rewrite Hmode.
    change ((BME280_NORMALMODE =? 0) || (BME280_NORMALMODE =? 1)
            || (BME280_NORMALMODE =? 3)) with true. cbv iota.
    split.
    + apply ReadAllLast_sensor; [exact Hdrv|exact Hi'|reflexivity].
    + unfold BME280_ReadAllForce. cbv zeta.
      unfold bme280_is_sleep_mode. cbn [initialized mode set_mode].
      destruct (Z.eqb_spec not_initialized (initialized Dev1)); [congruence|].
      reflexivity.
  - intros Hmode. rewrite Hmode.
    change ((BME280_SLEEPMODE =? 0) || (BME280_SLEEPMODE =? 1)
            || (BME280_SLEEPMODE =? 3)) with true. cbv iota.
    split.
    + unfold BME280_ReadAllLast. cbv zeta.
      unfold bme280_is_normal_mode. cbn [initialized mode set_mode].
      destruct (Z.eqb_spec not_initialized (initialized Dev1)); [congruence|].
      reflexivity.
    + intros Hidle.
      apply ReadAllForce_sensor; [exact Hdrv|exact Hi'|reflexivity| |].
      * rewrite !reg_value_insert_ne by discriminate. exact Hidle.
      * rewrite reg_value_insert_ne by discriminate. rewrite reg_value_insert.
        rewrite config_ctrl_meas_mode, Hmode. reflexivity.
Qed.

Lemma init_configure_read_witness :
  Config.mode {| Config.oversampling_t := 1; Config.oversampling_p := 1;
                 Config.oversampling_h := 1; Config.t_stby := 0;
                 Config.filter := 0; Config.spi3w_enable := 0;
                 Config.mode := BME280_NORMALMODE |} = BME280_NORMALMODE /\
  exists Dev1 b1 Dev2 b2 D Dev3 b3,
    BME280_Init (fresh_dev null_driver) sensor_driver (quiet_bus x1_chip)
    = Some (BME280_OK, Dev1, b1) /\
    BME280_ConfigureAll Dev1
      {| Config.oversampling_t := 1; Config.oversampling_p := 1;
         Config.oversampling_h := 1; Config.t_stby := 0;
         Config.filter := 0; Config.spi3w_enable := 0;
         Config.mode := BME280_NORMALMODE |} b1
    = Some (BME280_OK, Dev2, b2) /\
    BME280_ReadAllLast true Dev2 blank_data b2 = Some (BME280_OK, D, Dev3, b3).
Proof.
  assert (H : Config.mode
                {| Config.oversampling_t := 1; Config.oversampling_p := 1;
                   Config.oversampling_h := 1; Config.t_stby := 0;
                   Config.filter := 0; Config.spi3w_enable := 0;
                   Config.mode := BME280_NORMALMODE |} = BME280_NORMALMODE)
    by reflexivity.
  split; [exact H|].
  destruct (init_configure_read true (fresh_dev null_driver) x1_chip
              {| Config.oversampling_t := 1; Config.oversampling_p := 1;
                 Config.oversampling_h := 1; Config.t_stby := 0;
                 Config.filter := 0; Config.spi3w_enable := 0;
                 Config.mode := BME280_NORMALMODE |} blank_data)
    as (Dev1 & b1 & Dev2 & b2 & Hinit & Hcfg & _ & Hnormal & _).
  destruct (Hnormal H) as [(D & Dev3 & b3 & Hread) _].
  exists Dev1, b1, Dev2, b2, D, Dev3, b3.
  split; [exact Hinit|]. split; [exact Hcfg|exact Hread].
Defined.
